(** * Sprite animation generator: orchestration client, packer, validator

  A shallow embedding of the three Python modules of the proof-of-concept
  sprite generator,

  - [comfyui_client.py]   (module [ComfyUIClient]),
  - [sprite_packer.py]    (module [SpritePacker]),
  - [generate_sprites.py] (modules [GenerateSprites] and [WalkCycle]),

  together with the properties of the generation-job protocol, the seed
  derivation, the sheet packer, the consistency validator, the prompts,
  the walk cycle and the main program.

  Python integers are [Z]; Python floats are rationals obtained through a
  rounding function that stands for IEEE double rounding (class
  [Float.Rounding]); a raised exception is the [Raise] branch of
  [Py.result]; a JSON document parsed by [json.loads] is a [Json.json]
  whose objects are association lists in document order.  The Pillow
  raster type is modelled in module [PIL]. *)

From Stdlib Require Import String Ascii ZArith QArith Qround List Bool Lia.
From Stdlib Require Import Strings.Byte Numbers.DecimalString.
From stdpp Require Import base strings gmap.
Import ListNotations.

Open Scope Z_scope.

(** ** JSON values, as [json.loads] returns them *)

Module Json.

(** [dict] keeps insertion order, so an object is an association list. *)
#[warnings="-register-all"]
Inductive json : Type :=
| JNull
| JBool (b : bool)
| JInt (n : Z)
| JFloat (q : Q)
| JStr (s : string)
| JArr (items : list json)
| JObj (fields : list (string * json)).

Fixpoint assoc (key : string) (fields : list (string * json)) : option json :=
  match fields with
  | [] => None
  | (k, v) :: rest => if String.eqb k key then Some v else assoc key rest
  end.

End Json.
Export Json.

(** ** Python results and exceptions *)

Module Py.

(** The exceptions the three modules can raise.  Those built by the source
    with [Exception(...)] keep the arguments of their message:
    - [QueueFailed c t]    is [Exception(f"Failed to queue prompt: {c} {t}")],
    - [Timeout]            is [Exception("Timeout waiting for image generation")],
    - [ExecutionError d]   is [Exception(f"Execution error: {d}")],
    - [HistoryFailed c]    is [Exception(f"Failed to get history: {c}")],
    - [NoImagesFound]      is [Exception("No images found in output")].
    [TransportError] stands for the failures of the HTTP and WebSocket
    libraries (connection refused, read timeout, connection closed); all
    of them derive from [Exception]. *)
Inductive exn : Type :=
| QueueFailed (status_code : Z) (text : string)
| Timeout
| ExecutionError (data : json)
| HistoryFailed (status_code : Z)
| NoImagesFound
| ValueError (msg : string)
| KeyError (key : string)
| TypeError
| AttributeError
| ZeroDivisionError
| JSONDecodeError
| TransportError (detail : string).

Inductive result (A : Type) : Type :=
| Return (a : A)
| Raise (e : exn).
Arguments Return {A} a.
Arguments Raise {A} e.

Definition bind {A B : Type} (r : result A) (k : A -> result B) : result B :=
  match r with
  | Return a => k a
  | Raise e => Raise e
  end.

End Py.
Export Py.

(** [result] is a monad in stdpp's sense: [x ← r; k] runs [k] on the value
    of [r] and propagates an exception of [r] unchanged. *)
#[global] Instance result_ret : MRet Py.result := @Py.Return.
#[global] Instance result_bind : MBind Py.result :=
  fun A B k r => Py.bind r k.

(** ** [hashlib.md5] (RFC 1321), on byte values in [Z] *)

Module MD5.

Definition add32 (a b : Z) : Z := (a + b) mod 2 ^ 32.
Definition not32 (a : Z) : Z := Z.lxor a 0xFFFFFFFF.
Definition rotl32 (x c : Z) : Z :=
  Z.lor (Z.land (Z.shiftl x c) 0xFFFFFFFF) (Z.shiftr x (32 - c)).

Definition S_table : list Z :=
  [7; 12; 17; 22; 7; 12; 17; 22; 7; 12; 17; 22; 7; 12; 17; 22;
   5; 9; 14; 20; 5; 9; 14; 20; 5; 9; 14; 20; 5; 9; 14; 20;
   4; 11; 16; 23; 4; 11; 16; 23; 4; 11; 16; 23; 4; 11; 16; 23;
   6; 10; 15; 21; 6; 10; 15; 21; 6; 10; 15; 21; 6; 10; 15; 21].

Definition K_table : list Z :=
  [0xd76aa478; 0xe8c7b756; 0x242070db; 0xc1bdceee;
   0xf57c0faf; 0x4787c62a; 0xa8304613; 0xfd469501;
   0x698098d8; 0x8b44f7af; 0xffff5bb1; 0x895cd7be;
   0x6b901122; 0xfd987193; 0xa679438e; 0x49b40821;
   0xf61e2562; 0xc040b340; 0x265e5a51; 0xe9b6c7aa;
   0xd62f105d; 0x02441453; 0xd8a1e681; 0xe7d3fbc8;
   0x21e1cde6; 0xc33707d6; 0xf4d50d87; 0x455a14ed;
   0xa9e3e905; 0xfcefa3f8; 0x676f02d9; 0x8d2a4c8a;
   0xfffa3942; 0x8771f681; 0x6d9d6122; 0xfde5380c;
   0xa4beea44; 0x4bdecfa9; 0xf6bb4b60; 0xbebfbc70;
   0x289b7ec6; 0xeaa127fa; 0xd4ef3085; 0x04881d05;
   0xd9d4d039; 0xe6db99e5; 0x1fa27cf8; 0xc4ac5665;
   0xf4292244; 0x432aff97; 0xab9423a7; 0xfc93a039;
   0x655b59c3; 0x8f0ccc92; 0xffeff47d; 0x85845dd1;
   0x6fa87e4f; 0xfe2ce6e0; 0xa3014314; 0x4e0811a1;
   0xf7537e82; 0xbd3af235; 0x2ad7d2bb; 0xeb86d391].

(** The [n] low bytes of [v], least significant first. *)
Fixpoint le_bytes (n : nat) (v : Z) : list Z :=
  match n with
  | O => []
  | S n' => v mod 256 :: le_bytes n' (v / 256)
  end.

Fixpoint le_word (bs : list Z) : Z :=
  match bs with
  | [] => 0
  | b :: bs' => b + 256 * le_word bs'
  end.

Definition pad (msg : list Z) : list Z :=
  let len := Z.of_nat (List.length msg) in
  let zeros := Z.to_nat ((55 - len) mod 64) in
  msg ++ [0x80] ++ repeat 0 zeros ++ le_bytes 8 ((8 * len) mod 2 ^ 64).

Fixpoint words (n : nat) (bs : list Z) : list Z :=
  match n with
  | O => []
  | S n' => le_word (firstn 4 bs) :: words n' (skipn 4 bs)
  end.

Definition state : Type := (Z * Z * Z * Z)%type.

Definition round (M : list Z) (st : state) (i : Z) : state :=
  let '(A, B, C, D) := st in
  let '(F, g) :=
    if i <? 16 then (Z.lor (Z.land B C) (Z.land (not32 B) D), i)
    else if i <? 32 then
      (Z.lor (Z.land D B) (Z.land (not32 D) C), (5 * i + 1) mod 16)
    else if i <? 48 then (Z.lxor (Z.lxor B C) D, (3 * i + 5) mod 16)
    else (Z.lxor C (Z.lor B (not32 D)), (7 * i) mod 16) in
  let F' :=
    add32 (add32 (add32 F A) (nth (Z.to_nat i) K_table 0))
          (nth (Z.to_nat g) M 0) in
  (D, add32 B (rotl32 F' (nth (Z.to_nat i) S_table 0)), B, C).

Definition process_chunk (st : state) (chunk : list Z) : state :=
  let M := words 16 chunk in
  let '(A, B, C, D) := fold_left (round M) (map Z.of_nat (seq 0 64)) st in
  let '(a0, b0, c0, d0) := st in
  (add32 a0 A, add32 b0 B, add32 c0 C, add32 d0 D).

Fixpoint chunks (n : nat) (bs : list Z) : list (list Z) :=
  match n with
  | O => []
  | S n' => firstn 64 bs :: chunks n' (skipn 64 bs)
  end.

Definition digest (msg : list Z) : list Z :=
  let p := pad msg in
  let '(a, b, c, d) :=
    fold_left process_chunk (chunks (List.length p / 64) p)
      (0x67452301, 0xefcdab89, 0x98badcfe, 0x10325476) in
  le_bytes 4 a ++ le_bytes 4 b ++ le_bytes 4 c ++ le_bytes 4 d.

Definition hex_digits : list ascii :=
  ["0"; "1"; "2"; "3"; "4"; "5"; "6"; "7";
   "8"; "9"; "a"; "b"; "c"; "d"; "e"; "f"]%char.

Fixpoint hex_of_bytes (bs : list Z) : string :=
  match bs with
  | [] => EmptyString
  | b :: bs' =>
      String (nth (Z.to_nat (b / 16)) hex_digits "0"%char)
        (String (nth (Z.to_nat (b mod 16)) hex_digits "0"%char)
           (hex_of_bytes bs'))
  end.

(** [hashlib.md5(data).hexdigest()] *)
Definition hexdigest (data : list Z) : string := hex_of_bytes (digest data).

End MD5.

(** ** Python built-ins used by the modules *)

Module Builtins.

(** [str.encode()]: a [string] already holds the UTF-8 bytes. *)
Definition encode (s : string) : list Z :=
  map (fun c => Z.of_N (N_of_ascii c)) (list_ascii_of_string s).

Definition hex_value (c : ascii) : Z :=
  let n := Z.of_N (N_of_ascii c) in
  if (48 <=? n) && (n <=? 57) then n - 48
  else if (97 <=? n) && (n <=? 102) then n - 87
  else if (65 <=? n) && (n <=? 70) then n - 55
  else 0.

(** [int(s, 16)] on a string of hexadecimal digits. *)
Definition int16 (s : string) : Z :=
  fold_left (fun acc c => 16 * acc + hex_value c) (list_ascii_of_string s) 0.

(** [str(n)] for an integer. *)
Definition str_of_int (n : Z) : string :=
  NilEmpty.string_of_int (Z.to_int n).

(** [sum(xs)] on a list of integers. *)
Definition sum (xs : list Z) : Z := fold_left Z.add xs 0.

(** [sub in s] for two strings. *)
Fixpoint str_contains (sub s : string) : bool :=
  String.prefix sub s ||
  match s with
  | EmptyString => false
  | String _ s' => str_contains sub s'
  end.

(** [d.get(key)]: [None] (JSON null) when the key is absent; only a [dict]
    has the method. *)
Definition dict_get (d : json) (key : string) : result json :=
  match d with
  | JObj fields => Return (default JNull (assoc key fields))
  | _ => Raise AttributeError
  end.

(** [d.get(key, dflt)] *)
Definition dict_get_default (d : json) (key : string) (dflt : json)
  : result json :=
  match d with
  | JObj fields => Return (default dflt (assoc key fields))
  | _ => Raise AttributeError
  end.

(** [d[key]] for a string key. *)
Definition getitem (d : json) (key : string) : result json :=
  match d with
  | JObj fields =>
      match assoc key fields with
      | Some v => Return v
      | None => Raise (KeyError key)
      end
  | _ => Raise TypeError
  end.

(** [d.items()] *)
Definition dict_items (d : json) : result (list (string * json)) :=
  match d with
  | JObj fields => Return fields
  | _ => Raise AttributeError
  end.

Definition is_str (v : json) (s : string) : bool :=
  match v with
  | JStr s' => String.eqb s' s
  | _ => false
  end.

(** The number a value stands for in a comparison: [bool] is a subclass of
    [int], and an [int] and a [float] are compared by their exact values. *)
Definition number (v : json) : option Q :=
  match v with
  | JBool b => Some (inject_Z (if b then 1 else 0))
  | JInt n => Some (inject_Z n)
  | JFloat q => Some q
  | _ => None
  end.

(** [a == b] for two values of the JSON types: numbers by value, strings
    by content, lists element by element, dicts by their keys and the
    values under them; values of different kinds are unequal. *)
Fixpoint py_eq (a b : json) : bool :=
  match a with
  | JNull => match b with JNull => true | _ => false end
  | JBool _ | JInt _ | JFloat _ =>
      match number a, number b with
      | Some p, Some q => Qeq_bool p q
      | _, _ => false
      end
  | JStr s => match b with JStr t => String.eqb s t | _ => false end
  | JArr xs =>
      match b with
      | JArr ys =>
          (fix items (xs ys : list json) : bool :=
             match xs, ys with
             | [], [] => true
             | x :: xs', y :: ys' => py_eq x y && items xs' ys'
             | _, _ => false
             end) xs ys
      | _ => false
      end
  | JObj fs =>
      match b with
      | JObj gs =>
          (List.length fs =? List.length gs)%nat &&
          (fix fields (fs : list (string * json)) : bool :=
             match fs with
             | [] => true
             | (k, v) :: fs' =>
                 match assoc k gs with
                 | Some v' => py_eq v v'
                 | None => false
                 end && fields fs'
             end) fs
      | _ => false
      end
  end.

(** [d.get(key, dflt)] for a key that is any JSON value: a list or a dict
    is unhashable, and a key that is no string equals none of the string
    keys of a parsed object. *)
Definition dict_get_key (d : json) (key : json) (dflt : json) : result json :=
  match d with
  | JObj fields =>
      match key with
      | JStr s => Return (default dflt (assoc s fields))
      | JArr _ | JObj _ => Raise TypeError
      | _ => Return dflt
      end
  | _ => Raise AttributeError
  end.

(** [key in c] for a string key: key membership for a [dict], substring
    test for a [str], element test for a [list]. *)
Definition contains (key : string) (c : json) : result bool :=
  match c with
  | JObj fields => Return (bool_decide (is_Some (assoc key fields)))
  | JStr s => Return (str_contains key s)
  | JArr items => Return (existsb (fun v => is_str v key) items)
  | _ => Raise TypeError
  end.

(** [for x in c]: the elements of a [list], the keys of a [dict], the
    characters of a [str]. *)
Definition iterate (c : json) : result (list json) :=
  match c with
  | JArr items => Return items
  | JObj fields => Return (map (fun kv => JStr (fst kv)) fields)
  | JStr s =>
      Return (map (fun ch => JStr (String ch EmptyString))
                  (list_ascii_of_string s))
  | _ => Raise TypeError
  end.

End Builtins.

(** ** Python floats *)

Module Float.

(** A Python float is the rational it denotes.  Every arithmetic operation
    computes the exact result and rounds it to a double; the rounding
    function is a parameter. *)
Class Rounding := { round : Q -> Q }.

Section Ops.
Context `{Rounding}.

(** [a / b] on two integers (true division). *)
Definition truediv (a b : Z) : result Q :=
  if b =? 0 then Raise ZeroDivisionError
  else Return (round (inject_Z a / inject_Z b)).

(** [n * x] for an integer [n] and a float [x]. *)
Definition mul_int (n : Z) (x : Q) : Q := round (inject_Z n * x).

(** [x + y] *)
Definition add (x y : Q) : Q := round (x + y).

(** [x / n] for a float [x] and a non-zero integer [n]. *)
Definition div_int (x : Q) (n : Z) : result Q :=
  if n =? 0 then Raise ZeroDivisionError
  else Return (round (x / inject_Z n)).

End Ops.

(** [min(x, y)]: the second argument only when it is strictly smaller. *)
Definition min (x y : Q) : Q := if Qle_bool x y then x else y.

(** [int(x)] truncates toward zero. *)
Definition to_int (x : Q) : Z := if Qle_bool 0 x then Qfloor x else Qceiling x.

(** [x > y] *)
Definition gt (x y : Q) : bool := negb (Qle_bool x y).

End Float.


(** ** Pillow rasters

    The part of Pillow's [Image] class that the packer and the validator
    call: [size], [mode], [Image.new], [resize], [paste] and [histogram],
    with the behaviour Pillow documents for them (sizes, modes, clipping,
    the errors for bad sizes and for modes it does not convert, the blend
    of a masked paste). *)

Module PIL.

(** The image modes with 8-bit bands. *)
Inductive mode_t : Type :=
| M1 | L | P | RGB | RGBA | CMYK | YCbCr | LAB | HSV | LA | PA | RGBX | RGBa | La.

(** [im.mode] is the mode's name. *)
Definition mode_name (m : mode_t) : string :=
  match m with
  | M1 => "1" | L => "L" | P => "P" | RGB => "RGB" | RGBA => "RGBA"
  | CMYK => "CMYK" | YCbCr => "YCbCr" | LAB => "LAB" | HSV => "HSV"
  | LA => "LA" | PA => "PA" | RGBX => "RGBX" | RGBa => "RGBa" | La => "La"
  end.

(** [len(im.getbands())] *)
Definition bands (m : mode_t) : nat :=
  match m with
  | M1 | L | P => 1
  | LA | PA | La => 2
  | RGB | YCbCr | LAB | HSV => 3
  | RGBA | CMYK | RGBX | RGBa => 4
  end%nat.

(** The modes whose last band is an alpha channel. *)
Definition has_alpha (m : mode_t) : bool :=
  match m with
  | RGBA | LA | PA | RGBa | La => true
  | _ => false
  end.

(** A raster: [getpixel x y b] is the value of band [b] at column [x], row
    [y]; only the coordinates inside [width] x [height] and the bands of the
    mode are meaningful. *)
Record Image : Type := mkImage {
  mode : mode_t;
  width : nat;
  height : nat;
  getpixel : nat -> nat -> nat -> byte
}.

(** [im.size] *)
Definition size (im : Image) : Z * Z := (Z.of_nat (width im), Z.of_nat (height im)).

Definition size_eqb (a b : Z * Z) : bool :=
  (fst a =? fst b) && (snd a =? snd b).

(** What is not modelled of Pillow: the pixel values of the resampling
    filter of [resize] and of the colour conversion of [convert], and the
    table of the conversions that [convert] supports.
    [conversion_error src dst] is the text of the [ValueError] that
    [convert] raises for an image of mode [src] asked for mode [dst], and
    [None] when Pillow converts from [src] to [dst]. *)
Class Kernels := {
  resample : Image -> nat -> nat -> nat -> nat -> nat -> byte;
  convert_pixels : Image -> mode_t -> nat -> nat -> nat -> byte;
  conversion_error : mode_t -> mode_t -> option string
}.

(** [Image.new(mode, size, color)]; a negative dimension is a [ValueError]. *)
Definition new (m : mode_t) (sz : Z * Z) (color : list byte) : result Image :=
  let '(w, h) := sz in
  if (w <? 0) || (h <? 0) then
    Raise (ValueError "Width and height must be >= 0")
  else
    Return {| mode := m; width := Z.to_nat w; height := Z.to_nat h;
              getpixel := fun _ _ b => nth b color "000"%byte |}.

Section WithKernels.
Context `{Kernels}.

(** [im.resize(size, Image.Resampling.LANCZOS)]: a copy when the size is
    unchanged, a [ValueError] when a requested dimension is below 1. *)
Definition resize (im : Image) (sz : Z * Z) : result Image :=
  let '(w, h) := sz in
  if size_eqb (size im) sz then Return im
  else if (w <? 1) || (h <? 1) then
    Raise (ValueError "height and width must be > 0")
  else
    Return {| mode := mode im; width := Z.to_nat w; height := Z.to_nat h;
              getpixel := resample im (Z.to_nat w) (Z.to_nat h) |}.

(** The image that a supported conversion gives. *)
Definition converted (im : Image) (m : mode_t) : Image :=
  {| mode := m; width := width im; height := height im;
     getpixel := convert_pixels im m |}.

(** [im.convert(mode)]: a copy when the image has the mode already, a
    [ValueError] when Pillow does not convert between the two modes. *)
Definition convert (im : Image) (m : mode_t) : result Image :=
  if String.eqb (mode_name (mode im)) (mode_name m) then Return im
  else
    match conversion_error (mode im) m with
    | Some msg => Raise (ValueError msg)
    | None => Return (converted im m)
    end.

End WithKernels.

(** Band values are bytes; a byte literal is written by its decimal code,
    ["000"] to ["255"]. *)
Definition byte_of_Z (v : Z) : byte :=
  default "000"%byte (Byte.of_N (Z.to_N v)).

Definition Z_of_byte (b : byte) : Z := Z.of_N (Byte.to_N b).

(** The compositing step of a masked paste: [(d*(255-m) + s*m) / 255],
    rounded to nearest with the shift-and-add division by 255. *)
Definition blend (m d s : byte) : byte :=
  let tmp := Z_of_byte d * (255 - Z_of_byte m) + Z_of_byte s * Z_of_byte m + 128 in
  byte_of_Z (Z.shiftr (Z.shiftr tmp 8 + tmp) 8).

(** The band of a mask image that is used as matte. *)
Definition matte_band (m : mode_t) : nat := (bands m - 1)%nat.

Section Paste.
Context `{Kernels}.

(** The source of a paste, in the destination's mode.  When the modes
    differ the source goes through [convert], which raises for a mode that
    Pillow does not convert; only a source with an alpha band (LA, RGBA,
    RGBa) pasted on an RGB destination is taken as it is, its colour bands
    being read without a conversion that can fail. *)
Definition paste_source (dst src : Image) : result Image :=
  if String.eqb (mode_name (mode src)) (mode_name (mode dst)) then Return src
  else
    match mode dst, mode src with
    | RGB, (LA | RGBA | RGBa) => Return (converted src RGB)
    | _, _ => convert src (mode dst)
    end.

(** The destination after the paste of [src'], the source in the
    destination's mode: inside the pasted region a pixel is the source
    pixel, or the blend of destination and source by the mask's matte when
    a mask is given; outside it the destination is kept.  The region is
    clipped to the destination. *)
Definition pasted (dst src' : Image) (box : Z * Z) (mask : option Image) : Image :=
  {| mode := mode dst; width := width dst; height := height dst;
     getpixel := fun x y b =>
       let sx := Z.of_nat x - fst box in
       let sy := Z.of_nat y - snd box in
       if (0 <=? sx) && (sx <? Z.of_nat (width src')) &&
          (0 <=? sy) && (sy <? Z.of_nat (height src')) then
         let s := getpixel src' (Z.to_nat sx) (Z.to_nat sy) b in
         match mask with
         | None => s
         | Some mk =>
             blend (getpixel mk (Z.to_nat sx) (Z.to_nat sy) (matte_band (mode mk)))
                   (getpixel dst x y b) s
         end
       else getpixel dst x y b |}.

(** [dst.paste(src, box, mask)] with a 2-tuple [box]; the destination is
    changed in place, so the result stands for it from then on. *)
Definition paste (dst src : Image) (box : Z * Z) (mask : option Image)
  : result Image :=
  src' ← paste_source dst src;
  Return (pasted dst src' box mask).

End Paste.

(** The pixel coordinates of a raster, row by row. *)
Definition coords (im : Image) : list (nat * nat) :=
  flat_map (fun y => map (fun x => (x, y)) (seq 0 (width im))) (seq 0 (height im)).

(** [im.histogram()]: 256 pixel counts per band, the bands concatenated. *)
Definition histogram (im : Image) : list Z :=
  flat_map
    (fun b =>
       map (fun v =>
              Z.of_nat (List.length
                (List.filter
                   (fun xy =>
                      Nat.eqb (Byte.to_nat (getpixel im (fst xy) (snd xy) b)) v)
                   (coords im))))
           (seq 0 256))
    (seq 0 (bands (mode im))).

End PIL.

(** ** [comfyui_client.py]

    The HTTP and WebSocket traffic is kept by its content: a request is
    recorded with its arguments rather than as a URL, and the backend is a
    record of functions that answer the requests. *)

Module ComfyUIClient.
Import Builtins.

(** An [httpx] response: [body] is what [response.json()] parses, [None]
    when the text is not JSON. *)
Record Response : Type := mkResponse {
  status_code : Z;
  text : string;
  body : option json;
  content : list byte
}.

(** [response.json()] *)
Definition response_json (r : Response) : result json :=
  match body r with
  | Some v => Return v
  | None => Raise JSONDecodeError
  end.

(** What ends one [asyncio.wait] of the receive loop, the timer apart: a
    frame that [json.loads] parses, a frame that it rejects, a [recv] that
    raises because the connection is gone, or the cancellation of the
    waiting task itself. *)
Inductive ws_item : Type :=
| WsMessage (message : json)
| WsGarbage
| WsDisconnected
| WsCancelled.

(** The backend and the process environment, as seen by one client call.
    [ws_connect] gives the frames the channel delivers before the client's
    timer ([self.timeout], 120 seconds) fires; the timer fires when they
    are used up.  [get_history] is asked with the id that the client
    formats into the path of its request. *)
Record World : Type := mkWorld {
  time_ms : Z;
  random_choices : string;
  post_prompt : json -> string -> result Response;
  ws_connect : string -> result (list ws_item);
  get_history : json -> result Response;
  get_view : json -> json -> json -> result Response
}.

(** What the client does to the outside, in order. *)
Inductive effect : Type :=
| PostPrompt (workflow : json) (client_id : string)
| WsConnect (client_id : string)
| CancelTimeoutTask
| CancelMessageTask
| WsClose
| GetHistory (prompt_id : json)
| GetView (filename subfolder image_type : json)
| Print (e : exn).

(** A client computation: the effects performed, then a value or an
    exception. *)
Definition io (A : Type) : Type := (list effect * result A)%type.

#[global] Instance io_ret : MRet io := fun A a => ([], Return a).
#[global] Instance io_bind : MBind io := fun A B k m =>
  match m with
  | (t, Return a) => let '(t', r) := k a in (t ++ t', r)
  | (t, Raise e) => (t, Raise e)
  end.

Definition perform (e : effect) : io unit := ([e], Return tt).
Definition lift {A : Type} (r : result A) : io A := ([], r).
Definition raise {A : Type} (e : exn) : io A := ([], Raise e).

(** [try: m except Exception as e: handler(e)] *)
Definition try_except {A : Type} (m : io A) (handler : exn -> io A) : io A :=
  match m with
  | (t, Return a) => (t, Return a)
  | (t, Raise e) => let '(t', r) := handler e in (t ++ t', r)
  end.

(** [try: m finally: cleanup] *)
Definition try_finally {A : Type} (m : io A) (cleanup : io unit) : io A :=
  let '(t, r) := m in
  match cleanup with
  | (t', Return _) => (t ++ t', r)
  | (t', Raise e) => (t ++ t', Raise e)
  end.

Definition ref (node : string) (slot : Z) : json := JArr [JStr node; JInt slot].

Definition _create_workflow (prompt negative_prompt : string) (seed width height : Z)
  : json :=
  JObj [
    ("3", JObj [
      ("inputs", JObj [
        ("seed", JInt seed);
        ("steps", JInt 15);
        ("cfg", JFloat (15 # 2));
        ("sampler_name", JStr "euler_a");
        ("scheduler", JStr "normal");
        ("denoise", JInt 1);
        ("model", ref "4" 0);
        ("positive", ref "6" 0);
        ("negative", ref "7" 0);
        ("latent_image", ref "5" 0)]);
      ("class_type", JStr "KSampler")]);
    ("4", JObj [
      ("inputs", JObj [("ckpt_name", JStr "v1-5-pruned-emaonly.safetensors")]);
      ("class_type", JStr "CheckpointLoaderSimple")]);
    ("5", JObj [
      ("inputs", JObj [("width", JInt width); ("height", JInt height);
                       ("batch_size", JInt 1)]);
      ("class_type", JStr "EmptyLatentImage")]);
    ("6", JObj [
      ("inputs", JObj [("text", JStr prompt); ("clip", ref "4" 1)]);
      ("class_type", JStr "CLIPTextEncode")]);
    ("7", JObj [
      ("inputs", JObj [("text", JStr negative_prompt); ("clip", ref "4" 1)]);
      ("class_type", JStr "CLIPTextEncode")]);
    ("8", JObj [
      ("inputs", JObj [("samples", ref "3" 0); ("vae", ref "4" 2)]);
      ("class_type", JStr "VAEDecode")]);
    ("9", JObj [
      ("inputs", JObj [("filename_prefix", JStr "poc_sprite"); ("images", ref "8" 0)]);
      ("class_type", JStr "SaveImage")])].

Definition _generate_client_id (w : World) : string :=
  let timestamp := time_ms w in
  let rand_str := random_choices w in
  ("poc-" ++ str_of_int timestamp ++ "-" ++ rand_str)%string.

(** The annotation [-> str] is not checked when the code runs: the id is
    whatever value the acknowledgement has under ["prompt_id"], and the
    later stages are run with it. *)
Definition _queue_prompt (w : World) (workflow : json) (client_id : string)
  : io json :=
  _ ← perform (PostPrompt workflow client_id);
  response ← lift (post_prompt w workflow client_id);
  if negb (status_code response =? 200) then
    raise (QueueFailed (status_code response) (text response))
  else
    data ← lift (response_json response);
    lift (getitem data "prompt_id").

Definition is_none (v : json) : bool :=
  match v with
  | JNull => true
  | _ => false
  end.

(** The body of the receive loop for one parsed message: [Return true] is
    the [return] of the completion branch, [Return false] goes round the
    loop again. *)
Definition handle_message (prompt_id : json) (message : json) : result bool :=
  ty ← dict_get message "type";
  complete ←
    (if is_str ty "executing" then
       msg_data ← dict_get_default message "data" (JObj []);
       node ← dict_get msg_data "node";
       if is_none node then
         pid ← dict_get msg_data "prompt_id";
         Return (py_eq pid prompt_id)
       else Return false
     else Return false);
  if complete : bool then Return true
  else
    ty' ← dict_get message "type";
    if is_str ty' "execution_error" then
      data ← dict_get message "data";
      Raise (ExecutionError data)
    else Return false.

(** The [while True] loop inside [try: ... except asyncio.CancelledError:
    pass].  The second component tells whether [message_task] is still
    pending when the loop is left.  A cancellation of the wait is swallowed
    by the [except] clause, so the loop is left without an exception. *)
Fixpoint wait_loop (prompt_id : json) (stream : list ws_item) : io unit * bool :=
  match stream with
  | [] => (raise Timeout, true)
  | item :: rest =>
      match item with
      | WsCancelled => (mret tt, true)
      | WsDisconnected => (raise (TransportError "connection closed"), false)
      | WsGarbage => (raise JSONDecodeError, false)
      | WsMessage message =>
          match handle_message prompt_id message with
          | Raise e => (raise e, false)
          | Return true => (perform CancelTimeoutTask, false)
          | Return false => wait_loop prompt_id rest
          end
      end
  end.

(** The [finally] block, then the exit of [async with]. *)
Definition _wait_for_completion (w : World) (prompt_id : json)
  (client_id : string) : io unit :=
  _ ← perform (WsConnect client_id);
  stream ← lift (ws_connect w client_id);
  let '(loop, message_task_pending) := wait_loop prompt_id stream in
  try_finally
    (try_finally loop
       (_ ← perform CancelTimeoutTask;
        if message_task_pending : bool then perform CancelMessageTask
        else mret tt))
    (perform WsClose).

Fixpoint scan_images (w : World) (images : list json) : io (option (list byte)) :=
  match images with
  | [] => mret None
  | image :: rest =>
      filename ← lift (getitem image "filename");
      subfolder ← lift (dict_get_default image "subfolder" (JStr ""));
      image_type ← lift (dict_get_default image "type" (JStr "output"));
      _ ← perform (GetView filename subfolder image_type);
      image_response ← lift (get_view w filename subfolder image_type);
      if status_code image_response =? 200 then
        mret (Some (content image_response))
      else scan_images w rest
  end.

Fixpoint scan_outputs (w : World) (outputs : list (string * json))
  : io (option (list byte)) :=
  match outputs with
  | [] => mret None
  | (node_id, node_output) :: rest =>
      has_images ← lift (contains "images" node_output);
      found ←
        (if has_images : bool then
           images ← lift (getitem node_output "images");
           images ← lift (iterate images);
           scan_images w images
         else mret None);
      match found with
      | Some data => mret (Some data)
      | None => scan_outputs w rest
      end
  end.

Definition _get_generated_image (w : World) (prompt_id : json)
  : io (list byte) :=
  _ ← perform (GetHistory prompt_id);
  history_response ← lift (get_history w prompt_id);
  if negb (status_code history_response =? 200) then
    raise (HistoryFailed (status_code history_response))
  else
    history ← lift (response_json history_response);
    record ← lift (dict_get_key history prompt_id (JObj []));
    outputs ← lift (dict_get_default record "outputs" (JObj []));
    outputs ← lift (dict_items outputs);
    found ← scan_outputs w outputs;
    match found with
    | Some data => mret data
    | None => raise NoImagesFound
    end.

Definition generate_image (w : World) (prompt negative_prompt : string)
  (seed width height : Z) : io (option (list byte)) :=
  let workflow := _create_workflow prompt negative_prompt seed width height in
  let client_id := _generate_client_id w in
  try_except
    (prompt_id ← _queue_prompt w workflow client_id;
     _ ← _wait_for_completion w prompt_id client_id;
     image_data ← _get_generated_image w prompt_id;
     mret (Some image_data))
    (fun e => _ ← perform (Print e); mret None).

End ComfyUIClient.

(** ** [sprite_packer.py] *)

Module SpritePacker.
Import PIL.

(** One entry of ["frames"]: the keys ["x"], ["y"], ["w"], ["h"],
    ["duration"]. *)
Record FrameMetadata : Type := mkFrame {
  x : Z;
  y : Z;
  w : Z;
  h : Z;
  duration : Z
}.

(** The metadata dictionary: ["animations"] maps the animation name to its
    ["frames"] list. *)
Record Metadata : Type := mkMetadata {
  animations : gmap string (list FrameMetadata);
  entityType : string;
  spriteSize : Z * Z;
  totalFrames : Z
}.

Definition transparent : list byte := ["000"; "000"; "000"; "000"]%byte.

Section WithKernels.
Context `{Kernels}.

(** The [for i, frame in enumerate(frames)] loop of [pack]. *)
Fixpoint pack_frames (sprite_width sprite_height cols : Z)
  (frames : list Image) (i : Z) (sprite_sheet : Image)
  (frame_metadata : list FrameMetadata)
  : result (Image * list FrameMetadata) :=
  match frames with
  | [] => Return (sprite_sheet, frame_metadata)
  | frame :: rest =>
      frame ←
        (if negb (size_eqb (size frame) (sprite_width, sprite_height)) then
           resize frame (sprite_width, sprite_height)
         else Return frame);
      let col := i mod cols in
      let row := i / cols in
      let x := col * sprite_width in
      let y := row * sprite_height in
      sprite_sheet ← paste sprite_sheet frame (x, y) None;
      pack_frames sprite_width sprite_height cols rest (i + 1) sprite_sheet
        (frame_metadata ++
         [{| x := x; y := y; w := sprite_width; h := sprite_height;
             duration := 150 |}])
  end.

Definition pack (frames : list Image) (entity_name animation_name : string)
  : result (Image * Metadata) :=
  match frames with
  | [] => Raise (ValueError "Cannot pack empty frame list")
  | first :: _ =>
      let '(sprite_width, sprite_height) := size first in
      let num_frames := Z.of_nat (List.length frames) in
      let cols := if 1 <? num_frames then 2 else 1 in
      let rows := (num_frames + cols - 1) / cols in
      let sheet_width := sprite_width * cols in
      let sheet_height := sprite_height * rows in
      sprite_sheet ← new RGBA (sheet_width, sheet_height) transparent;
      packed ← pack_frames sprite_width sprite_height cols frames 0 sprite_sheet [];
      let '(sprite_sheet, frame_metadata) := packed in
      Return (sprite_sheet,
              {| animations := {[ animation_name := frame_metadata ]};
                 entityType := entity_name;
                 spriteSize := (sprite_width, sprite_height);
                 totalFrames := num_frames |})
  end.

Context `{Float.Rounding}.

Definition normalize_sprite (image : Image) (target_size : Z * Z)
  : result Image :=
  image ←
    (if negb (size_eqb (size image) target_size) then
       let '(img_width, img_height) := size image in
       let '(target_width, target_height) := target_size in
       sx ← Float.truediv target_width img_width;
       sy ← Float.truediv target_height img_height;
       let scale := Float.min sx sy in
       let new_width := Float.to_int (Float.mul_int img_width scale) in
       let new_height := Float.to_int (Float.mul_int img_height scale) in
       resize image (new_width, new_height)
     else Return image);
  canvas ← new RGBA target_size transparent;
  let offset_x := (fst target_size - fst (size image)) / 2 in
  let offset_y := (snd target_size - snd (size image)) / 2 in
  canvas ← paste canvas image (offset_x, offset_y)
             (if String.eqb (mode_name (mode image)) "RGBA" then Some image
              else None);
  Return canvas.

End WithKernels.

End SpritePacker.

(** ** [generate_sprites.py] *)

Module GenerateSprites.
Import Builtins PIL.

(** The literal [{"walk": 1000, "idle": 0, "attack": 2000}]. *)
Definition animation_offset : gmap string Z :=
  <["walk" := 1000]> (<["idle" := 0]> (<["attack" := 2000]> ∅)).

Definition get_sprite_seed (entity_name animation : string) (frame : Z) : Z :=
  let base_seed :=
    int16 (String.substring 0 8 (MD5.hexdigest (encode entity_name))) in
  base_seed + default 0 (animation_offset !! animation) + frame.

(** The [results] dictionary of [validate_sprites]. *)
Record Results : Type := mkResults {
  size_consistent : bool;
  has_transparency : bool;
  frame_count : Z;
  visual_similarity : Q;
  passes : bool
}.

(** What [validate_sprites] returns: the dictionary
    [{"passes": ..., "error": ...}] of the empty case, or [results]. *)
Inductive Validation : Type :=
| ErrorReport (passes : bool) (error : string)
| Report (results : Results).

Section WithRounding.
Context `{Float.Rounding}.

(** The loop over adjacent histograms, [similarity_sum] threaded through. *)
Fixpoint similarity_loop (histograms : list (list Z)) (similarity_sum : Q)
  : result Q :=
  match histograms with
  | h1 :: ((h2 :: _) as rest) =>
      similarity ←
        Float.truediv
          (sum (map (fun ab => Z.min (fst ab) (snd ab)) (combine h1 h2)))
          (sum h1);
      similarity_loop rest (Float.add similarity_sum similarity)
  | _ => Return similarity_sum
  end.

Definition validate_sprites (frames : list Image) : result Validation :=
  match frames with
  | [] => Return (ErrorReport false "No frames")
  | first :: _ =>
      let size_consistent :=
        forallb (fun f => size_eqb (size f) (size first)) frames in
      let has_transparency :=
        forallb (fun f => String.eqb (mode_name (mode f)) "RGBA") frames in
      let frame_count := Z.of_nat (List.length frames) in
      visual_similarity ←
        (if 1 <? Z.of_nat (List.length frames) then
           let histograms := map histogram frames in
           similarity_sum ← similarity_loop histograms 0;
           Float.div_int similarity_sum (Z.of_nat (List.length frames) - 1)
         else Return 1%Q);
      Return (Report
        {| size_consistent := size_consistent;
           has_transparency := has_transparency;
           frame_count := frame_count;
           visual_similarity := visual_similarity;
           passes := size_consistent && has_transparency
                     && Float.gt visual_similarity (1 # 2) |})
  end.

End WithRounding.

End GenerateSprites.

(** ** Concrete rasters, kernels and backends used as test inputs *)

Module Fixtures.
Import PIL.

(** Rounding that keeps the exact value. *)
Definition exact_rounding : Float.Rounding := {| Float.round := fun q => q |}.

(** Nearest-neighbour resampling; conversion that repeats the first band
    and sets an opaque last band; and a table of conversions that, like
    Pillow's, has no conversion from the premultiplied mode La to a colour
    mode. *)
Definition nearest_kernels : Kernels :=
  {| resample := fun im w h x y b =>
       getpixel im (x * width im / w)%nat (y * height im / h)%nat b;
     convert_pixels := fun im m x y b =>
       if Nat.eqb (S b) (bands m) then "255"%byte else getpixel im x y 0%nat;
     conversion_error := fun src dst =>
       match src, dst with
       | La, (La | LA) => None
       | La, _ =>
           Some ("conversion from La to " ++ mode_name dst ++ " not supported")%string
       | _, _ => None
       end |}.

(** A raster of one colour. *)
Definition solid (m : mode_t) (w h : nat) (color : list byte) : Image :=
  {| mode := m; width := w; height := h;
     getpixel := fun _ _ b => nth b color "000"%byte |}.

Definition opaque_red : Image := solid RGBA 2 2 ["255"; "000"; "000"; "255"]%byte.
Definition opaque_blue : Image := solid RGBA 2 2 ["000"; "000"; "255"; "255"]%byte.
Definition half_white : Image := solid RGBA 1 1 ["255"; "255"; "255"; "128"]%byte.
Definition grey_alpha : Image := solid LA 2 2 ["128"; "255"]%byte.
Definition no_pixels : Image := solid RGBA 0 0 [].

End Fixtures.

(** A backend that acknowledges the job, reports progress and completion,
    and serves one image; variations of it fail at one stage each. *)
Module Backends.
Import ComfyUIClient.

Definition ok (doc : json) (data : list byte) : Response :=
  {| status_code := 200; text := ""; body := Some doc; content := data |}.

Definition failed (code : Z) (msg : string) : Response :=
  {| status_code := code; text := msg; body := None; content := [] |}.

Definition executing (node : json) (job : string) : json :=
  JObj [("type", JStr "executing");
        ("data", JObj [("node", node); ("prompt_id", JStr job)])].

Definition progress : json :=
  JObj [("type", JStr "progress");
        ("data", JObj [("value", JInt 3); ("max", JInt 15)])].

Definition execution_error : json :=
  JObj [("type", JStr "execution_error");
        ("data", JObj [("exception_message", JStr "out of memory")])].

Definition descriptor (name : string) : json :=
  JObj [("filename", JStr name); ("subfolder", JStr ""); ("type", JStr "output")].

Definition history_with (images : list json) : json :=
  JObj [("job-1", JObj [("outputs", JObj [("9", JObj [("images", JArr images)])])])].

Definition png : list byte := ["137"; "080"; "078"; "071"]%byte.

Definition healthy : World :=
  {| time_ms := 1700000000000;
     random_choices := "k3x9q0abz";
     post_prompt := fun _ _ => Return (ok (JObj [("prompt_id", JStr "job-1")]) []);
     ws_connect := fun _ =>
       Return [WsMessage progress; WsMessage (executing (JStr "3") "job-1");
               WsMessage (executing JNull "job-1")];
     get_history := fun _ => Return (ok (history_with [descriptor "poc_sprite_00001_.png"]) []);
     get_view := fun _ _ _ => Return (ok JNull png) |}.

Definition with_post (w : World) (f : json -> string -> result Response) : World :=
  {| time_ms := time_ms w; random_choices := random_choices w;
     post_prompt := f; ws_connect := ws_connect w;
     get_history := get_history w; get_view := get_view w |}.

Definition with_events (w : World) (items : list ws_item) : World :=
  {| time_ms := time_ms w; random_choices := random_choices w;
     post_prompt := post_prompt w; ws_connect := fun _ => Return items;
     get_history := get_history w; get_view := get_view w |}.

Definition with_history (w : World) (doc : json) : World :=
  {| time_ms := time_ms w; random_choices := random_choices w;
     post_prompt := post_prompt w; ws_connect := ws_connect w;
     get_history := fun _ => Return (ok doc []); get_view := get_view w |}.

Definition with_view (w : World) (f : json -> json -> json -> result Response) : World :=
  {| time_ms := time_ms w; random_choices := random_choices w;
     post_prompt := post_prompt w; ws_connect := ws_connect w;
     get_history := get_history w; get_view := f |}.

(** The request of the sample calls, ["goblin"] against ["blurry"], seed 42,
    128 x 128, and the client id drawn in [healthy] and its variations. *)
Definition sample_workflow : json := _create_workflow "goblin" "blurry" 42 128 128.
Definition sample_client_id : string := "poc-1700000000000-k3x9q0abz".

(** The backend rejects the submission. *)
Definition rejecting : World :=
  with_post healthy (fun _ _ => Return (failed 500 "busy")).

(** The channel delivers progress only; the timer fires. *)
Definition silent : World :=
  with_events healthy [WsMessage progress; WsMessage (executing (JStr "3") "job-1")].

(** The backend reports an execution error. *)
Definition erroring : World :=
  with_events healthy [WsMessage progress; WsMessage execution_error;
                       WsMessage (executing JNull "job-1")].

(** The history names no image. *)
Definition without_images : World := with_history healthy (history_with []).

(** The history names two images and every retrieval is answered 404. *)
Definition unretrievable : World :=
  with_view (with_history healthy (history_with [descriptor "a.png"; descriptor "b.png"]))
            (fun _ _ _ => Return (failed 404 "not found")).

(** The first of two images is answered 404, the second is served. *)
Definition second_served : World :=
  with_view (with_history healthy (history_with [descriptor "a.png"; descriptor "b.png"]))
            (fun name _ _ =>
               if Builtins.is_str name "b.png" then Return (ok JNull png)
               else Return (failed 404 "not found")).

End Backends.

(** ** Notions used in the statements *)

Module Notions.
Import PIL.

(** The animation kinds that have an entry in the offset table. *)
Definition known_animation (animation : string) : Prop :=
  In animation ["walk"; "idle"; "attack"].

(** A raster with at least one pixel. *)
Definition has_pixels (im : Image) : Prop :=
  (0 < width im)%nat /\ (0 < height im)%nat.

(** A raster that [paste] can put on an RGBA destination: it is RGBA, or
    of a mode that Pillow converts to RGBA. *)
Definition pastes_on_rgba `{Kernels} (im : Image) : Prop :=
  mode_name (mode im) = "RGBA" \/ conversion_error (mode im) RGBA = None.

(** The two facts about rounding to a double that the bounds rest on: it is
    monotone, and the integers up to [2^53] are doubles. *)
Definition monotone_rounding `{Float.Rounding} : Prop :=
  forall x y : Q, (x <= y)%Q -> (Float.round x <= Float.round y)%Q.

Definition exact_on_integers `{Float.Rounding} : Prop :=
  forall k : Z, 0 <= k <= 2 ^ 53 -> (Float.round (inject_Z k) == inject_Z k)%Q.

(** The size to which [normalize_sprite] rescales a raster that does not
    have the target size. *)
Definition scaled_size `{Float.Rounding} (im : Image) (target : Z * Z) : Z * Z :=
  let img_width := Z.of_nat (width im) in
  let img_height := Z.of_nat (height im) in
  let scale :=
    Float.min (Float.round (inject_Z (fst target) / inject_Z img_width))
              (Float.round (inject_Z (snd target) / inject_Z img_height)) in
  (Float.to_int (Float.mul_int img_width scale),
   Float.to_int (Float.mul_int img_height scale)).

(** *** Events of the tracking channel *)

(** An event is a JSON object; the payload of an "executing" event, when it
    has one, is an object. *)
Definition well_formed_event (ev : json) : Prop :=
  exists fields,
    ev = JObj fields /\
    (assoc "type" fields = Some (JStr "executing") ->
     assoc "data" fields = None \/
     exists data, assoc "data" fields = Some (JObj data)).

(** An "executing" event whose payload has no node (the key is null or
    absent: both read as [None]) and names the tracked job. *)
Definition completion_event (job_id : string) (ev : json) : Prop :=
  exists fields data,
    ev = JObj fields /\
    assoc "type" fields = Some (JStr "executing") /\
    assoc "data" fields = Some (JObj data) /\
    (assoc "node" data = None \/ assoc "node" data = Some JNull) /\
    assoc "prompt_id" data = Some (JStr job_id).

(** An "execution_error" event with payload [detail]. *)
Definition error_event (ev detail : json) : Prop :=
  exists fields,
    ev = JObj fields /\
    assoc "type" fields = Some (JStr "execution_error") /\
    detail = default JNull (assoc "data" fields).

(** Any other event. *)
Definition progress_event (job_id : string) (ev : json) : Prop :=
  well_formed_event ev /\
  ~ completion_event job_id ev /\
  ~ (exists detail, error_event ev detail).

(** *** History records *)

(** The output nodes that the history document [doc] lists for [job_id]:
    none when the record or its "outputs" entry is missing. *)
Definition history_outputs (job_id : string) (doc : json)
  (outputs : list (string * json)) : Prop :=
  exists history,
    doc = JObj history /\
    ((assoc job_id history = None /\ outputs = []) \/
     exists record,
       assoc job_id history = Some (JObj record) /\
       ((assoc "outputs" record = None /\ outputs = []) \/
        assoc "outputs" record = Some (JObj outputs))).

(** An image descriptor is an object with a "filename". *)
Definition well_formed_descriptor (d : json) : Prop :=
  exists fields name, d = JObj fields /\ assoc "filename" fields = Some name.

(** An output node is an object whose "images" entry, when present, is a
    list of descriptors. *)
Definition well_formed_node (node_output : json) : Prop :=
  exists fields,
    node_output = JObj fields /\
    (assoc "images" fields = None \/
     exists images,
       assoc "images" fields = Some (JArr images) /\
       Forall well_formed_descriptor images).

Definition node_descriptors (node_output : json) : list json :=
  match node_output with
  | JObj fields =>
      match assoc "images" fields with
      | Some (JArr images) => images
      | _ => []
      end
  | _ => []
  end.

(** The image descriptors of all output nodes, in the order reported. *)
Definition descriptors (outputs : list (string * json)) : list json :=
  flat_map (fun kv => node_descriptors (snd kv)) outputs.

(** The byte-retrieval request of one descriptor. *)
Definition retrieval (w : ComfyUIClient.World) (d : json)
  : result ComfyUIClient.Response :=
  match d with
  | JObj fields =>
      match assoc "filename" fields with
      | Some name =>
          ComfyUIClient.get_view w name
            (default (JStr "") (assoc "subfolder" fields))
            (default (JStr "output") (assoc "type" fields))
      | None => Raise (KeyError "filename")
      end
  | _ => Raise TypeError
  end.

(** The request is answered, with a status other than 200. *)
Definition retrieval_fails (w : ComfyUIClient.World) (d : json) : Prop :=
  exists r, retrieval w d = Return r /\ ComfyUIClient.status_code r <> 200.

(** The request is answered with status 200 and content [data]. *)
Definition retrieval_succeeds (w : ComfyUIClient.World) (d : json)
  (data : list byte) : Prop :=
  exists r, retrieval w d = Return r /\ ComfyUIClient.status_code r = 200 /\
            ComfyUIClient.content r = data.

(** The first descriptor of a list that is retrieved, scanning in order. *)
Fixpoint first_retrieved (w : ComfyUIClient.World) (ds : list json)
  : result (option (list byte)) :=
  match ds with
  | [] => Return None
  | d :: rest =>
      match retrieval w d with
      | Raise e => Raise e
      | Return r =>
          if ComfyUIClient.status_code r =? 200
          then Return (Some (ComfyUIClient.content r))
          else first_retrieved w rest
      end
  end.

End Notions.
Import Notions.

(** ** Further notions: workflow graphs, requests *)

Module GraphNotions.

(** The nodes of a workflow graph, and their ids. *)
Definition graph_nodes (graph : json) : list (string * json) :=
  match graph with
  | JObj nodes => nodes
  | _ => []
  end.

Definition node_ids (graph : json) : list string := map fst (graph_nodes graph).

(** An input written [[node_id, slot]] refers to the output of a node. *)
Definition as_reference (v : json) : option string :=
  match v with
  | JArr [JStr node_id; JInt _] => Some node_id
  | _ => None
  end.

(** The nodes whose outputs a node consumes. *)
Definition node_references (node : json) : list string :=
  match node with
  | JObj fields =>
      match assoc "inputs" fields with
      | Some (JObj inputs) => omap (fun kv => as_reference (snd kv)) inputs
      | _ => []
      end
  | _ => []
  end.

(** The nodes of a given ["class_type"]. *)
Definition nodes_of_class (class : string) (graph : json) : list string :=
  match graph with
  | JObj nodes =>
      map fst
        (List.filter
           (fun kv =>
              match snd kv with
              | JObj fields =>
                  Builtins.is_str (default JNull (assoc "class_type" fields)) class
              | _ => false
              end)
           nodes)
  | _ => []
  end.

(** [graph[node]["inputs"][key]] *)
Definition input_of (graph : json) (node key : string) : result json :=
  n ← Builtins.getitem graph node;
  inputs ← Builtins.getitem n "inputs";
  Builtins.getitem inputs key.

(** Position of a node id in the order checkpoint, latent, encoders,
    sampler, decoder, saver. *)
Definition stage_rank (node_id : string) : nat :=
  if String.eqb node_id "4" then 0
  else if String.eqb node_id "5" then 1
  else if String.eqb node_id "6" then 2
  else if String.eqb node_id "7" then 3
  else if String.eqb node_id "3" then 4
  else if String.eqb node_id "8" then 5
  else 6.

End GraphNotions.
Import GraphNotions.

(** ** Further notions: the requests of a fetch, the stages of a call *)

Module FetchNotions.
Import ComfyUIClient.

(** The request that the scan sends for a descriptor. *)
Definition view_request (d : json) : effect :=
  match d with
  | JObj fields =>
      GetView (default JNull (assoc "filename" fields))
              (default (JStr "") (assoc "subfolder" fields))
              (default (JStr "output") (assoc "type" fields))
  | _ => GetView JNull JNull JNull
  end.

(** The descriptors that an in-order scan reaches: it stops behind the
    first one that is not answered with a status other than 200. *)
Fixpoint scanned (w : World) (ds : list json) : list json :=
  match ds with
  | [] => []
  | d :: rest =>
      d :: match retrieval w d with
           | Return r => if status_code r =? 200 then [] else scanned w rest
           | Raise _ => []
           end
  end.

(** The stage of [generate_image] that an effect belongs to: submission,
    tracking, fetching, or the final report. *)
Definition stage_of (e : effect) : nat :=
  match e with
  | PostPrompt _ _ => 0
  | WsConnect _ | CancelTimeoutTask | CancelMessageTask | WsClose => 1
  | GetHistory _ | GetView _ _ _ => 2
  | Print _ => 3
  end.

Fixpoint nondecreasing (l : list nat) : Prop :=
  match l with
  | a :: (b :: _) as rest => (a <= b)%nat /\ nondecreasing rest
  | _ => True
  end.

End FetchNotions.
Import FetchNotions.

(** ** [generate_sprites.py]: prompts, the walk cycle and [main] *)

Module WalkCycle.
Import Builtins PIL ComfyUIClient SpritePacker GenerateSprites.

Definition newline : string := String (ascii_of_nat 10) EmptyString.

(** [c.isspace()] on an ASCII character. *)
Definition is_space (c : ascii) : bool :=
  let n := nat_of_ascii c in
  ((9 <=? n) && (n <=? 13) || (28 <=? n) && (n <=? 32))%nat.

Fixpoint lstrip (s : string) : string :=
  match s with
  | EmptyString => EmptyString
  | String c s' => if is_space c then lstrip s' else s
  end.

Fixpoint rstrip (s : string) : string :=
  match s with
  | EmptyString => EmptyString
  | String c s' =>
      match rstrip s' with
      | EmptyString => if is_space c then EmptyString else String c EmptyString
      | r => String c r
      end
  end.

(** [s.strip()] *)
Definition strip (s : string) : string := rstrip (lstrip s).

(** The default of the parameter [style]. *)
Definition default_style : string := "16-bit SNES pixel art".

(** The template is a triple-quoted literal: it opens and closes with a
    line break. *)
Definition build_prompt (entity_description pose style : string) : string :=
  strip (newline ++
         "isometric pixel art sprite, " ++ entity_description ++ "," ++ newline ++
         pose ++ "," ++ newline ++
         style ++ ", clean pixel art," ++ newline ++
         "45-degree angle top-down view," ++ newline ++
         "single character centered in frame," ++ newline ++
         "transparent background," ++ newline ++
         "retro RPG game aesthetic," ++ newline ++
         "crisp pixels, no anti-aliasing," ++ newline ++
         "clear silhouette" ++ newline)%string.

Definition NEGATIVE_PROMPT : string :=
  strip (newline ++
         "multiple characters, duplicate sprites," ++ newline ++
         "blurry, smooth gradients, anti-aliasing," ++ newline ++
         "3d render, realistic, photograph," ++ newline ++
         "shadows on ground, ground plane," ++ newline ++
         "perspective distortion," ++ newline ++
         "text, watermark, UI elements," ++ newline ++
         "different art styles, inconsistent style" ++ newline)%string.

Definition WALK_POSES : list string :=
  ["standing idle, centered pose";
   "mid-stride walking, left foot forward";
   "standing idle, centered pose";
   "mid-stride walking, right foot forward"].

(** An entity is a dictionary of strings. *)
Definition Entity : Type := gmap string string.

Definition TEST_ENTITIES : list Entity :=
  [<["name" := "goblin"]>
     (<["description" := "small green-skinned goblin warrior with ragged leather armor and rusty dagger"]> ∅);
   <["name" := "fighter"]>
     (<["description" := "human fighter in polished plate armor with longsword and shield"]> ∅);
   <["name" := "skeleton"]>
     (<["description" := "animated skeleton archer with tattered hooded cloak and bone bow"]> ∅)].

(** [entity[key]] *)
Definition entity_getitem (entity : Entity) (key : string) : result string :=
  match entity !! key with
  | Some v => Return v
  | None => Raise (KeyError key)
  end.

(** A [pathlib] path: the directory handed in, or [parent / name]. *)
Inductive path : Type :=
| Dir (name : string)
| Child (parent : path) (name : string).

(** What a [print] is given.  The text of a formatted float, of
    [str.capitalize] and of [Path.absolute] is not computed: the value and
    the format are kept. *)
Inductive fragment : Type :=
| Text (s : string)
| Capitalized (s : string)
| Fixed1 (x : Q)
| Percent0 (x : Q)
| Absolute (p : path).

(** What a run does to the outside, in order: the effects of a call of
    the client, the probe of [is_available], the lines printed (with their
    [end]), the directories made ([exist_ok=True], with or without
    [parents=True]) and the files written. *)
Inductive action : Type :=
| Client (e : effect)
| Probe
| Say (line : list fragment) (ending : string)
| Mkdir (p : path) (parents : bool)
| SaveImage (p : path) (im : Image)
| DumpJson (p : path) (md : Metadata).

(** The exceptions of a run: those of the modules above, and the one of
    [Image.open] on data that is no image. *)
Inductive error : Type :=
| PyError (e : exn)
| ImageError.

Inductive answer (A : Type) : Type :=
| Ok (a : A)
| Err (e : error).
Arguments Ok {A} a.
Arguments Err {A} e.

(** A computation of the generator: the actions performed, then a value or
    an exception.  Writing to the output directory and to the console is
    taken to succeed. *)
Definition run (A : Type) : Type := (list action * answer A)%type.

#[global] Instance run_ret : MRet run := fun A a => ([], Ok a).
#[global] Instance run_bind : MBind run := fun A B k m =>
  match m with
  | (t, Ok a) => let '(t', r) := k a in (t ++ t', r)
  | (t, Err e) => (t, Err e)
  end.

Definition act (a : action) : run unit := ([a], Ok tt).

Definition of_result {A : Type} (r : result A) : run A :=
  ([], match r with Return a => Ok a | Raise e => Err (PyError e) end).

(** A call of the client inside a run. *)
Definition of_io {A : Type} (m : io A) : run A :=
  (map Client (fst m),
   match snd m with Return a => Ok a | Raise e => Err (PyError e) end).

(** [print(line)] and [print(line, end=ending, flush=True)] *)
Definition say (line : list fragment) : run unit := act (Say line newline).
Definition say_end (line : list fragment) (ending : string) : run unit :=
  act (Say line ending).

(** The process environment of one call of [generate_walk_cycle]: the
    backend as the [k]-th call of [generate_image] sees it, the [k]-th
    reading of [time.time()], and the decoder behind
    [Image.open(BytesIO(data))], [None] when the data is no image. *)
Record Env : Type := mkEnv {
  worlds : nat -> World;
  clock : nat -> Q;
  image_open : list byte -> option Image
}.

(** What [generate_walk_cycle] returns: the dictionary with the key
    ["error"], or the one with ["entity"], ["frames"], ["avg_time"],
    ["total_time"] and ["validation"]. *)
Inductive CycleResult : Type :=
| Failed (error : string)
| Summary (entity : string) (frames : Z) (avg_time total_time : Q)
    (validation : Validation).

(** [sprite_sheet.save(sheet_path, "PNG")], then [json.dump] into
    [metadata.json].  [output_path] is [str(output_dir)], turned back into
    a path. *)
Definition save_sprite_sheet (sprite_sheet : Image) (metadata : Metadata)
  (output_path : path) (entity_name : string) : run (path * path) :=
  let output_dir := Child output_path entity_name in
  _ ← act (Mkdir output_dir true);
  let sheet_path := Child output_dir "spritesheet.png" in
  _ ← act (SaveImage sheet_path sprite_sheet);
  let metadata_path := Child output_dir "metadata.json" in
  _ ← act (DumpJson metadata_path metadata);
  mret (sheet_path, metadata_path).

Section WithEnv.
Context `{Kernels} `{Float.Rounding} (env : Env).

(** [a - b] on two floats. *)
Definition float_sub (a b : Q) : Q := Float.round (a - b).

(** [sum(xs)] on a list of floats: the additions start from the integer 0. *)
Definition float_sum (xs : list Q) : Q := fold_left Float.add xs 0%Q.

(** The loop [for frame_idx, pose in enumerate(WALK_POSES)].  A pass reads
    the clock twice, so pass [frame_idx] has the readings [2 * frame_idx]
    and [2 * frame_idx + 1].  [inl] is the [return] inside the loop, [inr]
    the end of the loop. *)
Fixpoint walk_frames (entity_name entity_desc : string) (output_dir : path)
  (poses : list string) (frame_idx : nat) (frames : list Image)
  (timings : list Q) : run (CycleResult + list Image * list Q) :=
  match poses with
  | [] => mret (inr (frames, timings))
  | pose :: rest =>
      let start_time := clock env (2 * frame_idx) in
      let seed := get_sprite_seed entity_name "walk" (Z.of_nat frame_idx) in
      let prompt := build_prompt entity_desc pose default_style in
      _ ← say_end
            [Text ("  Frame " ++ str_of_int (Z.of_nat frame_idx) ++ "/4: "
                   ++ String.substring 0 30 pose ++ "...")] " ";
      image_data ←
        of_io (generate_image (worlds env frame_idx) prompt NEGATIVE_PROMPT
                 seed 128 128);
      match image_data with
      | None =>
          _ ← say [Text "✗ FAILED"];
          mret (inl (Failed ("Frame " ++ str_of_int (Z.of_nat frame_idx)
                             ++ " generation failed")))
      | Some image_data =>
          img ← (match image_open env image_data with
                 | Some img => mret img
                 | None => ([], Err ImageError)
                 end);
          img_normalized ← of_result (normalize_sprite img (32, 32));
          let entity_dir := Child output_dir entity_name in
          _ ← act (Mkdir entity_dir true);
          _ ← act (SaveImage
                     (Child entity_dir
                        ("walk_" ++ str_of_int (Z.of_nat frame_idx) ++ ".png"))
                     img_normalized);
          let frames := frames ++ [img_normalized] in
          let elapsed := float_sub (clock env (2 * frame_idx + 1)) start_time in
          let timings := timings ++ [elapsed] in
          _ ← say [Text "✓ ("; Fixed1 elapsed; Text "s)"];
          walk_frames entity_name entity_desc output_dir rest (S frame_idx)
            frames timings
      end
  end.

Definition generate_walk_cycle (entity : Entity) (output_dir : path)
  : run CycleResult :=
  entity_name ← of_result (entity_getitem entity "name");
  entity_desc ← of_result (entity_getitem entity "description");
  _ ← say [Text (newline ++ "[POC] Generating "); Capitalized entity_name;
           Text "..."];
  looped ← walk_frames entity_name entity_desc output_dir WALK_POSES 0 [] [];
  match looped with
  | inl returned => mret returned
  | inr (frames, timings) =>
      _ ← say_end [Text "  Packing sprite sheet..."] " ";
      packed ← of_result (pack frames entity_name "walk");
      let '(sprite_sheet, metadata) := packed in
      _ ← save_sprite_sheet sprite_sheet metadata output_dir entity_name;
      _ ← say [Text "✓"];
      _ ← say_end [Text "  Validating consistency..."] " ";
      validation ← of_result (validate_sprites frames);
      similarity ←
        of_result (match validation with
                   | Report results => Return (visual_similarity results)
                   | ErrorReport _ _ => Raise (KeyError "visual_similarity")
                   end);
      _ ← say [Text "✓ (similarity: "; Percent0 similarity; Text ")"];
      avg_time ←
        of_result (Float.div_int (float_sum timings)
                     (Z.of_nat (List.length timings)));
      mret (Summary entity_name (Z.of_nat (List.length frames)) avg_time
              (float_sum timings) validation)
  end.

End WithEnv.

(** [ComfyUIClient.is_available], on what the request for [/system_stats]
    comes to: whatever is raised inside the [try] gives [False]. *)
Definition is_available (system_stats : result Response) : run bool :=
  _ ← act Probe;
  mret (match system_stats with
        | Return response => status_code response =? 200
        | Raise _ => false
        end).

(** The process environment of [main]: the answer to the probe, the
    environment of the [k]-th call of [generate_walk_cycle], and the
    [k]-th reading of the clock by [main] itself. *)
Record MainEnv : Type := mkMainEnv {
  system_stats : result Response;
  cycles : nat -> Env;
  main_clock : nat -> Q
}.

(** The results are dictionaries: [r.get("error")] as a condition, and the
    subscripts that [main] uses. *)
Definition has_error (r : CycleResult) : bool :=
  match r with
  | Failed error => negb (String.eqb error "")
  | Summary _ _ _ _ _ => false
  end.

Definition item_frames (r : CycleResult) : result Z :=
  match r with
  | Summary _ frames _ _ _ => Return frames
  | Failed _ => Raise (KeyError "frames")
  end.

Definition item_avg_time (r : CycleResult) : result Q :=
  match r with
  | Summary _ _ avg_time _ _ => Return avg_time
  | Failed _ => Raise (KeyError "avg_time")
  end.

Definition item_validation (r : CycleResult) : result Validation :=
  match r with
  | Summary _ _ _ _ validation => Return validation
  | Failed _ => Raise (KeyError "validation")
  end.

Definition item_entity (r : CycleResult) : result string :=
  match r with
  | Summary entity _ _ _ _ => Return entity
  | Failed _ => Raise (KeyError "entity")
  end.

Definition item_passes (v : Validation) : bool :=
  match v with
  | Report results => passes results
  | ErrorReport passes _ => passes
  end.

Definition item_visual_similarity (v : Validation) : result Q :=
  match v with
  | Report results => Return (visual_similarity results)
  | ErrorReport _ _ => Raise (KeyError "visual_similarity")
  end.

(** A generator expression consumed by [sum]. *)
Fixpoint collect {A B : Type} (f : A -> result B) (l : list A) : result (list B) :=
  match l with
  | [] => Return []
  | a :: rest => b ← f a; bs ← collect f rest; Return (b :: bs)
  end.

(** ["=" * 50] *)
Definition rule : string := "==================================================".

Section WithMainEnv.
Context `{Kernels} `{Float.Rounding} (menv : MainEnv).

(** The loop [for entity in TEST_ENTITIES]; [k] counts the calls. *)
Fixpoint run_entities (entities : list Entity) (k : nat) (output_dir : path)
  (results : list CycleResult) : run (list CycleResult) :=
  match entities with
  | [] => mret results
  | entity :: rest =>
      result ← generate_walk_cycle (cycles menv k) entity output_dir;
      run_entities rest (S k) output_dir (results ++ [result])
  end.

(** The loop [for result in successful]. *)
Fixpoint validation_lines (successful : list CycleResult) : run unit :=
  match successful with
  | [] => mret tt
  | result :: rest =>
      v ← of_result (item_validation result);
      let status := if item_passes v then "✓ PASS" else "✗ FAIL" in
      entity ← of_result (item_entity result);
      similarity ← of_result (item_visual_similarity v);
      _ ← say [Text ("  " ++ entity ++ ": " ++ status ++ " (similarity: ");
               Percent0 similarity; Text ")"];
      validation_lines rest
  end.

Definition main : run unit :=
  _ ← say [Text rule];
  _ ← say [Text "POC: Isometric Sprite Animation Generator"];
  _ ← say [Text rule];
  let comfyui_url := "http://localhost:8188" in
  _ ← say [Text (newline ++ "[POC] Connecting to ComfyUI at " ++ comfyui_url ++ "...")];
  available ← is_available (system_stats menv);
  if negb available then
    _ ← say [Text "✗ ComfyUI not available!"];
    _ ← say [Text (newline ++ "Please start ComfyUI:")];
    _ ← say [Text "  docker-compose up comfyui"];
    mret tt
  else
    _ ← say [Text "✓ ComfyUI available"];
    let output_dir := Dir "output" in
    _ ← act (Mkdir output_dir false);
    let total_start := main_clock menv 0 in
    results ← run_entities TEST_ENTITIES 0 output_dir [];
    let total_time := float_sub (main_clock menv 1) total_start in
    _ ← say [Text (newline ++ rule)];
    _ ← say [Text "POC Complete!"];
    _ ← say [Text rule];
    let successful := List.filter (fun r => negb (has_error r)) results in
    let failed := List.filter has_error results in
    _ ← say [Text (newline ++ "✓ Successful: "
                   ++ str_of_int (Z.of_nat (List.length successful)) ++ "/"
                   ++ str_of_int (Z.of_nat (List.length results)) ++ " entities")];
    _ ← (match failed with
         | [] => mret tt
         | _ :: _ =>
             say [Text ("✗ Failed: " ++ str_of_int (Z.of_nat (List.length failed))
                        ++ " entities")]
         end);
    _ ← (match successful with
         | [] => mret tt
         | _ :: _ =>
             frames ← of_result (collect item_frames successful);
             let total_frames := sum frames in
             avg_times ← of_result (collect item_avg_time successful);
             avg_time_per_frame ←
               of_result (Float.div_int (float_sum avg_times)
                            (Z.of_nat (List.length successful)));
             _ ← say [Text (newline ++ "Total frames: " ++ str_of_int total_frames)];
             _ ← say [Text "Total time: "; Fixed1 total_time; Text "s"];
             _ ← say [Text "Average: "; Fixed1 avg_time_per_frame;
                      Text "s per frame"];
             _ ← say [Text (newline ++ "Validation Results:")];
             validation_lines successful
         end);
    _ ← say [Text (newline ++ "Output directory: "); Absolute output_dir];
    _ ← say [Text (newline ++ "Next steps:")];
    _ ← say [Text "  1. Open viewer.html to see animated sprites"];
    _ ← say [Text "  2. Review individual frames in output/<entity>/ directories"];
    _ ← say [Text "  3. Check metadata.json for sprite sheet coordinates"];
    mret tt.

End WithMainEnv.

End WalkCycle.

(** ** Further notions: what a run of the walk cycle does *)

Module CycleNotions.
Import PIL ComfyUIClient SpritePacker WalkCycle.

(** The client effects of a run, and the files it writes. *)
Definition requests (trace : list action) : list effect :=
  flat_map (fun a => match a with Client e => [e] | _ => [] end) trace.

Definition written (trace : list action) : list path :=
  flat_map (fun a => match a with
                     | SaveImage p _ | DumpJson p _ => [p]
                     | _ => []
                     end) trace.

(** [enumerate(l, start)] *)
Definition enumerate {A : Type} (start : nat) (l : list A) : list (nat * A) :=
  combine (seq start (List.length l)) l.

(** The file of frame [k]. *)
Definition frame_path (output_dir : path) (entity_name : string) (k : nat) : path :=
  Child (Child output_dir entity_name)
        ("walk_" ++ Builtins.str_of_int (Z.of_nat k) ++ ".png").

Section WithEnv.
Context `{Kernels} `{Float.Rounding} (env : Env).

(** The call of the client for frame [k] with pose [pose]. *)
Definition frame_call (entity_name entity_desc : string) (k : nat) (pose : string)
  : io (option (list byte)) :=
  generate_image (worlds env k) (build_prompt entity_desc pose default_style)
    NEGATIVE_PROMPT (GenerateSprites.get_sprite_seed entity_name "walk" (Z.of_nat k))
    128 128.

(** What frame [k] comes to: the normalized image, no image ([None] from
    the client), or an exception. *)
Definition frame_yield (entity_name entity_desc : string) (k : nat) (pose : string)
  : answer (option Image) :=
  match snd (frame_call entity_name entity_desc k pose) with
  | Raise e => Err (PyError e)
  | Return None => Ok None
  | Return (Some data) =>
      match image_open env data with
      | None => Err ImageError
      | Some raw =>
          match normalize_sprite raw (32, 32) with
          | Raise e => Err (PyError e)
          | Return img => Ok (Some img)
          end
      end
  end.

End WithEnv.

(** The [k]-th call of [generate_walk_cycle] by [main], for the entity
    [entity]. *)
Definition cycle_run `{Kernels} `{Float.Rounding} (menv : MainEnv)
  (ke : nat * Entity) : run CycleResult :=
  generate_walk_cycle (cycles menv (fst ke)) (snd ke) (Dir "output").

(** The probe is answered with status 200. *)
Definition available (menv : MainEnv) : Prop :=
  exists response,
    system_stats menv = Return response /\ status_code response = 200.

End CycleNotions.
Import CycleNotions.

(** ** Further test inputs *)

Module MoreBackends.
Import ComfyUIClient Backends.

(** The channel of [healthy], with a frame that is no JSON after the
    completion. *)
Definition trailing_garbage : World :=
  with_events healthy
    [WsMessage progress; WsMessage (executing (JStr "3") "job-1");
     WsMessage (executing JNull "job-1"); WsGarbage].

(** The channel only reports the completion of another job. *)
Definition other_job : World :=
  with_events healthy [WsMessage (executing JNull "job-2")].


(** The connection breaks when the image is asked for. *)
Definition view_unreachable : World :=
  with_view healthy (fun _ _ _ => Raise (TransportError "connection reset")).

(** The backend acknowledges with a number for id, and reports the end of
    the job under that number. *)
Definition numbering : World :=
  with_events
    (with_post healthy
       (fun _ _ => Return (ok (JObj [("prompt_id", JInt 123)]) [])))
    [WsMessage (JObj [("type", JStr "executing");
                      ("data", JObj [("node", JNull); ("prompt_id", JInt 123)])])].

End MoreBackends.

Module MoreFixtures.
Import PIL Fixtures WalkCycle.

(** A raster twice as wide as high, and one a hundred times. *)
Definition wide_red : Image := solid RGBA 2 1 ["255"; "000"; "000"; "255"]%byte.
Definition strip_red : Image := solid RGBA 100 1 ["255"; "000"; "000"; "255"]%byte.

(** What the decoder makes of every image in the sample runs. *)
Definition decoded : Image := solid RGBA 128 128 ["000"; "128"; "000"; "255"]%byte.

(** [decoded], normalized to 32 x 32. *)
Definition kept_frame : Image :=
  match SpritePacker.normalize_sprite (H := nearest_kernels) (H0 := exact_rounding)
          decoded (32, 32) with
  | Return im => im
  | Raise _ => decoded
  end.

Definition goblin : Entity :=
  <["name" := "goblin"]> (<["description" := "small green-skinned goblin"]> ∅).

(** Every call is served. *)
Definition serving : Env :=
  {| worlds := fun _ => Backends.healthy;
     clock := fun k => inject_Z (Z.of_nat k);
     image_open := fun _ => Some decoded |}.

(** The first call is served, the backend rejects the later ones. *)
Definition failing_second : Env :=
  {| worlds := fun k => match k with O => Backends.healthy | S _ => Backends.rejecting end;
     clock := fun k => inject_Z (Z.of_nat k);
     image_open := fun _ => Some decoded |}.

(** Every call is served, and no data decodes to an image. *)
Definition undecodable : Env :=
  {| worlds := fun _ => Backends.healthy;
     clock := fun k => inject_Z (Z.of_nat k);
     image_open := fun _ => None |}.

(** No backend is listening. *)
Definition offline : MainEnv :=
  {| system_stats := Raise (TransportError "connection refused");
     cycles := fun _ => serving;
     main_clock := fun k => inject_Z (Z.of_nat k) |}.

(** The backend is up; in every cycle the second frame is rejected. *)
Definition flaky : MainEnv :=
  {| system_stats := Return (Backends.ok JNull []);
     cycles := fun _ => failing_second;
     main_clock := fun k => inject_Z (Z.of_nat k) |}.

(** The backend is up; the second frame of the first entity is rejected,
    and from the second entity on the data is no image. *)
Definition corrupt_second : MainEnv :=
  {| system_stats := Return (Backends.ok JNull []);
     cycles := fun k => match k with O => failing_second | S _ => undecodable end;
     main_clock := fun k => inject_Z (Z.of_nat k) |}.

End MoreFixtures.

(** ** Further notions: the grid of a sheet *)

Module GridNotions.
Import PIL SpritePacker.

(** The number of columns [pack] uses for [n] frames. *)
Definition grid_columns (n : Z) : Z := if 1 <? n then 2 else 1.

(** The metadata entry of the frame at index [k] in a grid of [cols]
    columns of cells [w0] x [h0]: column [k % cols], row [k // cols]. *)
Definition grid_cell (cols w0 h0 : Z) (k : Z) : FrameMetadata :=
  {| x := (k mod cols) * w0; y := (k / cols) * h0;
     w := w0; h := h0; duration := 150 |}.

Definition grid_entry (cols w0 h0 : Z) (k : nat) : FrameMetadata :=
  grid_cell cols w0 h0 (Z.of_nat k).

(** The pixel [(px, py)] lies in the rectangle of a metadata entry. *)
Definition in_rectangle (e : FrameMetadata) (px py : Z) : Prop :=
  x e <= px < x e + w e /\ y e <= py < y e + h e.

(** What [paste] writes for a frame on an RGBA sheet: the frame, converted
    when it has another mode. *)
Definition as_pasted `{Kernels} (frame : Image) : Image :=
  if String.eqb (mode_name (mode frame)) "RGBA" then frame
  else converted frame RGBA.

End GridNotions.
Import GridNotions.

(** * Properties *)

(** ** Seed derivation *)

Section SeedProperties.
Import GenerateSprites.

Lemma animation_offset_walk : animation_offset !! "walk" = Some 1000.
Proof. reflexivity. Qed.

Lemma animation_offset_idle : animation_offset !! "idle" = Some 0.
Proof. reflexivity. Qed.

Lemma animation_offset_attack : animation_offset !! "attack" = Some 2000.
Proof. reflexivity. Qed.

(** Every seed is the entity's base value plus offset plus frame. *)
Lemma get_sprite_seed_split (entity animation : string) (frame : Z) :
  get_sprite_seed entity animation frame
  = get_sprite_seed entity "idle" 0
    + default 0 (animation_offset !! animation) + frame.
Proof.
  unfold get_sprite_seed. rewrite animation_offset_idle. simpl default. lia.
Qed.

(** C4, as the code has it: the seed is a function of its three arguments;
    for one entity and animation distinct frame indices give distinct
    seeds; for one entity, two distinct animations among walk, idle and
    attack give distinct seeds as long as both frame indices are in
    [0, 1000). *)
Theorem get_sprite_seed_separation (entity : string) :
  (forall a a' f f', a = a' -> f = f' ->
     get_sprite_seed entity a f = get_sprite_seed entity a' f') /\
  (forall a f f', f <> f' ->
     get_sprite_seed entity a f <> get_sprite_seed entity a f') /\
  (forall a a' f f',
     known_animation a -> known_animation a' -> a <> a' ->
     0 <= f < 1000 -> 0 <= f' < 1000 ->
     get_sprite_seed entity a f <> get_sprite_seed entity a' f').
Proof.
  repeat split.
  - intros a a' f f' -> ->. reflexivity.
  - intros a f f' Hf. rewrite (get_sprite_seed_split entity a f),
      (get_sprite_seed_split entity a f'). lia.
  - intros a a' f f' Ha Ha' Hne Hf Hf'.
    rewrite (get_sprite_seed_split entity a f),
      (get_sprite_seed_split entity a' f').
    unfold known_animation in Ha, Ha'. simpl in Ha, Ha'.
    destruct Ha as [<- | [<- | [<- | []]]];
      destruct Ha' as [<- | [<- | [<- | []]]];
      try congruence;
      rewrite ?animation_offset_walk, ?animation_offset_idle,
        ?animation_offset_attack; simpl default; lia.
Qed.

Lemma get_sprite_seed_separation_witness :
  get_sprite_seed "goblin" "walk" 3 <> get_sprite_seed "goblin" "attack" 0.
Proof.
  apply (proj2 (proj2 (get_sprite_seed_separation "goblin"))).
  - unfold known_animation. simpl. tauto.
  - unfold known_animation. simpl. tauto.
  - discriminate.
  - lia.
  - lia.
Defined.

(** C4 as stated fails: the walk band starts 1000 above the idle band, so
    frame 1000 of idle meets frame 0 of walk; and an animation without an
    entry shares offset 0 with idle. *)
Lemma get_sprite_seed_collision :
  "walk" <> "idle" /\
  get_sprite_seed "goblin" "walk" 0 = get_sprite_seed "goblin" "idle" 1000 /\
  "run" <> "idle" /\
  get_sprite_seed "goblin" "run" 0 = get_sprite_seed "goblin" "idle" 0.
Proof. repeat split; try discriminate; vm_compute; reflexivity. Qed.

(** The value the source computes for the goblin's first walk frame. *)
Example get_sprite_seed_goblin :
  get_sprite_seed "goblin" "walk" 0 = 1655938675.
Proof. vm_compute. reflexivity. Qed.

End SeedProperties.

(** ** Sheet packer *)

Section PackProperties.
Import PIL SpritePacker.
Context `{Kernels}.

Lemma size_eqb_refl (sz : Z * Z) : size_eqb sz sz = true.
Proof. unfold size_eqb. rewrite !Z.eqb_refl. reflexivity. Qed.

Lemma size_eqb_eq (a b : Z * Z) : size_eqb a b = true <-> a = b.
Proof.
  destruct a as [a1 a2], b as [b1 b2]. unfold size_eqb. simpl.
  rewrite andb_true_iff, !Z.eqb_eq. split.
  - intros [-> ->]. reflexivity.
  - intros [= -> ->]. split; reflexivity.
Qed.

(** A paste on an RGBA destination: the source as it is when it is RGBA,
    converted when Pillow converts its mode, and the conversion's error
    otherwise. *)
Lemma paste_on_rgba (dst src : Image) (box : Z * Z) (mask : option Image) :
  mode dst = RGBA ->
  paste dst src box mask
  = if String.eqb (mode_name (mode src)) "RGBA" then
      Return (pasted dst src box mask)
    else
      match conversion_error (mode src) RGBA with
      | Some msg => Raise (ValueError msg)
      | None => Return (pasted dst (converted src RGBA) box mask)
      end.
Proof.
  intros Hdst. unfold paste, paste_source, convert. rewrite Hdst.
  change (mode_name RGBA) with "RGBA"%string.
  destruct (String.eqb (mode_name (mode src)) "RGBA"); [reflexivity |].
  destruct (conversion_error (mode src) RGBA); reflexivity.
Qed.

Lemma paste_returns (dst src : Image) (box : Z * Z) (mask : option Image) :
  mode dst = RGBA -> pastes_on_rgba src ->
  paste dst src box mask = Return (pasted dst (as_pasted src) box mask).
Proof.
  intros Hdst Hsrc. rewrite (paste_on_rgba _ _ _ _ Hdst). unfold as_pasted.
  destruct (String.eqb_spec (mode_name (mode src)) "RGBA") as [Hm | Hm];
    [reflexivity |].
  destruct Hsrc as [Hrgba | Hconv]; [contradiction |].
  rewrite Hconv. reflexivity.
Qed.

Lemma paste_raises (dst src : Image) (box : Z * Z) (mask : option Image) :
  mode dst = RGBA -> ~ pastes_on_rgba src ->
  exists msg, paste dst src box mask = Raise (ValueError msg).
Proof.
  intros Hdst Hsrc. rewrite (paste_on_rgba _ _ _ _ Hdst).
  destruct (String.eqb_spec (mode_name (mode src)) "RGBA") as [Hm | Hm].
  - destruct Hsrc. left. exact Hm.
  - destruct (conversion_error (mode src) RGBA) as [msg |] eqn:Hconv.
    + exists msg. reflexivity.
    + destruct Hsrc. right. exact Hconv.
Qed.

Lemma paste_inv (dst src : Image) (box : Z * Z) (mask : option Image)
  (out : Image) :
  mode dst = RGBA ->
  paste dst src box mask = Return out ->
  pastes_on_rgba src /\ out = pasted dst (as_pasted src) box mask.
Proof.
  intros Hdst. rewrite (paste_on_rgba _ _ _ _ Hdst). unfold as_pasted, pastes_on_rgba.
  destruct (String.eqb_spec (mode_name (mode src)) "RGBA") as [Hm | Hm].
  - intros [= <-]. split; [left; exact Hm | reflexivity].
  - destruct (conversion_error (mode src) RGBA) as [msg |]; [discriminate |].
    intros [= <-]. split; [right; reflexivity | reflexivity].
Qed.

Lemma pastes_on_rgba_dec (im : Image) : pastes_on_rgba im \/ ~ pastes_on_rgba im.
Proof.
  unfold pastes_on_rgba.
  destruct (String.eqb_spec (mode_name (mode im)) "RGBA") as [Hm | Hm];
    [left; left; exact Hm |].
  destruct (conversion_error (mode im) RGBA) as [msg |];
    [right; intros [Hc | Hc]; [contradiction | discriminate Hc] |
     left; right; reflexivity].
Qed.

Lemma size_paste (dst src : Image) (box : Z * Z) (mask : option Image)
  (out : Image) :
  paste dst src box mask = Return out ->
  size out = size dst /\ mode out = mode dst.
Proof.
  unfold paste. destruct (paste_source dst src) as [src' | e]; [| discriminate].
  intros [= <-]. split; reflexivity.
Qed.

Lemma size_new (m : mode_t) (w h : Z) (color : list byte) :
  0 <= w -> 0 <= h ->
  exists im, new m (w, h) color = Return im /\ size im = (w, h).
Proof.
  intros Hw Hh. unfold new.
  destruct (Z.ltb_spec w 0); [lia |]. destruct (Z.ltb_spec h 0); [lia |].
  simpl. eexists. split; [reflexivity |].
  unfold size. simpl. rewrite !Z2Nat.id by lia. reflexivity.
Qed.

Lemma new_returns (m : mode_t) (sz : Z * Z) (color : list byte) (im : Image) :
  new m sz color = Return im ->
  size im = sz /\ mode im = m /\
  forall x y b, getpixel im x y b = nth b color "000"%byte.
Proof.
  destruct sz as [w0 h0]. unfold new.
  destruct (Z.ltb_spec w0 0); [discriminate |].
  destruct (Z.ltb_spec h0 0); [discriminate |].
  simpl. intros [= <-]. unfold size. simpl.
  rewrite !Z2Nat.id by lia. repeat split.
Qed.




End PackProperties.

(** C6: [pack] on the empty frame list raises the error for the empty frame
    set, whatever the entity and animation names; no sheet and no metadata
    come back. *)
Theorem pack_empty_raises `{PIL.Kernels} (entity animation : string) :
  SpritePacker.pack [] entity animation
  = Raise (ValueError "Cannot pack empty frame list").
Proof. reflexivity. Qed.



(** ** Histograms and the similarity score *)

Section HistogramFacts.
Import Builtins PIL.

Lemma fold_left_add_shift (xs : list Z) (a : Z) :
  fold_left Z.add xs a = a + fold_left Z.add xs 0.
Proof.
  revert a. induction xs as [| x xs IH]; intros a; simpl.
  - lia.
  - rewrite (IH (a + x)), (IH (0 + x)). lia.
Qed.

Lemma sum_cons (x : Z) (xs : list Z) : sum (x :: xs) = x + sum xs.
Proof. unfold sum. simpl. apply fold_left_add_shift. Qed.

Lemma sum_nonneg (xs : list Z) : Forall (fun v => 0 <= v) xs -> 0 <= sum xs.
Proof.
  induction 1 as [| x xs Hx _ IH]; [unfold sum; simpl; lia |].
  rewrite sum_cons. lia.
Qed.

Lemma sum_ge_member (xs : list Z) (x : Z) :
  Forall (fun v => 0 <= v) xs -> In x xs -> x <= sum xs.
Proof.
  induction 1 as [| y ys Hy Hys IH]; intros Hin; [destruct Hin |].
  rewrite sum_cons. pose proof (sum_nonneg ys Hys).
  destruct Hin as [-> | Hin]; [lia |]. specialize (IH Hin). lia.
Qed.

(** The intersection of two histograms is at most the first one. *)
Lemma sum_min_le (h1 h2 : list Z) :
  Forall (fun v => 0 <= v) h1 ->
  sum (map (fun ab => Z.min (fst ab) (snd ab)) (combine h1 h2)) <= sum h1.
Proof.
  intros Hh1. revert h2.
  induction Hh1 as [| a h1 Ha Hh1 IH]; intros h2; [simpl; lia |].
  destruct h2 as [| b h2]; simpl.
  - assert (Hall : Forall (fun v => 0 <= v) (a :: h1)) by (constructor; assumption).
    pose proof (sum_nonneg (a :: h1) Hall).
    unfold sum at 1. simpl. lia.
  - rewrite !sum_cons. specialize (IH h2). simpl. lia.
Qed.

Lemma sum_min_nonneg (h1 h2 : list Z) :
  Forall (fun v => 0 <= v) h1 -> Forall (fun v => 0 <= v) h2 ->
  0 <= sum (map (fun ab => Z.min (fst ab) (snd ab)) (combine h1 h2)).
Proof.
  intros Hh1. revert h2.
  induction Hh1 as [| a h1 Ha Hh1 IH]; intros h2 Hh2; [unfold sum; simpl; lia |].
  destruct Hh2 as [| b h2 Hb Hh2]; [unfold sum; simpl; lia |].
  simpl. rewrite sum_cons. specialize (IH h2 Hh2). simpl. lia.
Qed.

Lemma histogram_nonneg (im : Image) : Forall (fun v => 0 <= v) (histogram im).
Proof.
  apply List.Forall_forall. intros v Hv. unfold histogram in Hv.
  apply in_flat_map in Hv. destruct Hv as (b & _ & Hv).
  apply in_map_iff in Hv. destruct Hv as (k & <- & _). lia.
Qed.

Lemma bands_positive (m : mode_t) : (0 < bands m)%nat.
Proof. destruct m; simpl; lia. Qed.

Lemma origin_in_coords (im : Image) : has_pixels im -> In (0%nat, 0%nat) (coords im).
Proof.
  intros [Hw Hh]. unfold coords. apply in_flat_map. exists 0%nat. split.
  - apply in_seq. lia.
  - apply in_map_iff. exists 0%nat. split; [reflexivity |]. apply in_seq. lia.
Qed.

(** A raster with a pixel has a non-empty histogram bin. *)
Lemma histogram_sum_positive (im : Image) : has_pixels im -> 0 < sum (histogram im).
Proof.
  intros Hpx.
  set (v0 := Byte.to_nat (getpixel im 0 0 0)).
  set (bin := Z.of_nat (List.length
                (List.filter
                   (fun xy =>
                      Nat.eqb (Byte.to_nat (getpixel im (fst xy) (snd xy) 0%nat)) v0)
                   (coords im)))).
  assert (Hbin : 1 <= bin).
  { subst bin.
    assert (Hin : In (0%nat, 0%nat)
                    (List.filter
                       (fun xy =>
                          Nat.eqb (Byte.to_nat (getpixel im (fst xy) (snd xy) 0%nat)) v0)
                       (coords im))).
    { apply filter_In. split; [apply origin_in_coords, Hpx |].
      simpl. apply Nat.eqb_refl. }
    destruct (List.filter _ _); [destruct Hin | simpl List.length; lia]. }
  assert (Hmem : In bin (histogram im)).
  { unfold histogram. apply in_flat_map. exists 0%nat. split.
    - apply in_seq. pose proof (bands_positive (mode im)). lia.
    - apply in_map_iff. exists v0. split; [reflexivity |].
      apply in_seq. pose proof (Byte.to_nat_bounded (getpixel im 0 0 0)).
      subst v0. lia. }
  pose proof (sum_ge_member _ _ (histogram_nonneg im) Hmem). lia.
Qed.

End HistogramFacts.

Section ValidateProperties.
Import Builtins PIL GenerateSprites.
Context `{Float.Rounding}.

Lemma round_bounded (x : Q) (k : Z) :
  monotone_rounding -> exact_on_integers ->
  0 <= k <= 2 ^ 53 ->
  (0 <= x <= inject_Z k)%Q -> (0 <= Float.round x <= inject_Z k)%Q.
Proof.
  intros Hmono Hexact Hk [Hlo Hhi].
  pose proof (Hexact 0 ltac:(lia)) as H0.
  pose proof (Hexact k Hk) as Hk'.
  change (inject_Z 0) with 0%Q in H0.
  split.
  - rewrite <- H0. apply Hmono, Hlo.
  - rewrite <- Hk'. apply Hmono, Hhi.
Qed.

Lemma ratio_unit_interval (a b : Z) :
  0 <= a <= b -> 0 < b -> (0 <= inject_Z a / inject_Z b <= inject_Z 1)%Q.
Proof.
  intros Ha Hb.
  assert (Hb' : (0 < inject_Z b)%Q) by (rewrite Zlt_Qlt in Hb; exact Hb).
  split.
  - apply Qle_shift_div_l; [exact Hb' |]. rewrite Qmult_0_l.
    change 0%Q with (inject_Z 0). rewrite <- Zle_Qle. lia.
  - apply Qle_shift_div_r; [exact Hb' |]. change (inject_Z 1) with 1%Q.
    rewrite Qmult_1_l. rewrite <- Zle_Qle. lia.
Qed.

(** One pairwise score lies in the unit interval. *)
Lemma truediv_unit_interval (a b : Z) (q : Q) :
  monotone_rounding -> exact_on_integers ->
  0 <= a <= b ->
  Float.truediv a b = Return q -> (0 <= q <= inject_Z 1)%Q.
Proof.
  intros Hmono Hexact Hab. unfold Float.truediv.
  destruct (Z.eqb_spec b 0) as [| Hb]; [discriminate |].
  intros [= <-]. apply round_bounded; auto; [lia |].
  apply ratio_unit_interval; lia.
Qed.

Lemma similarity_loop_bounded (histograms : list (list Z)) :
  monotone_rounding -> exact_on_integers ->
  Forall (Forall (fun v => 0 <= v)) histograms ->
  forall (acc : Q) (k : Z) (r : Q),
    0 <= k ->
    k + Z.of_nat (Nat.pred (List.length histograms)) <= 2 ^ 53 ->
    (0 <= acc <= inject_Z k)%Q ->
    similarity_loop histograms acc = Return r ->
    (0 <= r <= inject_Z (k + Z.of_nat (Nat.pred (List.length histograms))))%Q.
Proof.
  intros Hmono Hexact Hall.
  induction Hall as [| h1 hs Hh1 Hhs IH]; intros acc k r Hk Hlen Hacc.
  - simpl. intros [= <-]. rewrite Z.add_0_r. exact Hacc.
  - destruct hs as [| h2 rest].
    + simpl. intros [= <-]. rewrite Z.add_0_r. exact Hacc.
    + pose proof (Forall_inv Hhs) as Hh2.
      simpl similarity_loop.
      destruct (Float.truediv _ (sum h1)) as [s |] eqn:Hs; [| discriminate].
      simpl. intros Hr.
      assert (Hs' : (0 <= s <= inject_Z 1)%Q).
      { apply (truediv_unit_interval _ _ _ Hmono Hexact) in Hs; [exact Hs |].
        split; [apply sum_min_nonneg | apply sum_min_le]; assumption. }
      simpl List.length in Hlen |- *. simpl Nat.pred in Hlen |- *.
      specialize (IH (Float.add acc s) (k + 1) r ltac:(lia)).
      simpl List.length in IH. simpl Nat.pred in IH.
      replace (k + Z.of_nat (S (List.length rest)))
        with (k + 1 + Z.of_nat (List.length rest)) by lia.
      apply IH; [lia | | exact Hr].
      unfold Float.add. apply round_bounded; auto; [lia |].
      rewrite inject_Z_plus. destruct Hacc, Hs'. split.
      * rewrite <- (Qplus_0_r 0). apply Qplus_le_compat; assumption.
      * apply Qplus_le_compat; assumption.
Qed.

Lemma similarity_loop_returns (histograms : list (list Z)) :
  Forall (fun h => sum h <> 0) histograms ->
  forall acc : Q, exists r, similarity_loop histograms acc = Return r.
Proof.
  induction 1 as [| h1 hs Hh1 _ IH]; intros acc; [eexists; reflexivity |].
  destruct hs as [| h2 rest]; [eexists; reflexivity |].
  simpl similarity_loop. unfold Float.truediv.
  destruct (Z.eqb_spec (sum h1) 0); [contradiction |]. simpl. apply IH.
Qed.

(** What the fields of a returned report are. *)
Lemma validate_sprites_report (frames : list Image) (r : Results) :
  validate_sprites frames = Return (Report r) ->
  exists first rest,
    frames = first :: rest /\
    size_consistent r = forallb (fun f => size_eqb (size f) (size first)) frames /\
    has_transparency r
    = forallb (fun f => String.eqb (mode_name (mode f)) "RGBA") frames /\
    frame_count r = Z.of_nat (List.length frames) /\
    passes r = size_consistent r && has_transparency r
               && Float.gt (visual_similarity r) (1 # 2).
Proof.
  destruct frames as [| first rest]; [discriminate |].
  unfold validate_sprites.
  match goal with
  | |- context [mbind _ ?c] => destruct c as [v |] eqn:Hv
  end; [| discriminate].
  intros [= <-]. exists first, rest. simpl. repeat split; reflexivity.
Qed.

(** A non-empty list of rasters that all have pixels is always scored. *)
Lemma validate_sprites_returns (frames : list Image) :
  frames <> [] -> Forall has_pixels frames ->
  exists r, validate_sprites frames = Return (Report r).
Proof.
  intros Hne Hpx. destruct frames as [| first rest]; [congruence |].
  unfold validate_sprites.
  destruct (1 <? Z.of_nat (List.length (first :: rest))) eqn:Hlen.
  - destruct (similarity_loop_returns (map histogram (first :: rest))) with (acc := 0%Q)
      as [s Hs].
    { apply Forall_map. eapply Forall_impl; [exact Hpx |].
      intros im Him. simpl. pose proof (histogram_sum_positive im Him). lia. }
    rewrite Hs. simpl. unfold Float.div_int.
    apply Z.ltb_lt in Hlen. simpl List.length in Hlen.
    match goal with
    | |- context [?n =? 0] => destruct (Z.eqb_spec n 0); [lia |]
    end.
    simpl. eexists. reflexivity.
  - simpl. eexists. reflexivity.
Qed.

End ValidateProperties.

Section ValidateClaims.
Import Builtins PIL GenerateSprites.
Context `{Float.Rounding}.

(** How the score of a returned report was computed. *)
Lemma validate_sprites_similarity (frames : list Image) (r : Results) :
  validate_sprites frames = Return (Report r) ->
  (List.length frames = 1%nat /\ visual_similarity r = 1%Q) \/
  (exists s : Q,
     (2 <= List.length frames)%nat /\
     similarity_loop (map histogram frames) 0 = Return s /\
     visual_similarity r
     = Float.round (s / inject_Z (Z.of_nat (List.length frames) - 1))).
Proof.
  destruct frames as [| first rest]; [discriminate |].
  unfold validate_sprites.
  destruct (Z.ltb_spec 1 (Z.of_nat (List.length (first :: rest)))) as [Hlen | Hlen].
  - destruct (similarity_loop _ _) as [s |] eqn:Hs; [| discriminate].
    simpl. unfold Float.div_int. simpl List.length in Hlen.
    match goal with
    | |- context [?n =? 0] => destruct (Z.eqb_spec n 0); [lia |]
    end.
    simpl. intros [= <-]. right. exists s. simpl.
    split; [lia | split; reflexivity].
  - simpl. intros [= <-]. left. simpl in Hlen |- *. split; [lia | reflexivity].
Qed.

(** C9: for two or more frames the visual-similarity score that
    [validate_sprites] reports lies in [0, 1]; a list of frames that all
    have pixels is always scored.  (With rounding to a double monotone and
    exact on the integers up to [2^53], and at most [2^53] frames.) *)
Theorem visual_similarity_unit_interval (frames : list Image) :
  monotone_rounding -> exact_on_integers ->
  (2 <= List.length frames)%nat ->
  Z.of_nat (List.length frames) <= 2 ^ 53 ->
  (forall r, validate_sprites frames = Return (Report r) ->
     (0 <= visual_similarity r <= 1)%Q) /\
  (Forall has_pixels frames ->
   exists r, validate_sprites frames = Return (Report r) /\
             (0 <= visual_similarity r <= 1)%Q).
Proof.
  intros Hmono Hexact Htwo Hmax.
  assert (Hbound : forall r, validate_sprites frames = Return (Report r) ->
                             (0 <= visual_similarity r <= 1)%Q).
  { intros r Hr.
    destruct (validate_sprites_similarity frames r Hr)
      as [[Hone _] | (s & _ & Hs & ->)]; [lia |].
    apply similarity_loop_bounded with (k := 0) in Hs; auto.
    - rewrite length_map in Hs. rewrite Z.add_0_l in Hs.
      replace (Z.of_nat (Nat.pred (List.length frames)))
        with (Z.of_nat (List.length frames) - 1) in Hs by lia.
      set (n := Z.of_nat (List.length frames) - 1) in *.
      assert (Hn : 0 < n) by (subst n; lia).
      assert (Hn' : (0 < inject_Z n)%Q) by (rewrite Zlt_Qlt in Hn; exact Hn).
      change 1%Q with (inject_Z 1).
      apply round_bounded; auto; [lia |]. destruct Hs as [Hlo Hhi]. split.
      + apply Qle_shift_div_l; [exact Hn' |]. rewrite Qmult_0_l. exact Hlo.
      + apply Qle_shift_div_r; [exact Hn' |]. change (inject_Z 1) with 1%Q.
        rewrite Qmult_1_l. exact Hhi.
    - apply Forall_map. apply List.Forall_forall. intros im _.
      apply histogram_nonneg.
    - lia.
    - rewrite length_map. lia.
    - change (inject_Z 0) with 0%Q. split; apply Qle_refl. }
  split; [exact Hbound |].
  intros Hpx. destruct (validate_sprites_returns frames) as [r Hr]; auto.
  - destruct frames; [simpl in Htwo; lia | discriminate].
  - exists r. split; [exact Hr | apply Hbound, Hr].
Qed.

(** C7, as the code has it: on the empty list [validate_sprites] does not
    raise, it returns the dictionary with [passes = False] and the error
    text; on a non-empty list of frames that all have pixels it returns a
    full report. *)
Theorem validate_sprites_error_conditions :
  validate_sprites [] = Return (ErrorReport false "No frames") /\
  (forall frames : list Image,
     frames <> [] -> Forall has_pixels frames ->
     exists r, validate_sprites frames = Return (Report r)).
Proof.
  split; [reflexivity |]. intros frames Hne Hpx.
  apply validate_sprites_returns; assumption.
Qed.

(** C10: the report has [has_transparency = True] exactly when the mode of
    every frame is the string "RGBA"; one frame of another mode, also one
    with an alpha band such as LA or PA, makes it false and the verdict
    [passes] false with it.  Frames that all have pixels do get a report. *)
Theorem has_transparency_only_rgba (frames : list Image) :
  (forall r, validate_sprites frames = Return (Report r) ->
     (has_transparency r = true <->
      Forall (fun f => mode_name (mode f) = "RGBA") frames) /\
     (forall f, In f frames -> mode_name (mode f) <> "RGBA" ->
                has_transparency r = false /\ passes r = false) /\
     (forall f, In f frames -> mode f = LA \/ mode f = PA ->
                has_alpha (mode f) = true /\
                has_transparency r = false /\ passes r = false)) /\
  (frames <> [] -> Forall has_pixels frames ->
   exists r, validate_sprites frames = Return (Report r)).
Proof.
  split; [| apply validate_sprites_returns].
  intros r Hr.
  destruct (validate_sprites_report frames r Hr)
    as (first & rest & _ & _ & Htr & _ & Hpass).
  assert (Hiff : has_transparency r = true <->
                 Forall (fun f => mode_name (mode f) = "RGBA") frames).
  { rewrite Htr, forallb_forall, List.Forall_forall.
    split; intros Hall f Hf; specialize (Hall f Hf);
      [apply String.eqb_eq | apply String.eqb_eq]; exact Hall. }
  assert (Hother : forall f, In f frames -> mode_name (mode f) <> "RGBA" ->
                             has_transparency r = false /\ passes r = false).
  { intros f Hf Hmode.
    assert (Hfalse : has_transparency r = false).
    { apply not_true_is_false. intros Hb.
      apply Hiff in Hb. rewrite List.Forall_forall in Hb.
      destruct (Hmode (Hb f Hf)). }
    split; [exact Hfalse |]. rewrite Hpass, Hfalse.
    rewrite andb_false_r. reflexivity. }
  split; [exact Hiff |]. split; [exact Hother |].
  intros f Hf Hmode.
  assert (Hne : mode_name (mode f) <> "RGBA")
    by (destruct Hmode as [-> | ->]; discriminate).
  split; [destruct Hmode as [-> | ->]; reflexivity | exact (Hother f Hf Hne)].
Qed.

End ValidateClaims.

Lemma visual_similarity_unit_interval_witness :
  exists r,
    GenerateSprites.validate_sprites (H := Fixtures.exact_rounding)
      [Fixtures.opaque_red; Fixtures.opaque_blue]
    = Return (GenerateSprites.Report r) /\
    (0 <= GenerateSprites.visual_similarity r <= 1)%Q.
Proof.
  refine (proj2 (visual_similarity_unit_interval (H := Fixtures.exact_rounding)
                   [Fixtures.opaque_red; Fixtures.opaque_blue] _ _ _ _) _).
  - intros x y Hxy. exact Hxy.
  - intros k Hk. simpl. reflexivity.
  - simpl. lia.
  - simpl. lia.
  - repeat constructor; simpl; lia.
Defined.

Lemma validate_sprites_error_conditions_witness :
  exists r,
    GenerateSprites.validate_sprites (H := Fixtures.exact_rounding)
      [Fixtures.opaque_red; Fixtures.opaque_blue]
    = Return (GenerateSprites.Report r).
Proof.
  apply (proj2 (validate_sprites_error_conditions (H := Fixtures.exact_rounding))).
  - discriminate.
  - repeat constructor; simpl; lia.
Defined.

(** C7 as stated fails: the empty list is answered with a returned
    dictionary, not with an exception; and a list of two rasters without
    pixels, which is not empty, raises [ZeroDivisionError]. *)
Lemma validate_sprites_empty_is_returned :
  GenerateSprites.validate_sprites (H := Fixtures.exact_rounding) []
  = Return (GenerateSprites.ErrorReport false "No frames") /\
  GenerateSprites.validate_sprites (H := Fixtures.exact_rounding)
    [Fixtures.no_pixels; Fixtures.no_pixels]
  = Raise ZeroDivisionError.
Proof. split; vm_compute; reflexivity. Qed.

Lemma has_transparency_only_rgba_witness :
  exists r,
    GenerateSprites.validate_sprites (H := Fixtures.exact_rounding)
      [Fixtures.opaque_red; Fixtures.grey_alpha]
    = Return (GenerateSprites.Report r) /\
    PIL.has_alpha (PIL.mode Fixtures.grey_alpha) = true /\
    GenerateSprites.has_transparency r = false /\
    GenerateSprites.passes r = false.
Proof.
  destruct (has_transparency_only_rgba (H := Fixtures.exact_rounding)
              [Fixtures.opaque_red; Fixtures.grey_alpha]) as [Hreport Hreturns].
  destruct Hreturns as [r Hr].
  - discriminate.
  - repeat constructor; simpl; lia.
  - exists r. split; [exact Hr |].
    apply (proj2 (proj2 (Hreport r Hr)) Fixtures.grey_alpha).
    + simpl. tauto.
    + left. reflexivity.
Defined.

(** The score of the red and the blue square: the green and alpha bins
    agree, the red and blue bins do not. *)
Example validate_sprites_red_blue :
  GenerateSprites.validate_sprites (H := Fixtures.exact_rounding)
    [Fixtures.opaque_red; Fixtures.opaque_blue]
  = Return (GenerateSprites.Report
      {| GenerateSprites.size_consistent := true;
         GenerateSprites.has_transparency := true;
         GenerateSprites.frame_count := 2;
         GenerateSprites.visual_similarity := 8 # 16;
         GenerateSprites.passes := false |}).
Proof. vm_compute. reflexivity. Qed.

(** ** Sprite normalizer *)

Section NormalizeProperties.
Import PIL SpritePacker.
Context `{Kernels} `{Float.Rounding}.



Lemma transparent_band (b : nat) : nth b transparent "000"%byte = "000"%byte.
Proof. do 5 (destruct b as [| b]; [reflexivity |]). reflexivity. Qed.

(** The stages of [normalize_sprite]: fitting the raster, making the blank
    canvas, pasting. *)
Lemma normalize_sprite_stages (image : Image) (tW tH : Z) :
  normalize_sprite image (tW, tH)
  = (fitted ←
       (if size_eqb (size image) (tW, tH) then Return image
        else if (Z.of_nat (width image) =? 0) || (Z.of_nat (height image) =? 0)
             then Raise ZeroDivisionError
             else resize image (scaled_size image (tW, tH)));
     canvas ← new RGBA (tW, tH) transparent;
     paste canvas fitted
       ((tW - Z.of_nat (width fitted)) / 2, (tH - Z.of_nat (height fitted)) / 2)
       (if String.eqb (mode_name (mode fitted)) "RGBA" then Some fitted else None)).
Proof.
  assert (Hlast : forall (r : result Image), (canvas ← r; Return canvas) = r)
    by (intros [a | e]; reflexivity).
  unfold normalize_sprite.
  destruct (size_eqb (size image) (tW, tH)); cbn [negb].
  - cbn [mbind result_bind Py.bind].
    destruct (new RGBA (tW, tH) transparent); cbn [mbind result_bind Py.bind];
      [apply Hlast | reflexivity].
  - unfold size, scaled_size, Float.truediv. cbv beta iota zeta. cbn [fst snd].
    destruct (Z.of_nat (width image) =? 0); cbn [orb mbind result_bind Py.bind];
      [reflexivity |].
    destruct (Z.of_nat (height image) =? 0); cbn [orb mbind result_bind Py.bind];
      [reflexivity |].
    match goal with
    | |- context [resize image ?sz] => destruct (resize image sz) as [fitted | e]
    end; cbn [mbind result_bind Py.bind]; [| reflexivity].
    destruct (new RGBA (tW, tH) transparent); cbn [mbind result_bind Py.bind];
      [apply Hlast | reflexivity].
Qed.


(** What a returned result is made of. *)
Lemma normalize_sprite_inv (image : Image) (tW tH : Z) (out : Image) :
  normalize_sprite image (tW, tH) = Return out ->
  exists fitted canvas,
    ((size image = (tW, tH) /\ fitted = image) \/
     (size image <> (tW, tH) /\ has_pixels image /\
      resize image (scaled_size image (tW, tH)) = Return fitted)) /\
    new RGBA (tW, tH) transparent = Return canvas /\
    pastes_on_rgba fitted /\
    out = pasted canvas (as_pasted fitted)
            ((tW - Z.of_nat (width fitted)) / 2,
             (tH - Z.of_nat (height fitted)) / 2)
            (if String.eqb (mode_name (mode fitted)) "RGBA"
             then Some fitted else None).
Proof.
  rewrite normalize_sprite_stages. intros Hrun.
  match type of Hrun with
  | mbind _ ?c = _ => destruct c as [fitted | e] eqn:Hfit
  end; cbn [mbind result_bind Py.bind] in Hrun; [| discriminate Hrun].
  destruct (new RGBA (tW, tH) transparent) as [canvas | e] eqn:Hnew;
    cbn [mbind result_bind Py.bind] in Hrun; [| discriminate Hrun].
  pose proof (new_returns _ _ _ _ Hnew) as (_ & Hcmode & _).
  apply (paste_inv _ _ _ _ _ Hcmode) in Hrun as [Hpaste ->].
  exists fitted, canvas. split; [| repeat split; [exact Hpaste]].
  destruct (size_eqb (size image) (tW, tH)) eqn:Heq.
  - left. apply size_eqb_eq in Heq. injection Hfit as <-.
    split; [exact Heq | reflexivity].
  - right. split.
    + intros Heq'. rewrite Heq', size_eqb_refl in Heq. discriminate.
    + destruct (Z.eqb_spec (Z.of_nat (width image)) 0); [discriminate Hfit |].
      destruct (Z.eqb_spec (Z.of_nat (height image)) 0); [discriminate Hfit |].
      split; [unfold has_pixels; lia | exact Hfit].
Qed.



End NormalizeProperties.



(** ** Completion tracking *)

Tactic Notation "py_simpl" :=
  cbn [mbind mret result_bind result_ret Py.bind from_option id
       Builtins.dict_get Builtins.dict_get_default Builtins.getitem
       Builtins.dict_items Builtins.is_str Builtins.py_eq Builtins.number
       ComfyUIClient.is_none].
Tactic Notation "py_simpl" "in" hyp(H) :=
  cbn [mbind mret result_bind result_ret Py.bind from_option id
       Builtins.dict_get Builtins.dict_get_default Builtins.getitem
       Builtins.dict_items Builtins.is_str Builtins.py_eq Builtins.number
       ComfyUIClient.is_none] in H.

Section TrackingProperties.
Import Builtins ComfyUIClient.

Lemma handle_message_completion (job_id : string) (ev : json) :
  completion_event job_id ev -> handle_message (JStr job_id) ev = Return true.
Proof.
  intros (fields & data & -> & Hty & Hdata & Hnode & Hpid).
  unfold handle_message. py_simpl. rewrite Hty. py_simpl.
  change (String.eqb "executing" "executing") with true. cbv iota.
  rewrite Hdata. py_simpl.
  destruct Hnode as [-> | ->]; py_simpl; rewrite Hpid; py_simpl;
    rewrite String.eqb_refl; reflexivity.
Qed.

Lemma handle_message_error (job_id : string) (ev detail : json) :
  error_event ev detail ->
  handle_message (JStr job_id) ev = Raise (ExecutionError detail).
Proof.
  intros (fields & -> & Hty & ->).
  unfold handle_message. py_simpl. rewrite Hty. py_simpl.
  change (String.eqb "execution_error" "executing") with false.
  change (String.eqb "execution_error" "execution_error") with true.
  cbv iota. py_simpl. reflexivity.
Qed.

(** What the loop body does with a well-formed event is decided by the
    kind of the event. *)
Lemma handle_message_classify (job_id : string) (ev : json) :
  well_formed_event ev ->
  (completion_event job_id ev /\ handle_message (JStr job_id) ev = Return true) \/
  (exists detail, error_event ev detail /\
                  handle_message (JStr job_id) ev = Raise (ExecutionError detail)) \/
  (progress_event job_id ev /\ handle_message (JStr job_id) ev = Return false).
Proof.
  intros Hwf.
  destruct (handle_message (JStr job_id) ev) as [[|] | e] eqn:Hrun.
  - left. split; [| reflexivity].
    destruct Hwf as (fields & -> & Hdata).
    unfold handle_message in Hrun. py_simpl in Hrun.
    destruct (assoc "type" fields) as [[| | | | s | |] |] eqn:Hty;
      simpl in Hrun; try discriminate.
    destruct (String.eqb_spec s "executing") as [-> | Hs].
    + destruct (Hdata eq_refl) as [Hnone | (data & Hsome)].
      * rewrite Hnone in Hrun. simpl in Hrun. discriminate.
      * rewrite Hsome in Hrun. simpl in Hrun. exists fields, data.
        destruct (assoc "node" data) as [[| | | | | |] |];
          simpl in Hrun; try discriminate;
          (destruct (assoc "prompt_id" data) as [[| | | | p | |] |];
           simpl in Hrun; try discriminate);
          match goal with
          | Hq : context [String.eqb ?q job_id] |- _ =>
              destruct (String.eqb q job_id) eqn:Heq; [| discriminate];
              apply String.eqb_eq in Heq; subst q
          end; repeat split; auto.
    + simpl in Hrun. destruct (String.eqb s "execution_error"); discriminate.
  - right. right. split; [| reflexivity].
    split; [exact Hwf |]. split.
    + intros Hc. rewrite (handle_message_completion _ _ Hc) in Hrun. discriminate.
    + intros (detail & He). rewrite (handle_message_error _ _ _ He) in Hrun.
      discriminate.
  - right. left.
    destruct Hwf as (fields & -> & Hdata).
    unfold handle_message in Hrun. py_simpl in Hrun.
    destruct (assoc "type" fields) as [[| | | | s | |] |] eqn:Hty;
      simpl in Hrun; try discriminate.
    destruct (String.eqb_spec s "executing") as [-> | Hs].
    + destruct (Hdata eq_refl) as [Hnone | (data & Hsome)].
      * rewrite Hnone in Hrun. simpl in Hrun. discriminate.
      * rewrite Hsome in Hrun. simpl in Hrun.
        destruct (assoc "node" data) as [[| | | | | |] |];
          simpl in Hrun; try discriminate;
          (destruct (assoc "prompt_id" data) as [[| | | | p | |] |];
           simpl in Hrun; try discriminate);
          match goal with
          | Hq : context [String.eqb ?q job_id] |- _ =>
              destruct (String.eqb q job_id); simpl in Hq; discriminate
          end.
    + simpl in Hrun.
      destruct (String.eqb_spec s "execution_error") as [-> | Hs'];
        [| discriminate].
      injection Hrun as <-.
      exists (default JNull (assoc "data" fields)). split; [| reflexivity].
      exists fields. repeat split; auto.
Qed.

Lemma handle_message_progress (job_id : string) (ev : json) :
  progress_event job_id ev -> handle_message (JStr job_id) ev = Return false.
Proof.
  intros (Hwf & Hnc & Hne).
  destruct (handle_message_classify job_id ev Hwf)
    as [[Hc _] | [(detail & He & _) | [_ Hrun]]].
  - contradiction.
  - destruct Hne. exists detail. exact He.
  - exact Hrun.
Qed.

Lemma wait_loop_progress (job_id : string) (before : list json)
  (rest : list ws_item) :
  Forall (progress_event job_id) before ->
  wait_loop (JStr job_id) (map WsMessage before ++ rest)
  = wait_loop (JStr job_id) rest.
Proof.
  induction 1 as [| ev before Hev _ IH]; [reflexivity |].
  simpl. rewrite (handle_message_progress _ _ Hev). exact IH.
Qed.

End TrackingProperties.

Section TrackingClaims.
Import Builtins ComfyUIClient.

(** A stream of well-formed events has a first completion event, or a first
    error event, or consists of progress events only. *)
Lemma events_first_terminal (job_id : string) (events : list json) :
  Forall well_formed_event events ->
  (exists before ev after,
     events = before ++ ev :: after /\
     Forall (progress_event job_id) before /\ completion_event job_id ev) \/
  (exists before ev after detail,
     events = before ++ ev :: after /\
     Forall (progress_event job_id) before /\ error_event ev detail) \/
  Forall (progress_event job_id) events.
Proof.
  induction 1 as [| ev events Hev _ IH]; [right; right; constructor |].
  destruct (handle_message_classify job_id ev Hev)
    as [[Hc _] | [(detail & He & _) | [Hp _]]].
  - left. exists [], ev, events. repeat split; [constructor | exact Hc].
  - right. left. exists [], ev, events, detail.
    repeat split; [constructor | exact He].
  - destruct IH as [(before & ev' & after & -> & Hb & Hc)
                   | [(before & ev' & after & detail & -> & Hb & He) | Hall]].
    + left. exists (ev :: before), ev', after.
      repeat split; [constructor; assumption | exact Hc].
    + right. left. exists (ev :: before), ev', after, detail.
      repeat split; [constructor; assumption | exact He].
    + right. right. constructor; assumption.
Qed.

(** C2: the three ways in which [_wait_for_completion] ends on a stream of
    events.  It returns on the first completion event for the tracked job;
    it raises the execution error, carrying the payload, on the first
    error event; and when the timer fires with neither seen it raises the
    timeout error, cancels the outstanding receive and closes the channel.
    On well-formed events no other outcome exists. *)
Theorem wait_for_completion_outcomes (w : World) (job_id client_id : string)
  (events : list json) :
  ws_connect w client_id = Return (map WsMessage events) ->
  let run := _wait_for_completion w (JStr job_id) client_id in
  (forall before ev after,
     events = before ++ ev :: after ->
     Forall (progress_event job_id) before ->
     completion_event job_id ev ->
     run = ([WsConnect client_id; CancelTimeoutTask; CancelTimeoutTask; WsClose],
            Return tt)) /\
  (forall before ev after detail,
     events = before ++ ev :: after ->
     Forall (progress_event job_id) before ->
     error_event ev detail ->
     run = ([WsConnect client_id; CancelTimeoutTask; WsClose],
            Raise (ExecutionError detail))) /\
  (Forall (progress_event job_id) events ->
   run = ([WsConnect client_id; CancelTimeoutTask; CancelMessageTask; WsClose],
          Raise Timeout)) /\
  (Forall well_formed_event events ->
   snd run = Return tt \/
   (exists detail, snd run = Raise (ExecutionError detail)) \/
   snd run = Raise Timeout).
Proof.
  intros Hconnect run.
  assert (Hdone : forall before ev after,
            events = before ++ ev :: after ->
            Forall (progress_event job_id) before ->
            completion_event job_id ev ->
            run = ([WsConnect client_id; CancelTimeoutTask; CancelTimeoutTask;
                    WsClose], Return tt)).
  { intros before ev after -> Hbefore Hev. subst run.
    unfold _wait_for_completion. simpl. rewrite Hconnect. simpl.
    rewrite map_app, (wait_loop_progress _ _ _ Hbefore). simpl.
    rewrite (handle_message_completion _ _ Hev). reflexivity. }
  assert (Herr : forall before ev after detail,
            events = before ++ ev :: after ->
            Forall (progress_event job_id) before ->
            error_event ev detail ->
            run = ([WsConnect client_id; CancelTimeoutTask; WsClose],
                   Raise (ExecutionError detail))).
  { intros before ev after detail -> Hbefore Hev. subst run.
    unfold _wait_for_completion. simpl. rewrite Hconnect. simpl.
    rewrite map_app, (wait_loop_progress _ _ _ Hbefore). simpl.
    rewrite (handle_message_error _ _ _ Hev). reflexivity. }
  assert (Htimeout : Forall (progress_event job_id) events ->
            run = ([WsConnect client_id; CancelTimeoutTask; CancelMessageTask;
                    WsClose], Raise Timeout)).
  { intros Hall. subst run.
    unfold _wait_for_completion. simpl. rewrite Hconnect. simpl.
    rewrite <- (app_nil_r (map WsMessage events)).
    rewrite (wait_loop_progress _ _ _ Hall). reflexivity. }
  repeat split; try assumption.
  intros Hwf.
  destruct (events_first_terminal job_id events Hwf)
    as [(before & ev & after & Heq & Hb & Hc)
       | [(before & ev & after & detail & Heq & Hb & He) | Hall]].
  - left. rewrite (Hdone _ _ _ Heq Hb Hc). reflexivity.
  - right. left. exists detail. rewrite (Herr _ _ _ _ Heq Hb He). reflexivity.
  - right. right. rewrite (Htimeout Hall). reflexivity.
Qed.

End TrackingClaims.

Lemma progress_event_intro (job_id : string) (ev : json) :
  well_formed_event ev ->
  ComfyUIClient.handle_message (JStr job_id) ev = Return false ->
  progress_event job_id ev.
Proof.
  intros Hwf Hrun.
  destruct (handle_message_classify job_id ev Hwf)
    as [[_ Hc] | [(detail & _ & He) | [Hp _]]]; [congruence | congruence | exact Hp].
Qed.

Lemma well_formed_progress : well_formed_event Backends.progress.
Proof. exists (match Backends.progress with JObj f => f | _ => [] end).
  split; [reflexivity |]. intros Hty. vm_compute in Hty. discriminate Hty. Qed.

Lemma well_formed_executing (node : json) (job : string) :
  well_formed_event (Backends.executing node job).
Proof.
  eexists. split; [reflexivity |]. intros _. right. eexists. reflexivity.
Qed.

Lemma wait_for_completion_outcomes_witness :
  ComfyUIClient._wait_for_completion Backends.healthy (JStr "job-1") "c"
  = ([ComfyUIClient.WsConnect "c"; ComfyUIClient.CancelTimeoutTask;
      ComfyUIClient.CancelTimeoutTask; ComfyUIClient.WsClose], Return tt) /\
  ComfyUIClient._wait_for_completion Backends.erroring (JStr "job-1") "c"
  = ([ComfyUIClient.WsConnect "c"; ComfyUIClient.CancelTimeoutTask;
      ComfyUIClient.WsClose],
     Raise (ExecutionError (JObj [("exception_message", JStr "out of memory")]))) /\
  ComfyUIClient._wait_for_completion Backends.silent (JStr "job-1") "c"
  = ([ComfyUIClient.WsConnect "c"; ComfyUIClient.CancelTimeoutTask;
      ComfyUIClient.CancelMessageTask; ComfyUIClient.WsClose],
     Raise Timeout).
Proof.
  assert (Hp1 : progress_event "job-1" Backends.progress)
    by (apply progress_event_intro; [apply well_formed_progress | reflexivity]).
  assert (Hp2 : progress_event "job-1" (Backends.executing (JStr "3") "job-1"))
    by (apply progress_event_intro; [apply well_formed_executing | reflexivity]).
  split; [| split].
  - apply (proj1 (wait_for_completion_outcomes Backends.healthy "job-1" "c"
                    [Backends.progress; Backends.executing (JStr "3") "job-1";
                     Backends.executing JNull "job-1"] eq_refl)
             [Backends.progress; Backends.executing (JStr "3") "job-1"]
             (Backends.executing JNull "job-1") []).
    + reflexivity.
    + repeat (apply List.Forall_cons; [assumption |]); apply List.Forall_nil.
    + eexists _, _. repeat split; try reflexivity. right. reflexivity.
  - apply (proj1 (proj2 (wait_for_completion_outcomes Backends.erroring "job-1" "c"
                    [Backends.progress; Backends.execution_error;
                     Backends.executing JNull "job-1"] eq_refl))
             [Backends.progress] Backends.execution_error
             [Backends.executing JNull "job-1"]).
    + reflexivity.
    + repeat (apply List.Forall_cons; [assumption |]); apply List.Forall_nil.
    + eexists. repeat split; reflexivity.
  - apply (proj1 (proj2 (proj2 (wait_for_completion_outcomes Backends.silent "job-1" "c"
                    [Backends.progress; Backends.executing (JStr "3") "job-1"]
                    eq_refl)))).
    repeat (apply List.Forall_cons; [assumption |]); apply List.Forall_nil.
Defined.

(** Outside the streams of events: when the waiting task itself is
    cancelled, the [except] clause swallows the cancellation and the
    function returns, after the same clean-up as for a timeout. *)
Example wait_for_completion_cancelled :
  ComfyUIClient._wait_for_completion
    (Backends.with_events Backends.healthy
       [ComfyUIClient.WsMessage Backends.progress; ComfyUIClient.WsCancelled])
    (JStr "job-1") "c"
  = ([ComfyUIClient.WsConnect "c"; ComfyUIClient.CancelTimeoutTask;
      ComfyUIClient.CancelMessageTask; ComfyUIClient.WsClose], Return tt).
Proof. reflexivity. Qed.

(** ** Artifact retrieval *)

Section FetchProperties.
Import Builtins ComfyUIClient.

Lemma first_retrieved_app (w : World) (ds1 ds2 : list json) :
  first_retrieved w (ds1 ++ ds2)
  = match first_retrieved w ds1 with
    | Return None => first_retrieved w ds2
    | other => other
    end.
Proof.
  induction ds1 as [| d ds1 IH]; simpl; [reflexivity |].
  destruct (retrieval w d) as [r | e]; [| reflexivity].
  destruct (status_code r =? 200); [reflexivity | exact IH].
Qed.

Lemma first_retrieved_none (w : World) (ds : list json) :
  Forall (retrieval_fails w) ds -> first_retrieved w ds = Return None.
Proof.
  induction 1 as [| d ds (r & Hr & Hcode) _ IH]; simpl; [reflexivity |].
  rewrite Hr. destruct (Z.eqb_spec (status_code r) 200); [contradiction | exact IH].
Qed.

Lemma first_retrieved_found (w : World) (before after : list json) (d : json)
  (data : list byte) :
  Forall (retrieval_fails w) before ->
  retrieval_succeeds w d data ->
  first_retrieved w (before ++ d :: after) = Return (Some data).
Proof.
  intros Hbefore (r & Hr & Hcode & Hdata).
  rewrite first_retrieved_app, (first_retrieved_none _ _ Hbefore). simpl.
  rewrite Hr, Hcode. simpl. rewrite Hdata. reflexivity.
Qed.

(** The inner loop is the in-order scan of its descriptors. *)
Lemma scan_images_spec (w : World) (images : list json) :
  Forall well_formed_descriptor images ->
  snd (scan_images w images) = first_retrieved w images.
Proof.
  induction 1 as [| d images (fields & name & -> & Hname) _ IH]; [reflexivity |].
  simpl. rewrite Hname. simpl.
  destruct (get_view w name _ _) as [r | e]; [| reflexivity].
  destruct (status_code r =? 200); [reflexivity |].
  rewrite <- IH. destruct (scan_images w images). reflexivity.
Qed.

(** The nested loops are the in-order scan of all descriptors. *)
Lemma scan_outputs_spec (w : World) (outputs : list (string * json)) :
  Forall (fun kv => well_formed_node (snd kv)) outputs ->
  snd (scan_outputs w outputs) = first_retrieved w (descriptors outputs).
Proof.
  induction 1 as [| [node_id node_output] outputs (fields & Hnode & Himages) _ IH];
    [reflexivity |].
  simpl in Hnode. subst node_output.
  unfold descriptors. simpl flat_map. fold (descriptors outputs).
  rewrite first_retrieved_app, <- IH.
  destruct Himages as [Hnone | (images & Hsome & Hwf)].
  - simpl. rewrite Hnone. simpl.
    destruct (scan_outputs w outputs). reflexivity.
  - simpl. rewrite Hsome. simpl.
    rewrite <- (scan_images_spec w images Hwf).
    destruct (scan_images w images) as [t [[data |] | e]]; simpl;
      [reflexivity | | reflexivity].
    destruct (scan_outputs w outputs). reflexivity.
Qed.

Lemma get_generated_image_spec (w : World) (job_id : string) (resp : Response)
  (doc : json) (outputs : list (string * json)) :
  get_history w (JStr job_id) = Return resp ->
  status_code resp = 200 ->
  body resp = Some doc ->
  history_outputs job_id doc outputs ->
  Forall (fun kv => well_formed_node (snd kv)) outputs ->
  snd (_get_generated_image w (JStr job_id))
  = match first_retrieved w (descriptors outputs) with
    | Return (Some data) => Return data
    | Return None => Raise NoImagesFound
    | Raise e => Raise e
    end.
Proof.
  intros Hhist Hcode Hbody (history & -> & Hrec) Hwf.
  unfold _get_generated_image, response_json. simpl.
  rewrite Hhist. simpl. rewrite Hcode. simpl. rewrite Hbody. simpl.
  destruct Hrec as [[Hnone ->] | (record & Hsome & [[Hnone ->] | Hout])].
  - rewrite Hnone. reflexivity.
  - rewrite Hsome. simpl. rewrite Hnone. reflexivity.
  - rewrite Hsome. simpl. rewrite Hout. simpl.
    rewrite <- (scan_outputs_spec w outputs Hwf).
    destruct (scan_outputs w outputs) as [t [[data |] | e]]; reflexivity.
Qed.

End FetchProperties.

Section FetchClaims.
Import Builtins ComfyUIClient.

(** C3, as the code has it: a history answered with another status than
    200 is an error of its own.  With the history answered 200, the
    descriptors of the output nodes are scanned in the order reported; a
    descriptor whose request is answered with another status than 200 is
    passed over, and the content of the first one answered with 200 is
    returned.  When no descriptor is left -- the record is missing, it
    lists no image, or every request was answered with another status --
    the error is in each case the same "No images found in output". *)
Theorem get_generated_image_first_served (w : World) (job_id : string)
  (resp : Response) :
  get_history w (JStr job_id) = Return resp ->
  (status_code resp <> 200 ->
   snd (_get_generated_image w (JStr job_id))
   = Raise (HistoryFailed (status_code resp))) /\
  (status_code resp = 200 ->
   forall (doc : json) (outputs : list (string * json)),
     body resp = Some doc ->
     history_outputs job_id doc outputs ->
     Forall (fun kv => well_formed_node (snd kv)) outputs ->
     (forall before d after data,
        descriptors outputs = before ++ d :: after ->
        Forall (retrieval_fails w) before ->
        retrieval_succeeds w d data ->
        snd (_get_generated_image w (JStr job_id)) = Return data) /\
     (Forall (retrieval_fails w) (descriptors outputs) ->
      snd (_get_generated_image w (JStr job_id)) = Raise NoImagesFound)).
Proof.
  intros Hhist. split.
  - intros Hcode. unfold _get_generated_image. simpl. rewrite Hhist. simpl.
    destruct (Z.eqb_spec (status_code resp) 200); [contradiction | reflexivity].
  - intros Hcode doc outputs Hbody Hdoc Hwf.
    rewrite (get_generated_image_spec w job_id resp doc outputs
               Hhist Hcode Hbody Hdoc Hwf).
    split.
    + intros before d after data -> Hbefore Hd.
      rewrite (first_retrieved_found w before after d data Hbefore Hd).
      reflexivity.
    + intros Hall. rewrite (first_retrieved_none w _ Hall). reflexivity.
Qed.

End FetchClaims.

Lemma history_with_outputs (images : list json) :
  history_outputs "job-1" (Backends.history_with images)
    [("9", JObj [("images", JArr images)])].
Proof.
  eexists. split; [reflexivity |]. right. eexists. split; [reflexivity |].
  right. reflexivity.
Qed.

Lemma history_with_well_formed (names : list string) :
  Forall (fun kv => well_formed_node (snd kv))
    [("9", JObj [("images", JArr (map Backends.descriptor names))])].
Proof.
  apply List.Forall_cons; [| apply List.Forall_nil].
  eexists. split; [reflexivity |]. right. eexists. split; [reflexivity |].
  apply Forall_map, List.Forall_forall. intros name _.
  eexists _, _. split; reflexivity.
Qed.

Lemma get_generated_image_first_served_witness :
  snd (ComfyUIClient._get_generated_image Backends.second_served (JStr "job-1"))
  = Return Backends.png /\
  snd (ComfyUIClient._get_generated_image Backends.unretrievable (JStr "job-1"))
  = Raise NoImagesFound.
Proof.
  split.
  - apply (proj1 (proj2 (get_generated_image_first_served Backends.second_served
                           "job-1" _ eq_refl) eq_refl _ _ eq_refl
                    (history_with_outputs _)
                    (history_with_well_formed ["a.png"; "b.png"]))
             [Backends.descriptor "a.png"] (Backends.descriptor "b.png") []).
    + reflexivity.
    + apply List.Forall_cons; [| apply List.Forall_nil].
      eexists. split; [reflexivity |]. simpl. lia.
    + eexists. repeat split; reflexivity.
  - apply (proj2 (proj2 (get_generated_image_first_served Backends.unretrievable
                           "job-1" _ eq_refl) eq_refl _ _ eq_refl
                    (history_with_outputs _)
                    (history_with_well_formed ["a.png"; "b.png"]))).
    repeat (apply List.Forall_cons;
            [eexists; split; [reflexivity | simpl; lia] |]).
    apply List.Forall_nil.
Defined.

(** C3 as stated fails: a history without image descriptors and a history
    whose two descriptors are both answered 404 end in one and the same
    error. *)
Lemma artifact_errors_coincide :
  descriptors [("9", JObj [("images", JArr [])])] = [] /\
  snd (ComfyUIClient._get_generated_image Backends.without_images (JStr "job-1"))
  = Raise NoImagesFound /\
  Forall (retrieval_fails Backends.unretrievable)
    [Backends.descriptor "a.png"; Backends.descriptor "b.png"] /\
  snd (ComfyUIClient._get_generated_image Backends.unretrievable (JStr "job-1"))
  = Raise NoImagesFound.
Proof.
  repeat split; try reflexivity.
  repeat (apply List.Forall_cons;
          [eexists; split; [reflexivity | simpl; lia] |]).
  apply List.Forall_nil.
Qed.

(** ** The composed operation *)

Section GenerateImageClaims.
Import Builtins ComfyUIClient.

(** C1, as the code has it: a failing stage ends the operation at once --
    the effects are those of the stages run so far, then the printed
    error -- and the caller is handed [None] whatever the stage and the
    error; no exception leaves [generate_image], and a value other than
    [None] is the image data of a completed fetch. *)
Theorem generate_image_outcomes (w : World) (prompt negative_prompt : string)
  (seed width height : Z) :
  let workflow := _create_workflow prompt negative_prompt seed width height in
  let client_id := _generate_client_id w in
  let run := generate_image w prompt negative_prompt seed width height in
  (forall t e,
     _queue_prompt w workflow client_id = (t, Raise e) ->
     run = (t ++ [Print e], Return None)) /\
  (forall t1 job_id t2 e,
     _queue_prompt w workflow client_id = (t1, Return job_id) ->
     _wait_for_completion w job_id client_id = (t2, Raise e) ->
     run = (t1 ++ t2 ++ [Print e], Return None)) /\
  (forall t1 job_id t2 t3 e,
     _queue_prompt w workflow client_id = (t1, Return job_id) ->
     _wait_for_completion w job_id client_id = (t2, Return tt) ->
     _get_generated_image w job_id = (t3, Raise e) ->
     run = (t1 ++ t2 ++ t3 ++ [Print e], Return None)) /\
  (forall t1 job_id t2 t3 data,
     _queue_prompt w workflow client_id = (t1, Return job_id) ->
     _wait_for_completion w job_id client_id = (t2, Return tt) ->
     _get_generated_image w job_id = (t3, Return data) ->
     run = (t1 ++ t2 ++ t3, Return (Some data))) /\
  (exists t, run = (t, Return None) \/ exists data, run = (t, Return (Some data))).
Proof.
  intros workflow client_id run.
  assert (H1 : forall t e,
            _queue_prompt w workflow client_id = (t, Raise e) ->
            run = (t ++ [Print e], Return None)).
  { intros t e Hq. subst run. unfold generate_image. fold workflow client_id.
    rewrite Hq. reflexivity. }
  assert (H2 : forall t1 job_id t2 e,
            _queue_prompt w workflow client_id = (t1, Return job_id) ->
            _wait_for_completion w job_id client_id = (t2, Raise e) ->
            run = (t1 ++ t2 ++ [Print e], Return None)).
  { intros t1 job_id t2 e Hq Hw. subst run. unfold generate_image.
    fold workflow client_id. rewrite Hq. cbn [mbind io_bind]. rewrite Hw.
    cbn [try_except mbind io_bind perform mret io_ret].
    rewrite <- !app_assoc. reflexivity. }
  assert (H3 : forall t1 job_id t2 t3 e,
            _queue_prompt w workflow client_id = (t1, Return job_id) ->
            _wait_for_completion w job_id client_id = (t2, Return tt) ->
            _get_generated_image w job_id = (t3, Raise e) ->
            run = (t1 ++ t2 ++ t3 ++ [Print e], Return None)).
  { intros t1 job_id t2 t3 e Hq Hw Hg. subst run. unfold generate_image.
    fold workflow client_id. rewrite Hq. cbn [mbind io_bind]. rewrite Hw.
    cbn [mbind io_bind]. rewrite Hg.
    cbn [try_except mbind io_bind perform mret io_ret].
    rewrite <- !app_assoc. reflexivity. }
  assert (H4 : forall t1 job_id t2 t3 data,
            _queue_prompt w workflow client_id = (t1, Return job_id) ->
            _wait_for_completion w job_id client_id = (t2, Return tt) ->
            _get_generated_image w job_id = (t3, Return data) ->
            run = (t1 ++ t2 ++ t3, Return (Some data))).
  { intros t1 job_id t2 t3 data Hq Hw Hg. subst run. unfold generate_image.
    fold workflow client_id. rewrite Hq. cbn [mbind io_bind]. rewrite Hw.
    cbn [mbind io_bind]. rewrite Hg.
    cbn [try_except mbind io_bind perform mret io_ret].
    rewrite !app_nil_r. reflexivity. }
  repeat split; try assumption.
  destruct (_queue_prompt w workflow client_id) as [t1 [job_id | e]] eqn:Hq.
  - destruct (_wait_for_completion w job_id client_id) as [t2 [[] | e]] eqn:Hw.
    + destruct (_get_generated_image w job_id) as [t3 [data | e]] eqn:Hg.
      * eexists. right. eexists. apply (H4 _ _ _ _ _ eq_refl Hw Hg).
      * eexists. left. apply (H3 _ _ _ _ _ eq_refl Hw Hg).
    + eexists. left. apply (H2 _ _ _ _ eq_refl Hw).
  - eexists. left. apply (H1 _ _ eq_refl).
Qed.

End GenerateImageClaims.

Lemma generate_image_outcomes_witness :
  ComfyUIClient.generate_image Backends.rejecting "goblin" "blurry" 42 128 128
  = ([ComfyUIClient.PostPrompt Backends.sample_workflow Backends.sample_client_id]
       ++ [ComfyUIClient.Print (QueueFailed 500 "busy")], Return None) /\
  ComfyUIClient.generate_image Backends.silent "goblin" "blurry" 42 128 128
  = ([ComfyUIClient.PostPrompt Backends.sample_workflow Backends.sample_client_id]
       ++ [ComfyUIClient.WsConnect Backends.sample_client_id; ComfyUIClient.CancelTimeoutTask;
           ComfyUIClient.CancelMessageTask; ComfyUIClient.WsClose]
       ++ [ComfyUIClient.Print Timeout], Return None) /\
  ComfyUIClient.generate_image Backends.unretrievable "goblin" "blurry" 42 128 128
  = ([ComfyUIClient.PostPrompt Backends.sample_workflow Backends.sample_client_id]
       ++ [ComfyUIClient.WsConnect Backends.sample_client_id; ComfyUIClient.CancelTimeoutTask;
           ComfyUIClient.CancelTimeoutTask; ComfyUIClient.WsClose]
       ++ [ComfyUIClient.GetHistory (JStr "job-1");
           ComfyUIClient.GetView (JStr "a.png") (JStr "") (JStr "output");
           ComfyUIClient.GetView (JStr "b.png") (JStr "") (JStr "output")]
       ++ [ComfyUIClient.Print NoImagesFound], Return None) /\
  ComfyUIClient.generate_image Backends.healthy "goblin" "blurry" 42 128 128
  = ([ComfyUIClient.PostPrompt Backends.sample_workflow Backends.sample_client_id]
       ++ [ComfyUIClient.WsConnect Backends.sample_client_id; ComfyUIClient.CancelTimeoutTask;
           ComfyUIClient.CancelTimeoutTask; ComfyUIClient.WsClose]
       ++ [ComfyUIClient.GetHistory (JStr "job-1");
           ComfyUIClient.GetView (JStr "poc_sprite_00001_.png") (JStr "")
             (JStr "output")],
      Return (Some Backends.png)).
Proof.
  split; [| split; [| split]].
  - apply (proj1 (generate_image_outcomes Backends.rejecting
                    "goblin" "blurry" 42 128 128)).
    reflexivity.
  - apply (proj1 (proj2 (generate_image_outcomes Backends.silent
                    "goblin" "blurry" 42 128 128))
             _ (JStr "job-1")); reflexivity.
  - apply (proj1 (proj2 (proj2 (generate_image_outcomes Backends.unretrievable
                    "goblin" "blurry" 42 128 128)))
             _ (JStr "job-1")); reflexivity.
  - apply (proj1 (proj2 (proj2 (proj2 (generate_image_outcomes Backends.healthy
                    "goblin" "blurry" 42 128 128))))
             _ (JStr "job-1")); reflexivity.
Defined.

(** C1 as stated fails: a rejected submission and a timed-out wait are two
    different errors of two different stages, and the caller is handed the
    same [None] for both; the error itself is only printed. *)
Lemma generate_image_hides_stage_error :
  snd (ComfyUIClient._queue_prompt Backends.rejecting Backends.sample_workflow
         Backends.sample_client_id)
  = Raise (QueueFailed 500 "busy") /\
  snd (ComfyUIClient.generate_image Backends.rejecting "goblin" "blurry" 42 128 128)
  = Return None /\
  snd (ComfyUIClient._wait_for_completion Backends.silent (JStr "job-1")
         Backends.sample_client_id)
  = Raise Timeout /\
  snd (ComfyUIClient.generate_image Backends.silent "goblin" "blurry" 42 128 128)
  = Return None.
Proof. repeat split; vm_compute; reflexivity. Qed.

(** * Further properties of the client *)

(** ** The workflow graph *)

Section WorkflowProperties.
Import Builtins ComfyUIClient.

(** X1: whatever the prompts, seed and resolution, the graph that
    [_create_workflow] builds is well formed: its node ids are distinct,
    every node an input refers to is a node of the graph, no node depends
    on itself through any chain of references (the nodes can be ranked so
    that every reference points to a lower rank), and exactly one node,
    "9", is a [SaveImage] node. *)
Theorem create_workflow_well_formed (prompt negative_prompt : string)
  (seed width height : Z) :
  let graph := _create_workflow prompt negative_prompt seed width height in
  List.NoDup (node_ids graph) /\
  (forall node_id node target,
     In (node_id, node) (graph_nodes graph) ->
     In target (node_references node) ->
     In target (node_ids graph)) /\
  (exists order : string -> nat,
     forall node_id node target,
       In (node_id, node) (graph_nodes graph) ->
       In target (node_references node) ->
       (order target < order node_id)%nat) /\
  nodes_of_class "SaveImage" graph = ["9"].
Proof.
  intros graph. subst graph. unfold node_ids. split; [| split; [| split]].
  - simpl.
    repeat (apply List.NoDup_cons;
            [intros Hin; simpl in Hin;
             repeat (destruct Hin as [Hin | Hin]; [discriminate Hin |]);
             destruct Hin |]).
    apply List.NoDup_nil.
  - intros node_id node target Hnode Href. simpl in Hnode.
    repeat (destruct Hnode as [[= <- <-] | Hnode];
            [simpl in Href; simpl; tauto |]).
    destruct Hnode.
  - exists stage_rank. intros node_id node target Hnode Href. simpl in Hnode.
    repeat (destruct Hnode as [[= <- <-] | Hnode];
            [simpl in Href;
             repeat (destruct Href as [<- | Href]; [vm_compute; lia |]);
             destruct Href |]).
    destruct Hnode.
  - reflexivity.
Qed.

End WorkflowProperties.

Section WorkflowRoundTrip.
Import Builtins ComfyUIClient.

(** X2: the five parameters of a request are read back from the graph at
    the places the backend reads them -- the seed at the sampler, the
    resolution at the latent image, the two prompts at the two text
    encoders -- so two calls that differ in any parameter build different
    graphs. *)
Theorem create_workflow_reads_back (prompt negative_prompt : string)
  (seed width height : Z) :
  let graph := _create_workflow prompt negative_prompt seed width height in
  input_of graph "3" "seed" = Return (JInt seed) /\
  input_of graph "5" "width" = Return (JInt width) /\
  input_of graph "5" "height" = Return (JInt height) /\
  input_of graph "6" "text" = Return (JStr prompt) /\
  input_of graph "7" "text" = Return (JStr negative_prompt) /\
  (forall prompt' negative_prompt' seed' width' height',
     graph = _create_workflow prompt' negative_prompt' seed' width' height' ->
     prompt = prompt' /\ negative_prompt = negative_prompt' /\
     seed = seed' /\ width = width' /\ height = height').
Proof.
  intros graph. subst graph.
  do 5 (split; [reflexivity |]).
  intros prompt' negative_prompt' seed' width' height' Heq.
  unfold _create_workflow in Heq. injection Heq. intros. subst.
  repeat split; reflexivity.
Qed.

End WorkflowRoundTrip.

(** ** Submission *)

Section QueueProperties.
Import Builtins ComfyUIClient.

(** X3: [_queue_prompt] sends exactly one request in every case.  It
    returns exactly when the request is answered with status 200 and a
    JSON object that has a "prompt_id", and what it returns is the value
    found there, a string or any other JSON value: the annotation [-> str]
    is not checked.  An answer with another status raises the queueing
    error with the status and the text of the answer, whatever its body;
    an answer 200 that is not JSON raises the decoding error, one that is
    JSON but no object a [TypeError], an object without "prompt_id" a
    [KeyError]; a transport failure is passed on. *)
Theorem queue_prompt_outcomes (w : World) (workflow : json) (client_id : string) :
  let run := _queue_prompt w workflow client_id in
  fst run = [PostPrompt workflow client_id] /\
  (forall job_id : json,
     snd run = Return job_id <->
     exists resp fields,
       post_prompt w workflow client_id = Return resp /\
       status_code resp = 200 /\
       body resp = Some (JObj fields) /\
       assoc "prompt_id" fields = Some job_id) /\
  (forall resp,
     post_prompt w workflow client_id = Return resp ->
     status_code resp <> 200 ->
     snd run = Raise (QueueFailed (status_code resp) (text resp))) /\
  (forall resp,
     post_prompt w workflow client_id = Return resp ->
     status_code resp = 200 -> body resp = None ->
     snd run = Raise JSONDecodeError) /\
  (forall resp v,
     post_prompt w workflow client_id = Return resp ->
     status_code resp = 200 -> body resp = Some v ->
     (forall fields, v <> JObj fields) ->
     snd run = Raise TypeError) /\
  (forall resp fields,
     post_prompt w workflow client_id = Return resp ->
     status_code resp = 200 -> body resp = Some (JObj fields) ->
     assoc "prompt_id" fields = None ->
     snd run = Raise (KeyError "prompt_id")) /\
  (forall e,
     post_prompt w workflow client_id = Raise e -> snd run = Raise e).
Proof.
  intros run. subst run. unfold _queue_prompt, response_json.
  split; [| split; [| split; [| split; [| split; [| split]]]]].
  - simpl. destruct (post_prompt w workflow client_id) as [resp | e];
      [| reflexivity].
    simpl. destruct (status_code resp =? 200); [| reflexivity].
    simpl. destruct (body resp) as [v |]; reflexivity.
  - intros job_id. split.
    + simpl. destruct (post_prompt w workflow client_id) as [resp | e];
        [| discriminate].
      simpl. destruct (Z.eqb_spec (status_code resp) 200) as [Hcode | Hcode];
        [| discriminate].
      simpl. destruct (body resp) as [[| | | | | | fields] |] eqn:Hbody;
        try discriminate.
      simpl. destruct (assoc "prompt_id" fields) as [v |] eqn:Hid;
        [| discriminate].
      simpl. intros [= <-]. exists resp, fields. repeat split; assumption.
    + intros (resp & fields & Hpost & Hcode & Hbody & Hid).
      simpl. rewrite Hpost. simpl. rewrite Hcode. simpl. rewrite Hbody. simpl.
      rewrite Hid. reflexivity.
  - intros resp Hpost Hcode. simpl. rewrite Hpost. simpl.
    destruct (Z.eqb_spec (status_code resp) 200); [contradiction | reflexivity].
  - intros resp Hpost Hcode Hbody. simpl. rewrite Hpost. simpl.
    rewrite Hcode. simpl. rewrite Hbody. reflexivity.
  - intros resp v Hpost Hcode Hbody Hv. simpl. rewrite Hpost. simpl.
    rewrite Hcode. simpl. rewrite Hbody. simpl.
    destruct v as [| | | | | | fields]; try reflexivity.
    destruct (Hv fields eq_refl).
  - intros resp fields Hpost Hcode Hbody Hid. simpl. rewrite Hpost. simpl.
    rewrite Hcode. simpl. rewrite Hbody. simpl. rewrite Hid. reflexivity.
  - intros e Hpost. simpl. rewrite Hpost. reflexivity.
Qed.

End QueueProperties.

(** An id that is no string goes through the stages like any other: the
    wait ends on the event that carries the same number, and the history,
    whose keys are strings, has no record under it. *)
Example generate_image_numeric_id :
  snd (ComfyUIClient._queue_prompt MoreBackends.numbering Backends.sample_workflow
         Backends.sample_client_id)
  = Return (JInt 123) /\
  ComfyUIClient.generate_image MoreBackends.numbering "goblin" "blurry" 42 128 128
  = ([ComfyUIClient.PostPrompt Backends.sample_workflow Backends.sample_client_id;
      ComfyUIClient.WsConnect Backends.sample_client_id;
      ComfyUIClient.CancelTimeoutTask; ComfyUIClient.CancelTimeoutTask;
      ComfyUIClient.WsClose;
      ComfyUIClient.GetHistory (JInt 123);
      ComfyUIClient.Print NoImagesFound], Return None).
Proof. split; reflexivity. Qed.

(** ** Tracking: clean-up and what is ignored *)

Section TrackingMore.
Import Builtins ComfyUIClient.

(** The loop performs nothing, or the one timer cancellation of the
    completion branch; a receive is left pending only without that. *)
Lemma wait_loop_effects (job_id : json) (stream : list ws_item) :
  (exists r pending, wait_loop job_id stream = (([], r), pending)) \/
  wait_loop job_id stream = (([CancelTimeoutTask], Return tt), false).
Proof.
  induction stream as [| item stream IH]; simpl.
  - left. eexists _, _. reflexivity.
  - destruct item as [message | | |]; try (left; eexists _, _; reflexivity).
    destruct (handle_message job_id message) as [[|] | e].
    + right. reflexivity.
    + exact IH.
    + left. eexists _, _. reflexivity.
Qed.

(** X4: once the channel is open, [_wait_for_completion] always ends by
    cancelling the timer and closing the channel, whatever arrives --
    events, unparseable frames, a lost connection, a cancellation -- and
    whatever the outcome; it performs nothing else and nothing after the
    close.  When the connection cannot be opened, the error is passed on
    and nothing is cleaned up. *)
Theorem wait_for_completion_cleans_up (w : World) (job_id client_id : string) :
  (forall stream,
     ws_connect w client_id = Return stream ->
     exists cleanup,
       fst (_wait_for_completion w (JStr job_id) client_id)
       = WsConnect client_id :: cleanup ++ [WsClose] /\
       In CancelTimeoutTask cleanup /\
       Forall (fun e => e = CancelTimeoutTask \/ e = CancelMessageTask) cleanup) /\
  (forall e,
     ws_connect w client_id = Raise e ->
     _wait_for_completion w (JStr job_id) client_id
     = ([WsConnect client_id], Raise e)).
Proof.
  split.
  - intros stream Hconnect. unfold _wait_for_completion. simpl.
    rewrite Hconnect. simpl.
    destruct (wait_loop_effects (JStr job_id) stream) as [(r & pending & ->) | ->].
    + destruct pending, r as [[] | e]; simpl;
        [exists [CancelTimeoutTask; CancelMessageTask]
        | exists [CancelTimeoutTask; CancelMessageTask]
        | exists [CancelTimeoutTask] | exists [CancelTimeoutTask]];
        (split; [reflexivity |]); (split; [simpl; auto |]);
        repeat (apply List.Forall_cons; [auto |]); apply List.Forall_nil.
    + simpl. exists [CancelTimeoutTask; CancelTimeoutTask].
      split; [reflexivity |]. split; [simpl; auto |].
      repeat (apply List.Forall_cons; [auto |]); apply List.Forall_nil.
  - intros e Hconnect. unfold _wait_for_completion. simpl.
    rewrite Hconnect. reflexivity.
Qed.

Lemma wait_loop_decided (job_id : string) (before : list json) (ev : json)
  (after : list ws_item) :
  Forall (progress_event job_id) before ->
  completion_event job_id ev \/ (exists detail, error_event ev detail) ->
  wait_loop (JStr job_id) (map WsMessage before ++ WsMessage ev :: after)
  = wait_loop (JStr job_id) [WsMessage ev].
Proof.
  intros Hbefore Hev. rewrite (wait_loop_progress _ _ _ Hbefore). simpl.
  destruct Hev as [Hc | (detail & He)].
  - rewrite (handle_message_completion _ _ Hc). reflexivity.
  - rewrite (handle_message_error _ _ _ He). reflexivity.
Qed.

(** X5: tracking ends with the first completion or error event; what the
    channel delivers after it -- further events, garbage, a disconnect --
    changes neither the outcome nor the effects. *)
Theorem wait_for_completion_ignores_later (w w' : World)
  (job_id client_id : string) (before : list json) (ev : json)
  (after after' : list ws_item) :
  ws_connect w client_id = Return (map WsMessage before ++ WsMessage ev :: after) ->
  ws_connect w' client_id = Return (map WsMessage before ++ WsMessage ev :: after') ->
  Forall (progress_event job_id) before ->
  completion_event job_id ev \/ (exists detail, error_event ev detail) ->
  _wait_for_completion w (JStr job_id) client_id
  = _wait_for_completion w' (JStr job_id) client_id.
Proof.
  intros Hw Hw' Hbefore Hev. unfold _wait_for_completion. simpl.
  rewrite Hw, Hw'. simpl.
  rewrite (wait_loop_decided _ _ _ after Hbefore Hev),
    (wait_loop_decided _ _ _ after' Hbefore Hev).
  reflexivity.
Qed.

Lemma foreign_completion_is_progress (job_id other : string) (ev : json) :
  other <> job_id -> completion_event other ev -> progress_event job_id ev.
Proof.
  intros Hne (fields & data & -> & Hty & Hdata & Hnode & Hpid).
  split; [| split].
  - exists fields. split; [reflexivity |]. intros _. right. exists data. exact Hdata.
  - intros (fields' & data' & [= <-] & _ & Hdata' & _ & Hpid').
    rewrite Hdata in Hdata'. injection Hdata' as <-.
    rewrite Hpid in Hpid'. injection Hpid' as ->. contradiction.
  - intros (detail & fields' & [= <-] & Hty' & _).
    rewrite Hty in Hty'. discriminate.
Qed.

(** X6: the completion of another job never completes this one: on a
    channel that only reports other jobs as finished, the wait runs into
    the timeout. *)
Theorem wait_for_completion_foreign_jobs (w : World) (job_id client_id : string)
  (events : list json) :
  ws_connect w client_id = Return (map WsMessage events) ->
  Forall (fun ev => exists other, other <> job_id /\ completion_event other ev)
         events ->
  _wait_for_completion w (JStr job_id) client_id
  = ([WsConnect client_id; CancelTimeoutTask; CancelMessageTask; WsClose],
     Raise Timeout).
Proof.
  intros Hconnect Hall.
  assert (Hprogress : Forall (progress_event job_id) events).
  { eapply Forall_impl; [exact Hall |]. intros ev (other & Hne & Hc).
    simpl. exact (foreign_completion_is_progress job_id other ev Hne Hc). }
  unfold _wait_for_completion. simpl. rewrite Hconnect. simpl.
  rewrite <- (app_nil_r (map WsMessage events)).
  rewrite (wait_loop_progress _ _ _ Hprogress). reflexivity.
Qed.


End TrackingMore.

(** ** Fetching: the requests that are sent *)

Section FetchMore.
Import Builtins ComfyUIClient.

Lemma scanned_all_fail (w : World) (ds : list json) :
  Forall (retrieval_fails w) ds -> scanned w ds = ds.
Proof.
  induction 1 as [| d ds (r & Hr & Hcode) _ IH]; simpl; [reflexivity |].
  rewrite Hr. destruct (Z.eqb_spec (status_code r) 200); [contradiction |].
  rewrite IH. reflexivity.
Qed.

Lemma scanned_app (w : World) (ds1 ds2 : list json) :
  scanned w (ds1 ++ ds2)
  = scanned w ds1 ++ match first_retrieved w ds1 with
                     | Return None => scanned w ds2
                     | _ => []
                     end.
Proof.
  induction ds1 as [| d ds1 IH]; simpl; [reflexivity |].
  destruct (retrieval w d) as [r | e]; [| reflexivity].
  destruct (status_code r =? 200); [reflexivity |].
  rewrite IH. reflexivity.
Qed.

Lemma scanned_stops (w : World) (before after : list json) (d : json) :
  Forall (retrieval_fails w) before ->
  (exists data, retrieval_succeeds w d data) \/ (exists e, retrieval w d = Raise e) ->
  scanned w (before ++ d :: after) = before ++ [d].
Proof.
  intros Hbefore Hd.
  rewrite scanned_app, (scanned_all_fail _ _ Hbefore),
    (first_retrieved_none _ _ Hbefore).
  simpl. destruct Hd as [(data & r & -> & -> & _) | (e & ->)]; reflexivity.
Qed.

Lemma scan_images_effects (w : World) (images : list json) :
  Forall well_formed_descriptor images ->
  fst (scan_images w images) = map view_request (scanned w images).
Proof.
  induction 1 as [| d images (fields & name & -> & Hname) _ IH]; [reflexivity |].
  simpl. rewrite Hname. simpl.
  destruct (get_view w name _ _) as [r | e]; [| reflexivity].
  destruct (status_code r =? 200); [reflexivity |].
  simpl. rewrite <- IH. destruct (scan_images w images). reflexivity.
Qed.

Lemma scan_outputs_effects (w : World) (outputs : list (string * json)) :
  Forall (fun kv => well_formed_node (snd kv)) outputs ->
  fst (scan_outputs w outputs) = map view_request (scanned w (descriptors outputs)).
Proof.
  induction 1 as [| [node_id node_output] outputs (fields & Hnode & Himages) Hrest IH];
    [reflexivity |].
  simpl in Hnode. subst node_output.
  unfold descriptors. simpl flat_map. fold (descriptors outputs).
  rewrite scanned_app, map_app.
  destruct Himages as [Hnone | (images & Hsome & Hwf)].
  - simpl. rewrite Hnone. simpl. rewrite <- IH.
    destruct (scan_outputs w outputs). reflexivity.
  - simpl. rewrite Hsome. simpl.
    rewrite <- (scan_images_effects w images Hwf),
      <- (scan_images_spec w images Hwf).
    destruct (scan_images w images) as [t [[data |] | e]]; simpl;
      rewrite ?app_nil_r; try reflexivity.
    rewrite <- IH. destruct (scan_outputs w outputs). reflexivity.
Qed.

Lemma get_generated_image_effects (w : World) (job_id : string) (resp : Response)
  (doc : json) (outputs : list (string * json)) :
  get_history w (JStr job_id) = Return resp ->
  status_code resp = 200 ->
  body resp = Some doc ->
  history_outputs job_id doc outputs ->
  Forall (fun kv => well_formed_node (snd kv)) outputs ->
  fst (_get_generated_image w (JStr job_id))
  = GetHistory (JStr job_id)
    :: map view_request (scanned w (descriptors outputs)).
Proof.
  intros Hhist Hcode Hbody (history & -> & Hrec) Hwf.
  unfold _get_generated_image, response_json. simpl.
  rewrite Hhist. simpl. rewrite Hcode. simpl. rewrite Hbody. simpl.
  destruct Hrec as [[Hnone ->] | (record & Hsome & [[Hnone ->] | Hout])].
  - rewrite Hnone. reflexivity.
  - rewrite Hsome. simpl. rewrite Hnone. reflexivity.
  - rewrite Hsome. simpl. rewrite Hout. simpl.
    rewrite <- (scan_outputs_effects w outputs Hwf).
    destruct (scan_outputs w outputs) as [t [[data |] | e]]; simpl;
      rewrite ?app_nil_r; reflexivity.
Qed.

(** X8: the fetch asks for the history once and then for the descriptors
    one after the other, in the order reported and with "" and "output"
    filled in for a missing subfolder and type; it stops at the first
    descriptor that is served and never asks for a later one.  When none
    is served it has asked for every descriptor exactly once. *)
Theorem get_generated_image_requests (w : World) (job_id : string)
  (resp : Response) (doc : json) (outputs : list (string * json)) :
  get_history w (JStr job_id) = Return resp ->
  status_code resp = 200 ->
  body resp = Some doc ->
  history_outputs job_id doc outputs ->
  Forall (fun kv => well_formed_node (snd kv)) outputs ->
  (forall before d after data,
     descriptors outputs = before ++ d :: after ->
     Forall (retrieval_fails w) before ->
     retrieval_succeeds w d data ->
     fst (_get_generated_image w (JStr job_id))
     = GetHistory (JStr job_id) :: map view_request (before ++ [d])) /\
  (Forall (retrieval_fails w) (descriptors outputs) ->
   fst (_get_generated_image w (JStr job_id))
   = GetHistory (JStr job_id) :: map view_request (descriptors outputs)).
Proof.
  intros Hhist Hcode Hbody Hdoc Hwf.
  rewrite (get_generated_image_effects w job_id resp doc outputs
             Hhist Hcode Hbody Hdoc Hwf).
  split.
  - intros before d after data -> Hbefore Hd.
    rewrite (scanned_stops w before after d Hbefore); [reflexivity |].
    left. exists data. exact Hd.
  - intros Hall. rewrite (scanned_all_fail w _ Hall). reflexivity.
Qed.

(** X9: a request that ends in a transport failure, rather than in an
    answer, ends the fetch with that failure: descriptors behind it are
    not tried, also when one of them would be served. *)
Theorem get_generated_image_transport_failure (w : World) (job_id : string)
  (resp : Response) (doc : json) (outputs : list (string * json))
  (before after : list json) (d : json) (e : exn) :
  get_history w (JStr job_id) = Return resp ->
  status_code resp = 200 ->
  body resp = Some doc ->
  history_outputs job_id doc outputs ->
  Forall (fun kv => well_formed_node (snd kv)) outputs ->
  descriptors outputs = before ++ d :: after ->
  Forall (retrieval_fails w) before ->
  retrieval w d = Raise e ->
  _get_generated_image w (JStr job_id)
  = (GetHistory (JStr job_id) :: map view_request (before ++ [d]), Raise e).
Proof.
  intros Hhist Hcode Hbody Hdoc Hwf Hdescs Hbefore Hd.
  rewrite (surjective_pairing (_get_generated_image w (JStr job_id))).
  rewrite (get_generated_image_effects w job_id resp doc outputs
             Hhist Hcode Hbody Hdoc Hwf),
    (get_generated_image_spec w job_id resp doc outputs
       Hhist Hcode Hbody Hdoc Hwf).
  rewrite Hdescs. rewrite (scanned_stops w before after d Hbefore);
    [| right; exists e; exact Hd].
  rewrite first_retrieved_app, (first_retrieved_none _ _ Hbefore).
  simpl. rewrite Hd. reflexivity.
Qed.

End FetchMore.

(** ** The composed operation: order of the effects *)

Section GenerateImageMore.
Import Builtins ComfyUIClient.

Lemma queue_prompt_effects (w : World) (workflow : json) (client_id : string) :
  fst (_queue_prompt w workflow client_id) = [PostPrompt workflow client_id].
Proof.
  unfold _queue_prompt, response_json. simpl.
  destruct (post_prompt w workflow client_id) as [resp | e]; [| reflexivity].
  simpl. destruct (status_code resp =? 200); [| reflexivity].
  simpl. destruct (body resp) as [v |]; reflexivity.
Qed.

Lemma wait_for_completion_effects (w : World) (job_id : json) (client_id : string) :
  exists rest,
    fst (_wait_for_completion w job_id client_id) = WsConnect client_id :: rest /\
    Forall (fun e => e = CancelTimeoutTask \/ e = CancelMessageTask \/ e = WsClose)
           rest.
Proof.
  unfold _wait_for_completion. simpl.
  destruct (ws_connect w client_id) as [stream | e]; simpl;
    [| exists []; split; [reflexivity | constructor]].
  destruct (wait_loop_effects job_id stream) as [(r & pending & ->) | ->].
  - destruct pending, r as [[] | e]; simpl; eexists;
      (split; [reflexivity |]);
      repeat (apply List.Forall_cons; [tauto |]); apply List.Forall_nil.
  - simpl. eexists. split; [reflexivity |].
    repeat (apply List.Forall_cons; [tauto |]); apply List.Forall_nil.
Qed.

Lemma scan_images_views (w : World) (images : list json) :
  Forall (fun e => exists a b c, e = GetView a b c) (fst (scan_images w images)).
Proof.
  induction images as [| image images IH]; [constructor |].
  simpl.
  destruct (getitem image "filename") as [name |]; [| constructor].
  simpl.
  destruct (dict_get_default image "subfolder" (JStr "")) as [sub |];
    [| constructor].
  simpl.
  destruct (dict_get_default image "type" (JStr "output")) as [ty |];
    [| constructor].
  simpl.
  destruct (get_view w name sub ty) as [r | e]; simpl;
    [| apply List.Forall_cons; [eexists _, _, _; reflexivity | constructor]].
  destruct (status_code r =? 200); simpl;
    [apply List.Forall_cons; [eexists _, _, _; reflexivity | constructor] |].
  destruct (scan_images w images) as [t r']. simpl in IH |- *.
  apply List.Forall_cons; [eexists _, _, _; reflexivity | exact IH].
Qed.

Lemma scan_outputs_views (w : World) (outputs : list (string * json)) :
  Forall (fun e => exists a b c, e = GetView a b c) (fst (scan_outputs w outputs)).
Proof.
  induction outputs as [| [node_id node_output] outputs IH]; [constructor |].
  simpl.
  destruct (contains "images" node_output) as [[|] |]; simpl;
    [| | constructor].
  - destruct (getitem node_output "images") as [v |]; [| constructor].
    simpl. destruct (iterate v) as [images |]; [| constructor].
    simpl. pose proof (scan_images_views w images) as Himg.
    destruct (scan_images w images) as [t [[data |] | e]]; simpl in Himg |- *.
    + rewrite app_nil_r. exact Himg.
    + destruct (scan_outputs w outputs) as [t' r']. simpl in IH |- *.
      apply Forall_app. split; assumption.
    + exact Himg.
  - destruct (scan_outputs w outputs) as [t' r']. exact IH.
Qed.

Lemma get_generated_image_views (w : World) (job_id : json) :
  exists views,
    fst (_get_generated_image w job_id) = GetHistory job_id :: views /\
    Forall (fun e => exists a b c, e = GetView a b c) views.
Proof.
  unfold _get_generated_image, response_json. simpl.
  destruct (get_history w job_id) as [resp | e]; simpl;
    [| exists []; split; [reflexivity | constructor]].
  destruct (status_code resp =? 200); simpl;
    [| exists []; split; [reflexivity | constructor]].
  destruct (body resp) as [history |]; simpl;
    [| exists []; split; [reflexivity | constructor]].
  destruct (dict_get_key history job_id (JObj [])) as [record |]; simpl;
    [| exists []; split; [reflexivity | constructor]].
  destruct (dict_get_default record "outputs" (JObj [])) as [outs |]; simpl;
    [| exists []; split; [reflexivity | constructor]].
  destruct (dict_items outs) as [outputs |]; simpl;
    [| exists []; split; [reflexivity | constructor]].
  pose proof (scan_outputs_views w outputs) as Hviews.
  destruct (scan_outputs w outputs) as [t [[data |] | e]]; simpl in Hviews |- *;
    rewrite ?app_nil_r; exists t; split; try reflexivity; exact Hviews.
Qed.

Lemma nondecreasing_constant (k : nat) (l : list nat) :
  Forall (fun a => a = k) l -> nondecreasing l.
Proof.
  induction 1 as [| a l -> Hl IH]; simpl; [exact I |].
  destruct Hl as [| b l -> Hl]; [exact I |]. split; [lia | exact IH].
Qed.

Lemma nondecreasing_app (k : nat) (l1 l2 : list nat) :
  nondecreasing l1 -> nondecreasing l2 ->
  Forall (fun a => a <= k)%nat l1 -> Forall (fun a => k <= a)%nat l2 ->
  nondecreasing (l1 ++ l2).
Proof.
  intros H1 H2 Hle Hge. induction l1 as [| a l1 IH]; [exact H2 |].
  simpl. destruct l1 as [| b l1].
  - simpl. destruct l2 as [| c l2]; [exact I |].
    split; [| exact H2].
    pose proof (Forall_inv Hle). pose proof (Forall_inv Hge). simpl in *. lia.
  - destruct H1 as [Hab H1]. split; [exact Hab |].
    apply IH; [exact H1 | exact (Forall_inv_tail Hle)].
Qed.

End GenerateImageMore.

Section GenerateImageOrder.
Import Builtins ComfyUIClient.

(** The effects of one call, stage by stage. *)
Lemma generate_image_decompose (w : World) (prompt negative_prompt : string)
  (seed width height : Z) :
  let workflow := _create_workflow prompt negative_prompt seed width height in
  let client_id := _generate_client_id w in
  let run := generate_image w prompt negative_prompt seed width height in
  exists track fetch report,
    fst run = [PostPrompt workflow client_id] ++ track ++ fetch ++ report /\
    (track = [] \/
     exists rest, track = WsConnect client_id :: rest /\
       Forall (fun e => e = CancelTimeoutTask \/ e = CancelMessageTask \/ e = WsClose)
              rest) /\
    (fetch = [] \/
     exists job_id views,
       snd (_queue_prompt w workflow client_id) = Return job_id /\
       fetch = GetHistory job_id :: views /\
       Forall (fun e => exists a b c, e = GetView a b c) views) /\
    ((report = [] /\ exists data, snd run = Return (Some data)) \/
     (exists e, report = [Print e] /\ snd run = Return None)).
Proof.
  intros workflow client_id run. subst run. unfold generate_image.
  fold workflow client_id.
  pose proof (queue_prompt_effects w workflow client_id) as Hq.
  destruct (_queue_prompt w workflow client_id) as [t1 [job_id | e]].
  - simpl in Hq. subst t1. cbn [mbind io_bind].
    destruct (wait_for_completion_effects w job_id client_id) as (rest & Hw & Hrest).
    destruct (_wait_for_completion w job_id client_id) as [t2 [[] | e]].
    + simpl in Hw. subst t2. cbn [mbind io_bind].
      destruct (get_generated_image_views w job_id) as (views & Hg & Hviews).
      destruct (_get_generated_image w job_id) as [t3 [data | e]];
        simpl in Hg; subst t3.
      * exists (WsConnect client_id :: rest), (GetHistory job_id :: views), [].
        split; [simpl; rewrite !app_nil_r; reflexivity |].
        split; [right; exists rest; split; [reflexivity | exact Hrest] |].
        split; [right; exists job_id, views; repeat split; assumption |].
        left. split; [reflexivity |]. exists data. reflexivity.
      * exists (WsConnect client_id :: rest), (GetHistory job_id :: views),
          [Print e].
        split; [simpl; rewrite <- !app_assoc; reflexivity |].
        split; [right; exists rest; split; [reflexivity | exact Hrest] |].
        split; [right; exists job_id, views; repeat split; assumption |].
        right. exists e. split; reflexivity.
    + simpl in Hw. subst t2.
      exists (WsConnect client_id :: rest), [], [Print e].
      split; [reflexivity |].
      split; [right; exists rest; split; [reflexivity | exact Hrest] |].
      split; [left; reflexivity |].
      right. exists e. split; reflexivity.
  - simpl in Hq. subst t1. exists [], [], [Print e].
    split; [reflexivity |]. split; [left; reflexivity |].
    split; [left; reflexivity |]. right. exists e. split; reflexivity.
Qed.

(** X10: the effects of [generate_image] come in the order of its stages:
    first the one submission, then the tracking of the channel opened under
    the same client id, then the history of the job that the backend
    acknowledged and the image requests, and last, exactly when [None] is
    returned, the one printed error.  No stage is entered again after a
    later one has begun. *)
Theorem generate_image_stage_order (w : World) (prompt negative_prompt : string)
  (seed width height : Z) :
  let workflow := _create_workflow prompt negative_prompt seed width height in
  let client_id := _generate_client_id w in
  let run := generate_image w prompt negative_prompt seed width height in
  nondecreasing (map stage_of (fst run)) /\
  (exists rest,
     fst run = PostPrompt workflow client_id :: rest /\
     Forall (fun e => stage_of e <> 0%nat) rest) /\
  (forall c, In (WsConnect c) (fst run) -> c = client_id) /\
  (forall job_id, In (GetHistory job_id) (fst run) ->
     snd (_queue_prompt w workflow client_id) = Return job_id) /\
  (snd run = Return None <-> exists e, In (Print e) (fst run)).
Proof.
  intros workflow client_id run. subst workflow client_id run.
  pose proof (generate_image_decompose w prompt negative_prompt seed width height)
    as Hparts.
  cbv zeta in Hparts.
  destruct Hparts as (track & fetch & report & Htrace & Htrack & Hfetch & Hreport).
  set (workflow := _create_workflow prompt negative_prompt seed width height) in *.
  set (client_id := _generate_client_id w) in *.
  set (run := generate_image w prompt negative_prompt seed width height) in *.
  assert (Strack : Forall (fun e => stage_of e = 1%nat) track).
  { destruct Htrack as [-> | (rest & -> & Hrest)]; [constructor |].
    apply List.Forall_cons; [reflexivity |].
    eapply Forall_impl; [exact Hrest |].
    intros e [-> | [-> | ->]]; reflexivity. }
  assert (Sfetch : Forall (fun e => stage_of e = 2%nat) fetch).
  { destruct Hfetch as [-> | (job_id & views & _ & -> & Hviews)]; [constructor |].
    apply List.Forall_cons; [reflexivity |].
    eapply Forall_impl; [exact Hviews |].
    intros e (a & b & c & ->). reflexivity. }
  assert (Sreport : Forall (fun e => stage_of e = 3%nat) report).
  { destruct Hreport as [[-> _] | (e & -> & _)]; [constructor |].
    apply List.Forall_cons; [reflexivity | constructor]. }
  assert (Hmap : forall k l, Forall (fun e => stage_of e = k) l ->
                             Forall (fun a => a = k) (map stage_of l)).
  { intros k l Hl. apply Forall_map. exact Hl. }
  assert (Hin : forall e, In e (fst run) ->
            e = PostPrompt workflow client_id \/ In e track \/ In e fetch \/
            In e report).
  { intros e He. rewrite Htrace in He. simpl in He.
    destruct He as [<- | He]; [left; reflexivity |].
    apply in_app_or in He. destruct He as [He | He]; [tauto |].
    apply in_app_or in He. tauto. }
  split; [| split; [| split; [| split]]].
  - rewrite Htrace, !map_app.
    apply (nondecreasing_app 0); [exact I | | repeat constructor |].
    + apply (nondecreasing_app 1);
        [apply (nondecreasing_constant 1), Hmap, Strack | | |].
      * apply (nondecreasing_app 2);
          [apply (nondecreasing_constant 2), Hmap, Sfetch
          | apply (nondecreasing_constant 3), Hmap, Sreport | |].
        -- eapply Forall_impl; [apply Hmap, Sfetch |]. simpl. lia.
        -- eapply Forall_impl; [apply Hmap, Sreport |]. simpl. lia.
      * eapply Forall_impl; [apply Hmap, Strack |]. simpl. lia.
      * apply Forall_app. split.
        -- eapply Forall_impl; [apply Hmap, Sfetch |]. simpl. lia.
        -- eapply Forall_impl; [apply Hmap, Sreport |]. simpl. lia.
    + apply Forall_forall. intros a _. lia.
  - exists (track ++ fetch ++ report). split; [exact Htrace |].
    apply Forall_app. split; [| apply Forall_app; split].
    + eapply Forall_impl; [exact Strack |]. simpl. intros e ->. discriminate.
    + eapply Forall_impl; [exact Sfetch |]. simpl. intros e ->. discriminate.
    + eapply Forall_impl; [exact Sreport |]. simpl. intros e ->. discriminate.
  - intros c Hc. destruct (Hin _ Hc) as [Heq | [Ht | [Hf | Hr]]].
    + discriminate Heq.
    + destruct Htrack as [-> | (rest & -> & Hrest)]; [destruct Ht |].
      destruct Ht as [[= ->] | Ht]; [reflexivity |].
      rewrite List.Forall_forall in Hrest.
      destruct (Hrest _ Ht) as [? | [? | ?]]; discriminate.
    + rewrite List.Forall_forall in Sfetch. specialize (Sfetch _ Hf). discriminate.
    + rewrite List.Forall_forall in Sreport. specialize (Sreport _ Hr). discriminate.
  - intros job_id Hj. destruct (Hin _ Hj) as [Heq | [Ht | [Hf | Hr]]].
    + discriminate Heq.
    + rewrite List.Forall_forall in Strack. specialize (Strack _ Ht). discriminate.
    + destruct Hfetch as [-> | (job & views & Hq & -> & Hviews)]; [destruct Hf |].
      destruct Hf as [[= ->] | Hf]; [exact Hq |].
      rewrite List.Forall_forall in Hviews.
      destruct (Hviews _ Hf) as (a & b & c & ?). discriminate.
    + rewrite List.Forall_forall in Sreport. specialize (Sreport _ Hr). discriminate.
  - split.
    + intros Hnone. destruct Hreport as [[_ (data & Hd)] | (e & -> & _)];
        [congruence |].
      exists e. rewrite Htrace. simpl. right.
      apply in_or_app. right. apply in_or_app. right. simpl. auto.
    + intros (e & He). destruct Hreport as [[-> _] | (e' & _ & Hnone)];
        [| exact Hnone].
      destruct (Hin _ He) as [Heq | [Ht | [Hf | []]]].
      * discriminate Heq.
      * rewrite List.Forall_forall in Strack. specialize (Strack _ Ht). discriminate.
      * rewrite List.Forall_forall in Sfetch. specialize (Sfetch _ Hf). discriminate.
Qed.

End GenerateImageOrder.

(** * Further properties of the packer *)

Section PackMore.
Import PIL SpritePacker.
Context `{Kernels}.

Lemma fit_is_resize (f : Image) (sz : Z * Z) :
  (if negb (size_eqb (size f) sz) then resize f sz else Return f) = resize f sz.
Proof.
  unfold resize. destruct sz as [a b].
  destruct (size_eqb (size f) (a, b)); reflexivity.
Qed.

Lemma resize_size (f f' : Image) (sw sh : Z) :
  resize f (sw, sh) = Return f' -> size f' = (sw, sh) /\ mode f' = mode f.
Proof.
  unfold resize. destruct (size_eqb (size f) (sw, sh)) eqn:Heq.
  - intros [= <-]. apply size_eqb_eq in Heq. split; [exact Heq | reflexivity].
  - destruct (Z.ltb_spec sw 1), (Z.ltb_spec sh 1); simpl; try discriminate.
    intros [= <-]. unfold size. simpl. split; [| reflexivity].
    f_equal; apply Z2Nat.id; lia.
Qed.

Lemma resize_fits (f : Image) (sw sh : Z) :
  size f = (sw, sh) \/ (1 <= sw /\ 1 <= sh) ->
  exists f', resize f (sw, sh) = Return f'.
Proof.
  intros Hok. unfold resize.
  destruct (size_eqb (size f) (sw, sh)) eqn:Heq; [eexists; reflexivity |].
  destruct Hok as [Hsz | [Hsw Hsh]].
  - rewrite Hsz, size_eqb_refl in Heq. discriminate.
  - destruct (Z.ltb_spec sw 1); [lia |]. destruct (Z.ltb_spec sh 1); [lia |].
    simpl. eexists. reflexivity.
Qed.

Lemma resize_raises (f : Image) (sw sh : Z) (e : exn) :
  resize f (sw, sh) = Raise e ->
  e = ValueError "height and width must be > 0" /\
  size f <> (sw, sh) /\ (sw < 1 \/ sh < 1).
Proof.
  unfold resize. destruct (size_eqb (size f) (sw, sh)) eqn:Heq; [discriminate |].
  assert (Hne : size f <> (sw, sh)).
  { intros Hsz. rewrite Hsz, size_eqb_refl in Heq. discriminate. }
  destruct (Z.ltb_spec sw 1), (Z.ltb_spec sh 1); simpl; try discriminate;
    intros [= <-]; (split; [reflexivity | split; [exact Hne | lia]]).
Qed.

Lemma pastes_on_rgba_mode (f f' : Image) :
  mode f' = mode f -> pastes_on_rgba f -> pastes_on_rgba f'.
Proof. unfold pastes_on_rgba. intros ->. exact (fun Hf => Hf). Qed.

Lemma size_as_pasted (f : Image) :
  width (as_pasted f) = width f /\ height (as_pasted f) = height f.
Proof.
  unfold as_pasted. destruct (String.eqb (mode_name (mode f)) "RGBA");
    split; reflexivity.
Qed.

Lemma pack_frames_entries (cols sw sh i : Z) (n : nat)
  (meta : list FrameMetadata) :
  (meta ++ [{| x := i mod cols * sw; y := i / cols * sh;
               w := sw; h := sh; duration := 150 |}]) ++
  map (fun k => {| x := ((i + 1 + Z.of_nat k) mod cols) * sw;
                   y := ((i + 1 + Z.of_nat k) / cols) * sh;
                   w := sw; h := sh; duration := 150 |}) (seq 0 n)
  = meta ++
    map (fun k => {| x := ((i + Z.of_nat k) mod cols) * sw;
                     y := ((i + Z.of_nat k) / cols) * sh;
                     w := sw; h := sh; duration := 150 |}) (seq 0 (S n)).
Proof.
  rewrite <- app_assoc. f_equal. simpl. f_equal.
  - rewrite Z.add_0_r. reflexivity.
  - rewrite <- seq_shift, map_map. apply map_ext. intros k.
    replace (i + 1 + Z.of_nat k) with (i + Z.of_nat (S k)) by lia.
    reflexivity.
Qed.

Lemma pack_frames_returns (sw sh cols : Z) (frames : list Image) :
  Forall (fun f => size f = (sw, sh)) frames \/ (1 <= sw /\ 1 <= sh) ->
  Forall pastes_on_rgba frames ->
  forall (i : Z) (sheet : Image) (meta : list FrameMetadata),
  mode sheet = RGBA ->
  exists sheet',
    pack_frames sw sh cols frames i sheet meta
    = Return (sheet',
              meta ++ map (fun k =>
                             {| x := ((i + Z.of_nat k) mod cols) * sw;
                                y := ((i + Z.of_nat k) / cols) * sh;
                                w := sw; h := sh; duration := 150 |})
                          (seq 0 (List.length frames)))
    /\ size sheet' = size sheet.
Proof.
  induction frames as [| f frames IH]; intros Hok Hmodes i sheet meta Hsheet.
  - exists sheet. simpl. rewrite app_nil_r. split; reflexivity.
  - assert (Hrest : Forall (fun f => size f = (sw, sh)) frames \/ (1 <= sw /\ 1 <= sh)).
    { destruct Hok as [Hall | Hpos]; [left; exact (Forall_inv_tail Hall) | right; exact Hpos]. }
    destruct (resize_fits f sw sh) as (f' & Hf').
    { destruct Hok as [Hall | Hpos]; [left; exact (Forall_inv Hall) | right; exact Hpos]. }
    destruct (resize_size _ _ _ _ Hf') as [_ Hmode'].
    cbn [pack_frames]. rewrite fit_is_resize, Hf'. cbn [mbind result_bind Py.bind].
    rewrite (paste_returns sheet f' _ None Hsheet
               (pastes_on_rgba_mode _ _ Hmode' (Forall_inv Hmodes))).
    cbn [mbind result_bind Py.bind].
    destruct (IH Hrest (Forall_inv_tail Hmodes) (i + 1)
                (pasted sheet (as_pasted f') (i mod cols * sw, i / cols * sh) None)
                (meta ++ [{| x := i mod cols * sw; y := i / cols * sh;
                             w := sw; h := sh; duration := 150 |}]) Hsheet)
      as (sheet' & -> & Hsz).
    exists sheet'. split; [| rewrite Hsz; reflexivity].
    f_equal. f_equal. apply pack_frames_entries.
Qed.

Lemma pack_frames_raises (sw sh cols : Z) (frames : list Image) :
  sw < 1 \/ sh < 1 ->
  Forall pastes_on_rgba frames ->
  Exists (fun f => size f <> (sw, sh)) frames ->
  forall (i : Z) (sheet : Image) (meta : list FrameMetadata),
    mode sheet = RGBA ->
    pack_frames sw sh cols frames i sheet meta
    = Raise (ValueError "height and width must be > 0").
Proof.
  intros Hsmall. induction frames as [| f frames IH];
    intros Hmodes Hex i sheet meta Hsheet.
  - inversion Hex.
  - cbn [pack_frames].
    destruct (size_eqb (size f) (sw, sh)) eqn:Heq; cbn [negb mbind result_bind Py.bind].
    + rewrite (paste_returns sheet f _ None Hsheet (Forall_inv Hmodes)).
      cbn [mbind result_bind Py.bind].
      apply IH; [exact (Forall_inv_tail Hmodes) | | exact Hsheet].
      inversion Hex as [? ? Hf | ? ? Hrest]; subst; [| exact Hrest].
      apply size_eqb_eq in Heq. contradiction.
    + unfold resize. rewrite Heq.
      destruct (Z.ltb_spec sw 1), (Z.ltb_spec sh 1); simpl; try reflexivity.
      lia.
Qed.

Lemma pack_frames_value_error (sw sh cols : Z) (frames : list Image) :
  Exists (fun f => ~ pastes_on_rgba f) frames \/
  (Exists (fun f => size f <> (sw, sh)) frames /\ (sw < 1 \/ sh < 1)) ->
  forall (i : Z) (sheet : Image) (meta : list FrameMetadata),
    mode sheet = RGBA ->
    exists msg,
      pack_frames sw sh cols frames i sheet meta = Raise (ValueError msg).
Proof.
  induction frames as [| f frames IH]; intros Hex i sheet meta Hsheet.
  - destruct Hex as [Hex | [Hex _]]; inversion Hex.
  - cbn [pack_frames]. rewrite fit_is_resize.
    destruct (resize f (sw, sh)) as [f' | e] eqn:Hfit;
      cbn [mbind result_bind Py.bind].
    + destruct (resize_size _ _ _ _ Hfit) as [_ Hmode'].
      destruct (pastes_on_rgba_dec f') as [Hyes | Hno].
      * rewrite (paste_returns sheet f' _ None Hsheet Hyes).
        cbn [mbind result_bind Py.bind].
        apply IH; [| exact Hsheet].
        destruct Hex as [Hex | [Hex Hsmall]].
        -- left. inversion Hex as [? ? Hf | ? ? Hrest]; subst; [| exact Hrest].
           destruct Hf. apply (pastes_on_rgba_mode f' f); [| exact Hyes].
           symmetry. exact Hmode'.
        -- right. split; [| exact Hsmall].
           inversion Hex as [? ? Hf | ? ? Hrest]; subst; [| exact Hrest].
           unfold resize in Hfit.
           destruct (size_eqb (size f) (sw, sh)) eqn:Heq.
           ++ apply size_eqb_eq in Heq. contradiction.
           ++ destruct (Z.ltb_spec sw 1), (Z.ltb_spec sh 1);
                simpl in Hfit; try discriminate Hfit. lia.
      * destruct (paste_raises sheet f' (i mod cols * sw, i / cols * sh) None
                    Hsheet Hno) as (msg & ->).
        exists msg. reflexivity.
    + destruct (resize_raises _ _ _ _ Hfit) as (-> & _).
      eexists. reflexivity.
Qed.

(** X11: what [pack] does with frames of any sizes and modes.  [pack]
    returns when every frame is RGBA or of a mode that Pillow converts to
    RGBA and, besides, all frames have the size of the first one or the
    first one has at least one pixel: the sheet measures columns x rows
    cells of the first frame's size, and the metadata has one entry per
    frame, in order, all with the first frame's size -- the other frames'
    own sizes leave no trace.  In every other case it raises a
    [ValueError]: that of the conversion or that of the resize, whichever
    frame comes first; with frames that all convert it is the resize
    error. *)
Theorem pack_outcomes (first : Image) (rest : list Image)
  (entity animation : string) :
  let frames := first :: rest in
  let n := Z.of_nat (List.length frames) in
  let cols := grid_columns n in
  let w0 := Z.of_nat (width first) in
  let h0 := Z.of_nat (height first) in
  (Forall (fun f => size f = size first) frames \/ has_pixels first ->
   Forall pastes_on_rgba frames ->
   exists sheet md,
     pack frames entity animation = Return (sheet, md) /\
     size sheet = (w0 * cols, h0 * ((n + cols - 1) / cols)) /\
     animations md !! animation
     = Some (map (grid_entry cols w0 h0) (seq 0 (List.length frames))) /\
     entityType md = entity /\ spriteSize md = (w0, h0) /\ totalFrames md = n) /\
  (Exists (fun f => ~ pastes_on_rgba f) frames \/
   (Exists (fun f => size f <> size first) frames /\ ~ has_pixels first) ->
   exists msg, pack frames entity animation = Raise (ValueError msg)) /\
  (Forall pastes_on_rgba frames ->
   Exists (fun f => size f <> size first) frames -> ~ has_pixels first ->
   pack frames entity animation
   = Raise (ValueError "height and width must be > 0")).
Proof.
  intros frames n cols w0 h0.
  assert (Hn : 1 <= n) by (subst n frames; simpl List.length; lia).
  assert (Hcols : 1 <= cols <= 2)
    by (subst cols; unfold grid_columns; destruct (1 <? n); lia).
  destruct (size_new RGBA (w0 * cols) (h0 * ((n + cols - 1) / cols)) transparent)
    as (sheet0 & Hnew & Hsz0).
  { subst w0. nia. }
  { apply Z.mul_nonneg_nonneg; [subst h0; lia |]. apply Z.div_pos; lia. }
  pose proof (proj1 (proj2 (new_returns _ _ _ _ Hnew))) as Hmode0.
  assert (Hpack : pack frames entity animation
                  = '(sprite_sheet, frame_metadata) ←
                      pack_frames w0 h0 cols frames 0 sheet0 [];
                    Return (sprite_sheet,
                            {| animations := {[ animation := frame_metadata ]};
                               entityType := entity; spriteSize := (w0, h0);
                               totalFrames := n |})).
  { unfold pack. subst frames. cbv beta iota zeta.
    unfold size at 1. fold w0 h0. cbv beta iota zeta. fold n.
    change (if 1 <? n then 2 else 1) with cols.
    rewrite Hnew. reflexivity. }
  assert (Hsmall : ~ has_pixels first -> w0 < 1 \/ h0 < 1).
  { unfold has_pixels. subst w0 h0. lia. }
  rewrite Hpack. split; [| split].
  - intros Hok Hmodes.
    assert (Hok' : Forall (fun f => size f = (w0, h0)) frames \/ (1 <= w0 /\ 1 <= h0)).
    { destruct Hok as [Hall | [Hw Hh]]; [left; exact Hall | right; subst w0 h0; lia]. }
    destruct (pack_frames_returns w0 h0 cols frames Hok' Hmodes 0 sheet0 [] Hmode0)
      as (sheet & -> & Hsz).
    exists sheet. eexists. cbn [mbind result_bind Py.bind].
    split; [reflexivity |]. split; [rewrite Hsz; exact Hsz0 |].
    split; [| split; [reflexivity | split; reflexivity]].
    cbn [animations]. rewrite lookup_singleton_eq. reflexivity.
  - intros Hex.
    destruct (pack_frames_value_error w0 h0 cols frames) with (i := 0)
      (sheet := sheet0) (meta := @nil FrameMetadata) as (msg & ->).
    { destruct Hex as [Hex | [Hex Hnopx]]; [left; exact Hex |].
      right. split; [exact Hex | exact (Hsmall Hnopx)]. }
    { exact Hmode0. }
    exists msg. reflexivity.
  - intros Hmodes Hex Hnopx.
    rewrite (pack_frames_raises w0 h0 cols frames (Hsmall Hnopx) Hmodes Hex
               0 sheet0 [] Hmode0).
    reflexivity.
Qed.

Lemma cells_disjoint (cols sw sh j j' px py : Z) :
  1 <= cols -> 0 <= j -> 0 <= j' ->
  in_rectangle (grid_cell cols sw sh j) px py ->
  in_rectangle (grid_cell cols sw sh j') px py ->
  j = j'.
Proof.
  intros Hcols Hj Hj' [Hx Hy] [Hx' Hy']. simpl in Hx, Hy, Hx', Hy'.
  assert (Hc : j mod cols = j' mod cols) by nia.
  assert (Hr : j / cols = j' / cols) by nia.
  rewrite (Z.div_mod j cols), (Z.div_mod j' cols) by lia.
  rewrite Hc, Hr. reflexivity.
Qed.

Lemma pack_frames_pixels (sw sh cols : Z) (frames : list Image) :
  1 <= cols ->
  forall (i : Z) (sheet : Image) (meta : list FrameMetadata)
         (sheet' : Image) (meta' : list FrameMetadata),
  0 <= i -> mode sheet = RGBA ->
  pack_frames sw sh cols frames i sheet meta = Return (sheet', meta') ->
  mode sheet' = RGBA /\
  (forall (px py b : nat),
     (forall k, (k < List.length frames)%nat ->
        ~ in_rectangle (grid_cell cols sw sh (i + Z.of_nat k))
            (Z.of_nat px) (Z.of_nat py)) ->
     getpixel sheet' px py b = getpixel sheet px py b) /\
  (forall (k : nat) (f f' : Image),
     nth_error frames k = Some f -> resize f (sw, sh) = Return f' ->
     forall (px py b : nat),
       in_rectangle (grid_cell cols sw sh (i + Z.of_nat k))
         (Z.of_nat px) (Z.of_nat py) ->
       getpixel sheet' px py b
       = getpixel (as_pasted f')
           (Z.to_nat (Z.of_nat px - x (grid_cell cols sw sh (i + Z.of_nat k))))
           (Z.to_nat (Z.of_nat py - y (grid_cell cols sw sh (i + Z.of_nat k))))
           b).
Proof.
  intros Hcols. induction frames as [| f0 frames IH];
    intros i sheet meta sheet' meta' Hi Hmode Hrun.
  - simpl in Hrun. injection Hrun as <- <-.
    split; [exact Hmode |]. split; [reflexivity |].
    intros k f f' Hnth. destruct k; discriminate Hnth.
  - cbn [pack_frames] in Hrun. rewrite fit_is_resize in Hrun.
    destruct (resize f0 (sw, sh)) as [f0' | e] eqn:Hfit;
      cbn [mbind result_bind Py.bind] in Hrun; [| discriminate Hrun].
    destruct (resize_size _ _ _ _ Hfit) as [Hsize0 _].
    injection Hsize0 as Hw0 Hh0.
    destruct (paste sheet f0' (i mod cols * sw, i / cols * sh) None)
      as [sheet1 | e] eqn:Hpaste; cbn [mbind result_bind Py.bind] in Hrun;
      [| discriminate Hrun].
    destruct (paste_inv _ _ _ _ _ Hmode Hpaste) as [_ ->].
    apply IH in Hrun as (Hmode' & Hout & Hin); [| lia | exact Hmode].
    assert (Hfirst : forall px py b,
              getpixel (pasted sheet (as_pasted f0')
                          (i mod cols * sw, i / cols * sh) None) px py b
              = if (0 <=? Z.of_nat px - i mod cols * sw) &&
                   (Z.of_nat px - i mod cols * sw <? sw) &&
                   (0 <=? Z.of_nat py - i / cols * sh) &&
                   (Z.of_nat py - i / cols * sh <? sh)
                then getpixel (as_pasted f0')
                       (Z.to_nat (Z.of_nat px - i mod cols * sw))
                       (Z.to_nat (Z.of_nat py - i / cols * sh)) b
                else getpixel sheet px py b).
    { intros px py b. unfold pasted. cbn [getpixel fst snd].
      destruct (size_as_pasted f0') as [-> ->].
      rewrite Hw0, Hh0. reflexivity. }
    split; [exact Hmode' |]. split.
    + intros px py b Hnone. rewrite Hout.
      * rewrite Hfirst.
        destruct (Z.leb_spec 0 (Z.of_nat px - i mod cols * sw)); [| reflexivity].
        destruct (Z.ltb_spec (Z.of_nat px - i mod cols * sw) sw); [| reflexivity].
        destruct (Z.leb_spec 0 (Z.of_nat py - i / cols * sh)); [| reflexivity].
        destruct (Z.ltb_spec (Z.of_nat py - i / cols * sh) sh); [| reflexivity].
        exfalso. apply (Hnone 0%nat); [simpl; lia |].
        rewrite Z.add_0_r. split; simpl; lia.
      * intros k Hk. replace (i + 1 + Z.of_nat k) with (i + Z.of_nat (S k)) by lia.
        apply Hnone. simpl. lia.
    + intros k f f' Hnth Hres px py b Hcell. destruct k as [| k].
      * injection Hnth as <-. rewrite Hfit in Hres. injection Hres as <-.
        rewrite Z.add_0_r in *. rewrite Hout.
        -- rewrite Hfirst. destruct Hcell as [Hx Hy]. simpl in Hx, Hy.
           destruct (Z.leb_spec 0 (Z.of_nat px - i mod cols * sw)); [| lia].
           destruct (Z.ltb_spec (Z.of_nat px - i mod cols * sw) sw); [| lia].
           destruct (Z.leb_spec 0 (Z.of_nat py - i / cols * sh)); [| lia].
           destruct (Z.ltb_spec (Z.of_nat py - i / cols * sh) sh); [| lia].
           reflexivity.
        -- intros k _ Hother.
           assert (Hk : 0 <= i + 1 + Z.of_nat k) by lia.
           pose proof (cells_disjoint _ _ _ _ _ _ _ Hcols Hi Hk Hcell Hother).
           lia.
      * replace (i + Z.of_nat (S k)) with (i + 1 + Z.of_nat k) in * by lia.
        apply (Hin k f f' Hnth Hres px py b Hcell).
Qed.

(** X12: what the sheet holds.  When [pack] returns, the sheet is RGBA; the
    rectangle that the metadata gives for frame [k] holds the pixels of
    frame [k] -- resized to the first frame's size when it had another one,
    converted to RGBA when it had another mode -- and every pixel outside
    all these rectangles is fully transparent black. *)
Theorem pack_sheet_contents (first : Image) (rest : list Image)
  (entity animation : string) (sheet : Image) (md : Metadata) :
  let frames := first :: rest in
  let cols := grid_columns (Z.of_nat (List.length frames)) in
  let w0 := Z.of_nat (width first) in
  let h0 := Z.of_nat (height first) in
  pack frames entity animation = Return (sheet, md) ->
  mode sheet = RGBA /\
  (forall (k : nat) (f f' : Image),
     nth_error frames k = Some f -> resize f (w0, h0) = Return f' ->
     forall (px py b : nat),
       in_rectangle (grid_entry cols w0 h0 k) (Z.of_nat px) (Z.of_nat py) ->
       getpixel sheet px py b
       = getpixel (as_pasted f')
           (Z.to_nat (Z.of_nat px - x (grid_entry cols w0 h0 k)))
           (Z.to_nat (Z.of_nat py - y (grid_entry cols w0 h0 k))) b) /\
  (forall (px py b : nat),
     (forall k, (k < List.length frames)%nat ->
        ~ in_rectangle (grid_entry cols w0 h0 k) (Z.of_nat px) (Z.of_nat py)) ->
     getpixel sheet px py b = "000"%byte).
Proof.
  intros frames cols w0 h0 Hrun.
  set (n := Z.of_nat (List.length frames)) in *.
  assert (Hn : 1 <= n) by (subst n frames; simpl List.length; lia).
  assert (Hcols : 1 <= cols)
    by (subst cols; unfold grid_columns; destruct (1 <? n); lia).
  unfold pack in Hrun. subst frames. cbv beta iota zeta in Hrun.
  unfold size at 1 in Hrun. fold w0 h0 in Hrun. cbv beta iota zeta in Hrun.
  fold n in Hrun. change (if 1 <? n then 2 else 1) with cols in Hrun.
  destruct (new RGBA (w0 * cols, h0 * ((n + cols - 1) / cols)) transparent)
    as [sheet0 | e] eqn:Hnew; cbn [mbind result_bind Py.bind] in Hrun;
    [| discriminate Hrun].
  destruct (pack_frames w0 h0 cols (first :: rest) 0 sheet0 [])
    as [[sheet1 meta1] | e] eqn:Hloop; cbn [mbind result_bind Py.bind] in Hrun;
    [| discriminate Hrun].
  injection Hrun as <- _.
  assert (Hblank : mode sheet0 = RGBA /\
                   forall px py b, getpixel sheet0 px py b = "000"%byte).
  { unfold new in Hnew.
    destruct ((w0 * cols <? 0) || (h0 * ((n + cols - 1) / cols) <? 0));
      [discriminate Hnew |].
    injection Hnew as <-. split; [reflexivity |].
    intros px py b. cbn [getpixel]. unfold transparent.
    do 4 (destruct b as [| b]; [reflexivity |]). destruct b; reflexivity. }
  destruct Hblank as [Hmode0 Hblank].
  destruct (pack_frames_pixels w0 h0 cols (first :: rest) Hcols 0 sheet0 []
              sheet1 meta1 ltac:(lia) Hmode0 Hloop) as (Hmode & Hout & Hin).
  split; [exact Hmode |]. split.
  - intros k f f' Hnth Hres px py b Hcell.
    apply (Hin k f f' Hnth Hres px py b). exact Hcell.
  - intros px py b Hnone. rewrite Hout; [apply Hblank |].
    intros k Hk. apply (Hnone k Hk).
Qed.

Lemma pack_frames_inv (sw sh cols : Z) (frames : list Image) :
  forall (i : Z) (sheet : Image) (meta : list FrameMetadata)
         (sheet' : Image) (meta' : list FrameMetadata),
  pack_frames sw sh cols frames i sheet meta = Return (sheet', meta') ->
  meta' = meta ++ map (fun k => grid_cell cols sw sh (i + Z.of_nat k))
                      (seq 0 (List.length frames))
  /\ size sheet' = size sheet.
Proof.
  induction frames as [| f0 frames IH]; intros i sheet meta sheet' meta' Hrun.
  - simpl in Hrun. injection Hrun as <- <-. rewrite app_nil_r. split; reflexivity.
  - cbn [pack_frames] in Hrun. rewrite fit_is_resize in Hrun.
    destruct (resize f0 (sw, sh)) as [f0' | e];
      cbn [mbind result_bind Py.bind] in Hrun; [| discriminate Hrun].
    destruct (paste sheet f0' (i mod cols * sw, i / cols * sh) None)
      as [sheet1 | e] eqn:Hpaste; cbn [mbind result_bind Py.bind] in Hrun;
      [| discriminate Hrun].
    apply IH in Hrun as [-> Hsz].
    split; [| rewrite Hsz; exact (proj1 (size_paste _ _ _ _ _ Hpaste))].
    apply pack_frames_entries.
Qed.

Lemma pack_inv (first : Image) (rest : list Image)
  (entity animation : string) (sheet : Image) (md : Metadata) :
  let frames := first :: rest in
  let n := Z.of_nat (List.length frames) in
  let cols := grid_columns n in
  let w0 := Z.of_nat (width first) in
  let h0 := Z.of_nat (height first) in
  pack frames entity animation = Return (sheet, md) ->
  size sheet = (w0 * cols, h0 * ((n + cols - 1) / cols)) /\
  md = {| animations :=
            {[ animation := map (grid_entry cols w0 h0)
                                (seq 0 (List.length frames)) ]};
          entityType := entity; spriteSize := (w0, h0); totalFrames := n |}.
Proof.
  intros frames n cols w0 h0 Hrun.
  assert (Hn : 1 <= n) by (subst n frames; simpl List.length; lia).
  assert (Hcols : 1 <= cols)
    by (subst cols; unfold grid_columns; destruct (1 <? n); lia).
  unfold pack in Hrun. subst frames. cbv beta iota zeta in Hrun.
  unfold size at 1 in Hrun. fold w0 h0 in Hrun. cbv beta iota zeta in Hrun.
  fold n in Hrun. change (if 1 <? n then 2 else 1) with cols in Hrun.
  destruct (size_new RGBA (w0 * cols) (h0 * ((n + cols - 1) / cols)) transparent)
    as (sheet0 & Hnew & Hsz0).
  { subst w0. nia. }
  { apply Z.mul_nonneg_nonneg; [subst h0; lia |]. apply Z.div_pos; lia. }
  rewrite Hnew in Hrun. cbn [mbind result_bind Py.bind] in Hrun.
  destruct (pack_frames w0 h0 cols (first :: rest) 0 sheet0 [])
    as [[sheet1 meta1] | e] eqn:Hloop; cbn [mbind result_bind Py.bind] in Hrun;
    [| discriminate Hrun].
  apply pack_frames_inv in Hloop as [-> Hsz].
  injection Hrun as <- <-. split; [rewrite Hsz; exact Hsz0 |].
  reflexivity.
Qed.

(** X13: the rectangles of the metadata tile the sheet.  When [pack]
    returns, the sheet measures [cols] x [rows] cells of the first frame's
    size, with just enough rows for the frames (fewer than [cols] cells stay
    unused); the rectangle of every frame lies inside the sheet, and the
    rectangles of two different frames have no pixel in common. *)
Theorem pack_rectangles_tile (first : Image) (rest : list Image)
  (entity animation : string) (sheet : Image) (md : Metadata) :
  let frames := first :: rest in
  let n := Z.of_nat (List.length frames) in
  let cols := grid_columns n in
  pack frames entity animation = Return (sheet, md) ->
  exists (rows : Z) (entries : list FrameMetadata),
    animations md !! animation = Some entries /\
    List.length entries = List.length frames /\
    size sheet = (fst (size first) * cols, snd (size first) * rows) /\
    n <= cols * rows < n + cols /\
    (forall k e, nth_error entries k = Some e ->
       0 <= x e /\ x e + w e <= fst (size sheet) /\
       0 <= y e /\ y e + h e <= snd (size sheet)) /\
    (forall k k' e e' px py,
       nth_error entries k = Some e -> nth_error entries k' = Some e' ->
       in_rectangle e px py -> in_rectangle e' px py -> k = k').
Proof.
  intros frames n cols Hrun.
  assert (Hn : 1 <= n) by (subst n frames; simpl List.length; lia).
  assert (Hcols : 1 <= cols)
    by (subst cols; unfold grid_columns; destruct (1 <? n); lia).
  destruct (pack_inv _ _ _ _ _ _ Hrun) as [Hsz ->].
  fold frames n cols in Hsz |- *. unfold size at 1 2. cbn [fst snd].
  set (w0 := Z.of_nat (width first)) in *.
  set (h0 := Z.of_nat (height first)) in *.
  assert (Hw0 : 0 <= w0) by (subst w0; lia).
  assert (Hh0 : 0 <= h0) by (subst h0; lia).
  set (rows := (n + cols - 1) / cols) in *.
  assert (Hrows : n <= cols * rows < n + cols).
  { subst rows. pose proof (Z.div_mod (n + cols - 1) cols ltac:(lia)) as Hdm.
    pose proof (Z.mod_pos_bound (n + cols - 1) cols ltac:(lia)). lia. }
  assert (Hentry : forall k e,
            nth_error (map (grid_entry cols w0 h0) (seq 0 (List.length frames))) k
            = Some e ->
            e = grid_cell cols w0 h0 (Z.of_nat k) /\ 0 <= Z.of_nat k < n).
  { intros k e Hk.
    assert (Hlt : (k < List.length frames)%nat).
    { assert (Hsome : nth_error (map (grid_entry cols w0 h0)
                                      (seq 0 (List.length frames))) k <> None)
        by (rewrite Hk; discriminate).
      apply nth_error_Some in Hsome.
      rewrite length_map, length_seq in Hsome. exact Hsome. }
    rewrite nth_error_map, nth_error_seq in Hk.
    destruct (Nat.ltb_spec k (List.length frames)); [| lia].
    simpl in Hk. injection Hk as <-. split; [reflexivity | subst n; lia]. }
  exists rows. eexists. cbn [animations]. rewrite lookup_singleton_eq.
  split; [reflexivity |]. split; [rewrite length_map, length_seq; reflexivity |].
  split; [exact Hsz |]. split; [exact Hrows |]. split.
  - intros k e Hk. apply Hentry in Hk as [-> Hk]. rewrite Hsz. cbn [fst snd x y w h grid_cell].
    pose proof (Z.mod_pos_bound (Z.of_nat k) cols ltac:(lia)) as Hmod.
    pose proof (Z.div_mod (Z.of_nat k) cols ltac:(lia)) as Hdm.
    assert (Hq : 0 <= Z.of_nat k / cols) by (apply Z.div_pos; lia).
    assert (Hrow : Z.of_nat k / cols + 1 <= rows) by nia.
    repeat split; nia.
  - intros k k' e e' px py Hk Hk' Hin Hin'.
    apply Hentry in Hk as [-> Hk]. apply Hentry in Hk' as [-> Hk'].
    apply Nat2Z.inj.
    apply (cells_disjoint cols w0 h0 _ _ px py Hcols (proj1 Hk) (proj1 Hk') Hin Hin').
Qed.

End PackMore.

(** * Further properties of the normalizer *)

Section NormalizeMore.
Import PIL SpritePacker.
Context `{Kernels} `{Float.Rounding}.

(** The pixels of the result, in terms of the fitted raster. *)
Lemma normalize_sprite_composite (image : Image) (tW tH : Z) (out : Image) :
  normalize_sprite image (tW, tH) = Return out ->
  exists fitted,
    ((size image = (tW, tH) /\ fitted = image) \/
     (size image <> (tW, tH) /\ has_pixels image /\
      resize image (scaled_size image (tW, tH)) = Return fitted)) /\
    forall (px py b : nat),
      let sx := Z.of_nat px - (tW - Z.of_nat (width fitted)) / 2 in
      let sy := Z.of_nat py - (tH - Z.of_nat (height fitted)) / 2 in
      (0 <= sx < Z.of_nat (width fitted) /\ 0 <= sy < Z.of_nat (height fitted) ->
       getpixel out px py b
       = if String.eqb (mode_name (mode fitted)) "RGBA"
         then blend (getpixel fitted (Z.to_nat sx) (Z.to_nat sy) 3) "000"
                    (getpixel fitted (Z.to_nat sx) (Z.to_nat sy) b)
         else convert_pixels fitted RGBA (Z.to_nat sx) (Z.to_nat sy) b) /\
      (~ (0 <= sx < Z.of_nat (width fitted) /\ 0 <= sy < Z.of_nat (height fitted)) ->
       getpixel out px py b = "000"%byte).
Proof.
  intros Hrun.
  destruct (normalize_sprite_inv _ _ _ _ Hrun)
    as (fitted & canvas & Hfit & Hnew & _ & ->).
  apply new_returns in Hnew. destruct Hnew as (_ & Hcmode & Hcpx).
  exists fitted. split; [exact Hfit |].
  intros px py b. unfold pasted. cbn [getpixel fst snd].
  destruct (size_as_pasted fitted) as [-> ->].
  set (sx := Z.of_nat px - (tW - Z.of_nat (width fitted)) / 2).
  set (sy := Z.of_nat py - (tH - Z.of_nat (height fitted)) / 2).
  unfold as_pasted.
  split.
  - intros [Hsx Hsy].
    destruct (Z.leb_spec 0 sx); [| lia].
    destruct (Z.ltb_spec sx (Z.of_nat (width fitted))); [| lia].
    destruct (Z.leb_spec 0 sy); [| lia].
    destruct (Z.ltb_spec sy (Z.of_nat (height fitted))); [| lia].
    cbn [andb].
    destruct (String.eqb (mode_name (mode fitted)) "RGBA") eqn:Hm; [| reflexivity].
    assert (Hmode : mode fitted = RGBA).
    { apply String.eqb_eq in Hm. destruct (mode fitted); try discriminate; reflexivity. }
    rewrite Hmode. cbn [matte_band bands Nat.sub].
    rewrite Hcpx, transparent_band. reflexivity.
  - intros Hout.
    destruct (Z.leb_spec 0 sx); cbn [andb];
      [| rewrite Hcpx; apply transparent_band].
    destruct (Z.ltb_spec sx (Z.of_nat (width fitted))); cbn [andb];
      [| rewrite Hcpx; apply transparent_band].
    destruct (Z.leb_spec 0 sy); cbn [andb];
      [| rewrite Hcpx; apply transparent_band].
    destruct (Z.ltb_spec sy (Z.of_nat (height fitted))); cbn [andb];
      [| rewrite Hcpx; apply transparent_band].
    exfalso. apply Hout. lia.
Qed.

(** X14: where the sprite ends up.  When [normalize_sprite] returns, the
    fitted raster (the input itself when it has the target size, the input
    resized to the scaled size otherwise) sits at the offset that splits the
    free space in two halves, the right and lower margins getting the odd
    pixel; inside that rectangle a pixel is the fitted pixel blended over
    transparent black by its own alpha (RGBA) or the converted pixel (other
    modes); everywhere else the result is transparent black. *)
Theorem normalize_sprite_centred (image : Image) (tW tH : Z) (out : Image) :
  normalize_sprite image (tW, tH) = Return out ->
  exists fitted,
    ((size image = (tW, tH) /\ fitted = image) \/
     (size image <> (tW, tH) /\ has_pixels image /\
      resize image (scaled_size image (tW, tH)) = Return fitted)) /\
    let ox := (tW - Z.of_nat (width fitted)) / 2 in
    let oy := (tH - Z.of_nat (height fitted)) / 2 in
    2 * ox <= tW - Z.of_nat (width fitted) <= 2 * ox + 1 /\
    2 * oy <= tH - Z.of_nat (height fitted) <= 2 * oy + 1 /\
    forall (px py b : nat),
      let sx := Z.of_nat px - ox in
      let sy := Z.of_nat py - oy in
      (0 <= sx < Z.of_nat (width fitted) /\ 0 <= sy < Z.of_nat (height fitted) ->
       getpixel out px py b
       = if String.eqb (mode_name (mode fitted)) "RGBA"
         then blend (getpixel fitted (Z.to_nat sx) (Z.to_nat sy) 3) "000"
                    (getpixel fitted (Z.to_nat sx) (Z.to_nat sy) b)
         else convert_pixels fitted RGBA (Z.to_nat sx) (Z.to_nat sy) b) /\
      (~ (0 <= sx < Z.of_nat (width fitted) /\ 0 <= sy < Z.of_nat (height fitted)) ->
       getpixel out px py b = "000"%byte).
Proof.
  intros Hrun.
  destruct (normalize_sprite_composite _ _ _ _ Hrun) as (fitted & Hfit & Hpx).
  exists fitted. split; [exact Hfit |]. cbv zeta.
  pose proof (Z.div_mod (tW - Z.of_nat (width fitted)) 2 ltac:(lia)) as Hx.
  pose proof (Z.mod_pos_bound (tW - Z.of_nat (width fitted)) 2 ltac:(lia)) as Hxm.
  pose proof (Z.div_mod (tH - Z.of_nat (height fitted)) 2 ltac:(lia)) as Hy.
  pose proof (Z.mod_pos_bound (tH - Z.of_nat (height fitted)) 2 ltac:(lia)) as Hym.
  split; [lia |]. split; [lia |]. exact Hpx.
Qed.

Lemma Z_of_byte_range (b : byte) : 0 <= Z_of_byte b <= 255.
Proof.
  unfold Z_of_byte. pose proof (Byte.to_N_bounded b) as Hb. lia.
Qed.

Lemma Z_of_byte_of_Z (v : Z) : 0 <= v <= 255 -> Z_of_byte (byte_of_Z v) = v.
Proof.
  intros Hv. unfold byte_of_Z, Z_of_byte.
  destruct (Byte.of_N (Z.to_N v)) as [b |] eqn:Hb.
  - simpl. apply Byte.to_of_N in Hb. rewrite Hb. lia.
  - apply Byte.of_N_None_iff in Hb. lia.
Qed.

(** The shift-and-add division by 255 rounds to the nearest integer. *)
Lemma div255_rounds (t : Z) :
  0 <= t <= 65025 ->
  -127 <= 255 * Z.shiftr (Z.shiftr (t + 128) 8 + (t + 128)) 8 - t <= 127.
Proof.
  intros Ht. rewrite !Z.shiftr_div_pow2 by lia.
  change (2 ^ 8) with 256.
  pose proof (Z.div_mod (t + 128) 256 ltac:(lia)) as H1.
  pose proof (Z.mod_pos_bound (t + 128) 256 ltac:(lia)) as H2.
  pose proof (Z.div_mod ((t + 128) / 256 + (t + 128)) 256 ltac:(lia)) as H3.
  pose proof (Z.mod_pos_bound ((t + 128) / 256 + (t + 128)) 256 ltac:(lia)) as H4.
  lia.
Qed.

Lemma blend_over_black (m s : byte) :
  let v := Z_of_byte (blend m "000" s) in
  -127 <= 255 * v - Z_of_byte s * Z_of_byte m <= 127.
Proof.
  cbv zeta. unfold blend. change (Z_of_byte "000") with 0.
  rewrite Z.mul_0_l, Z.add_0_l.
  pose proof (Z_of_byte_range m) as Hm. pose proof (Z_of_byte_range s) as Hs.
  assert (Ht : 0 <= Z_of_byte s * Z_of_byte m <= 65025) by nia.
  pose proof (div255_rounds _ Ht) as Hr.
  rewrite Z_of_byte_of_Z; [exact Hr | nia].
Qed.

(** X15: what the compositing does to an RGBA sprite.  Every band of a
    pixel of the result is the fitted band times the pixel's alpha over
    255, rounded to nearest, so no band gets larger; this holds for the
    alpha band too, which is thereby squared: a pixel that was neither
    fully transparent nor fully opaque comes out strictly more
    transparent. *)
Theorem normalize_sprite_scales_by_alpha (image : Image) (tW tH : Z) (out : Image) :
  normalize_sprite image (tW, tH) = Return out ->
  exists fitted,
    ((size image = (tW, tH) /\ fitted = image) \/
     (size image <> (tW, tH) /\ has_pixels image /\
      resize image (scaled_size image (tW, tH)) = Return fitted)) /\
    (mode image = RGBA ->
     forall (px py : nat),
       let sx := Z.of_nat px - (tW - Z.of_nat (width fitted)) / 2 in
       let sy := Z.of_nat py - (tH - Z.of_nat (height fitted)) / 2 in
       let alpha := Z_of_byte (getpixel fitted (Z.to_nat sx) (Z.to_nat sy) 3) in
       0 <= sx < Z.of_nat (width fitted) /\ 0 <= sy < Z.of_nat (height fitted) ->
       (forall b : nat,
          let s := Z_of_byte (getpixel fitted (Z.to_nat sx) (Z.to_nat sy) b) in
          let v := Z_of_byte (getpixel out px py b) in
          -127 <= 255 * v - s * alpha <= 127 /\ v <= s) /\
       (0 < alpha < 255 -> Z_of_byte (getpixel out px py 3) < alpha)).
Proof.
  intros Hrun.
  destruct (normalize_sprite_composite _ _ _ _ Hrun) as (fitted & Hfit & Hpx).
  exists fitted. split; [exact Hfit |].
  intros Hmode px py. cbv zeta. intros Hin.
  assert (Hfmode : mode fitted = RGBA).
  { destruct Hfit as [[_ ->] | (_ & _ & Hres)]; [exact Hmode |].
    destruct (scaled_size image (tW, tH)) as [sw sh].
    apply resize_size in Hres. destruct Hres as [_ ->]. exact Hmode. }
  assert (Hband : forall b,
            getpixel out px py b
            = blend (getpixel fitted
                       (Z.to_nat (Z.of_nat px - (tW - Z.of_nat (width fitted)) / 2))
                       (Z.to_nat (Z.of_nat py - (tH - Z.of_nat (height fitted)) / 2)) 3)
                    "000"
                    (getpixel fitted
                       (Z.to_nat (Z.of_nat px - (tW - Z.of_nat (width fitted)) / 2))
                       (Z.to_nat (Z.of_nat py - (tH - Z.of_nat (height fitted)) / 2)) b)).
  { intros b. destruct (Hpx px py b) as [Hinside _]. cbv zeta in Hinside.
    rewrite (Hinside Hin), Hfmode. reflexivity. }
  split.
  - intros b. rewrite Hband.
    match goal with
    | |- context [blend ?m "000"%byte ?s] =>
        pose proof (blend_over_black m s) as Hr; cbv zeta in Hr;
        pose proof (Z_of_byte_range m); pose proof (Z_of_byte_range s);
        pose proof (Z_of_byte_range (blend m "000" s))
    end.
    split; [exact Hr | nia].
  - intros Halpha. rewrite Hband.
    match goal with
    | |- context [blend ?m "000"%byte ?m] =>
        pose proof (blend_over_black m m) as Hr; cbv zeta in Hr;
        pose proof (Z_of_byte_range (blend m "000" m))
    end.
    nia.
Qed.

(** X16: how [normalize_sprite] fails.  For an input that does not have the
    target size: without pixels it raises [ZeroDivisionError]; with pixels
    and a scaled size below 1 in one direction (a raster much longer than
    wide, say) it raises the [ValueError] of [resize]; and with pixels and a
    negative target it raises some [ValueError]. *)
Theorem normalize_sprite_errors (image : Image) (tW tH : Z) :
  size image <> (tW, tH) ->
  (~ has_pixels image ->
   normalize_sprite image (tW, tH) = Raise ZeroDivisionError) /\
  (has_pixels image ->
   fst (scaled_size image (tW, tH)) < 1 \/ snd (scaled_size image (tW, tH)) < 1 ->
   normalize_sprite image (tW, tH)
   = Raise (ValueError "height and width must be > 0")) /\
  (has_pixels image -> tW < 0 \/ tH < 0 ->
   exists msg, normalize_sprite image (tW, tH) = Raise (ValueError msg)).
Proof.
  intros Hsize. rewrite normalize_sprite_stages.
  assert (Hneq : size_eqb (size image) (tW, tH) = false).
  { destruct (size_eqb (size image) (tW, tH)) eqn:Heq; [| reflexivity].
    apply size_eqb_eq in Heq. contradiction. }
  rewrite Hneq. unfold has_pixels.
  assert (Hsmall : has_pixels image ->
            fst (scaled_size image (tW, tH)) < 1 \/ snd (scaled_size image (tW, tH)) < 1 ->
            resize image (scaled_size image (tW, tH))
            = Raise (ValueError "height and width must be > 0")).
  { intros [Hw Hh] Hlt. unfold resize.
    destruct (scaled_size image (tW, tH)) as [sw sh] eqn:Hs. cbn [fst snd] in Hlt.
    destruct (size_eqb (size image) (sw, sh)) eqn:Heq.
    - apply size_eqb_eq in Heq. unfold size in Heq. injection Heq as Hw' Hh'. lia.
    - destruct (Z.ltb_spec sw 1), (Z.ltb_spec sh 1); cbn [orb]; try reflexivity. lia. }
  split; [| split].
  - intros Hnone.
    destruct (Z.eqb_spec (Z.of_nat (width image)) 0); [reflexivity |].
    destruct (Z.eqb_spec (Z.of_nat (height image)) 0); [reflexivity |].
    exfalso. apply Hnone. lia.
  - intros Hpx Hlt.
    destruct (Z.eqb_spec (Z.of_nat (width image)) 0); [destruct Hpx; lia |].
    destruct (Z.eqb_spec (Z.of_nat (height image)) 0); [destruct Hpx; lia |].
    cbn [orb]. rewrite (Hsmall Hpx Hlt). reflexivity.
  - intros Hpx Hneg.
    destruct (Z.eqb_spec (Z.of_nat (width image)) 0); [destruct Hpx; lia |].
    destruct (Z.eqb_spec (Z.of_nat (height image)) 0); [destruct Hpx; lia |].
    cbn [orb].
    destruct (resize image (scaled_size image (tW, tH))) as [fitted | e] eqn:Hfit.
    + cbn [mbind result_bind Py.bind]. unfold new.
      destruct (Z.ltb_spec tW 0), (Z.ltb_spec tH 0); cbn [orb mbind result_bind Py.bind];
        try (eexists; reflexivity). lia.
    + cbn [mbind result_bind Py.bind]. unfold resize in Hfit.
      destruct (scaled_size image (tW, tH)) as [sw sh].
      destruct (size_eqb (size image) (sw, sh)); [discriminate Hfit |].
      destruct ((sw <? 1) || (sh <? 1)); [| discriminate Hfit].
      injection Hfit as <-. eexists. reflexivity.
Qed.

End NormalizeMore.

(** * Further properties of the validation *)

Section ValidateMore.
Import Builtins PIL GenerateSprites.
Context `{Float.Rounding}.

Lemma sum_zeros (xs : list Z) : Forall (fun v => v = 0) xs -> sum xs = 0.
Proof.
  induction 1 as [| x xs Hx _ IH]; [reflexivity |].
  rewrite sum_cons, Hx, IH. reflexivity.
Qed.

Lemma coords_without_pixels (im : Image) : ~ has_pixels im -> coords im = [].
Proof.
  unfold has_pixels, coords. intros Hnone.
  destruct (height im) as [| h'] eqn:Hh; [reflexivity |].
  destruct (width im) as [| w'] eqn:Hw; [| exfalso; apply Hnone; lia].
  simpl seq at 1. generalize (seq 0 (S h')).
  intros rows. induction rows as [| r rows IH]; [reflexivity | exact IH].
Qed.

(** The histogram of a raster sums to zero exactly when it has no pixel. *)
Lemma histogram_sum_zero (im : Image) :
  sum (histogram im) = 0 <-> ~ has_pixels im.
Proof.
  split.
  - intros Hzero Hpx. pose proof (histogram_sum_positive im Hpx). lia.
  - intros Hnone. apply sum_zeros. unfold histogram.
    rewrite (coords_without_pixels im Hnone).
    apply List.Forall_forall. intros v Hv.
    apply in_flat_map in Hv. destruct Hv as (b & _ & Hv).
    apply in_map_iff in Hv. destruct Hv as (k & <- & _). reflexivity.
Qed.

Lemma similarity_loop_raises_inv (histograms : list (list Z)) :
  forall (acc : Q) (e : exn),
    similarity_loop histograms acc = Raise e ->
    e = ZeroDivisionError /\
    exists before h after,
      histograms = before ++ h :: after /\ after <> [] /\ sum h = 0.
Proof.
  induction histograms as [| h1 hs IH]; intros acc e; [discriminate |].
  destruct hs as [| h2 rest]; [discriminate |].
  cbn [similarity_loop]. unfold Float.truediv.
  destruct (Z.eqb_spec (sum h1) 0) as [Hz | Hnz]; cbn [mbind result_bind Py.bind].
  - intros [= <-]. split; [reflexivity |].
    exists [], h1, (h2 :: rest). repeat split; [discriminate | exact Hz].
  - intros Hrun. apply IH in Hrun as (-> & before & h & after & Heq & Hne & Hz).
    split; [reflexivity |].
    exists (h1 :: before), h, after. rewrite Heq. repeat split; assumption.
Qed.

Lemma similarity_loop_raises (before : list (list Z)) (h : list Z)
  (after : list (list Z)) :
  after <> [] -> sum h = 0 ->
  forall acc : Q,
    similarity_loop (before ++ h :: after) acc = Raise ZeroDivisionError.
Proof.
  intros Hne Hz. induction before as [| b bs IH]; intros acc.
  - destruct after as [| h2 rest]; [congruence |].
    cbn [app similarity_loop]. unfold Float.truediv.
    rewrite Hz. reflexivity.
  - assert (Htail : exists h2 rest, bs ++ h :: after = h2 :: rest)
      by (destruct bs; eexists; eexists; reflexivity).
    destruct Htail as (h2 & rest & Htail).
    change ((b :: bs) ++ h :: after) with (b :: (bs ++ h :: after)).
    rewrite Htail in IH |- *. cbn [similarity_loop]. unfold Float.truediv.
    destruct (sum b =? 0); cbn [mbind result_bind Py.bind]; [reflexivity |].
    apply IH.
Qed.

(** X17: when [validate_sprites] raises.  The only exception is
    [ZeroDivisionError], and it is raised exactly when a frame other than
    the last one has no pixels: each frame but the last is the denominator
    of one pairwise score.  A raster without pixels as only or last frame
    is reported on. *)
Theorem validate_sprites_raises_iff (frames : list Image) (e : exn) :
  validate_sprites frames = Raise e <->
  e = ZeroDivisionError /\
  exists before f after,
    frames = before ++ f :: after /\ after <> [] /\ ~ has_pixels f.
Proof.
  split.
  - destruct frames as [| first rest]; [discriminate |].
    unfold validate_sprites.
    destruct (Z.ltb_spec 1 (Z.of_nat (List.length (first :: rest)))) as [Hlen | Hlen];
      [| discriminate].
    destruct (similarity_loop (map histogram (first :: rest)) 0) as [s | e'] eqn:Hs;
      cbn [mbind result_bind Py.bind].
    + unfold Float.div_int.
      destruct (Z.eqb_spec (Z.of_nat (List.length (first :: rest)) - 1) 0); [lia |].
      discriminate.
    + intros [= <-].
      apply similarity_loop_raises_inv in Hs
        as (-> & before & h & after & Heq & Hne & Hz).
      split; [reflexivity |].
      apply map_eq_app in Heq. destruct Heq as (fb & ftail & Hframes & Hb & Htail).
      apply map_eq_cons in Htail. destruct Htail as (f & fa & -> & Hf & Ha).
      exists fb, f, fa. split; [exact Hframes |]. split.
      * intros ->. apply Hne. symmetry. exact Ha.
      * apply histogram_sum_zero. rewrite Hf. exact Hz.
  - intros (-> & before & f & after & -> & Hne & Hnone).
    assert (Hlen : 1 < Z.of_nat (List.length (before ++ f :: after))).
    { rewrite length_app. simpl List.length.
      destruct after; [congruence | simpl List.length; lia]. }
    destruct (before ++ f :: after) as [| first rest] eqn:Hframes;
      [destruct before; discriminate |].
    unfold validate_sprites.
    destruct (Z.ltb_spec 1 (Z.of_nat (List.length (first :: rest)))); [| lia].
    rewrite <- Hframes, map_app. cbn [map].
    rewrite similarity_loop_raises; [reflexivity | |].
    + destruct after; [congruence | discriminate].
    + apply histogram_sum_zero. exact Hnone.
Qed.

Lemma round_integer (x : Q) (k : Z) :
  monotone_rounding -> exact_on_integers ->
  0 <= k <= 2 ^ 53 ->
  (x == inject_Z k)%Q -> (Float.round x == inject_Z k)%Q.
Proof.
  intros Hmono Hexact Hk Hx. pose proof (Hexact k Hk) as Hr.
  apply Qle_antisym.
  - rewrite <- Hr. apply Hmono. rewrite Hx. apply Qle_refl.
  - rewrite <- Hr. apply Hmono. rewrite Hx. apply Qle_refl.
Qed.

Lemma sum_min_self (h : list Z) :
  map (fun ab => Z.min (fst ab) (snd ab)) (combine h h) = h.
Proof.
  induction h as [| v h IH]; [reflexivity |].
  simpl. rewrite IH, Z.min_id. reflexivity.
Qed.

Lemma similarity_loop_step (h1 h2 : list Z) (rest : list (list Z)) (acc : Q) :
  similarity_loop (h1 :: h2 :: rest) acc
  = (similarity ←
       Float.truediv
         (sum (map (fun ab => Z.min (fst ab) (snd ab)) (combine h1 h2)))
         (sum h1);
     similarity_loop (h2 :: rest) (Float.add acc similarity)).
Proof. reflexivity. Qed.

Lemma similarity_loop_identical (h : list Z) (histograms : list (list Z)) :
  monotone_rounding -> exact_on_integers ->
  0 < sum h ->
  Forall (fun h' => h' = h) histograms ->
  forall (acc : Q) (k : Z),
    0 <= k ->
    k + Z.of_nat (Nat.pred (List.length histograms)) <= 2 ^ 53 ->
    (acc == inject_Z k)%Q ->
    exists r,
      similarity_loop histograms acc = Return r /\
      (r == inject_Z (k + Z.of_nat (Nat.pred (List.length histograms))))%Q.
Proof.
  intros Hmono Hexact Hpos Hall.
  induction Hall as [| h1 hs Hh1 Hhs IH]; intros acc k Hk Hlen Hacc.
  - exists acc. split; [reflexivity |]. simpl. rewrite Z.add_0_r. exact Hacc.
  - destruct hs as [| h2 rest].
    + exists acc. split; [reflexivity |]. simpl. rewrite Z.add_0_r. exact Hacc.
    + pose proof (Forall_inv Hhs) as Hh2. simpl in Hh2. subst h1 h2.
      rewrite similarity_loop_step, sum_min_self. unfold Float.truediv.
      destruct (Z.eqb_spec (sum h) 0); [lia |].
      cbn [mbind result_bind Py.bind].
      simpl List.length in Hlen |- *. simpl Nat.pred in Hlen |- *.
      specialize (IH (Float.add acc (Float.round (inject_Z (sum h) / inject_Z (sum h))))
                    (k + 1) ltac:(lia)).
      simpl List.length in IH. simpl Nat.pred in IH.
      replace (k + Z.of_nat (S (List.length rest)))
        with (k + 1 + Z.of_nat (List.length rest)) by lia.
      apply IH; [lia |].
      unfold Float.add. apply round_integer; auto; [lia |].
      rewrite inject_Z_plus, Hacc.
      rewrite (round_integer _ 1 Hmono Hexact); [reflexivity | lia |].
      change (inject_Z 1) with 1%Q. apply Qmult_inv_r.
      change 0%Q with (inject_Z 0). rewrite inject_Z_injective. lia.
Qed.

(** X18: frames with the same colour counts.  When every frame has the
    histogram of the first one and the first has pixels -- the same raster
    repeated, or rasters that differ only in where their colours sit -- the
    report is given with a score of exactly 1, and the verdict is the
    conjunction of the size and transparency checks.  (With rounding to a
    double monotone and exact on the integers up to [2^53], and at most
    [2^53] frames.) *)
Theorem validate_sprites_identical_histograms (first : Image) (rest : list Image) :
  monotone_rounding -> exact_on_integers ->
  Z.of_nat (List.length (first :: rest)) <= 2 ^ 53 ->
  has_pixels first ->
  Forall (fun f => histogram f = histogram first) rest ->
  exists r,
    validate_sprites (first :: rest) = Return (Report r) /\
    (visual_similarity r == 1)%Q /\
    passes r = size_consistent r && has_transparency r.
Proof.
  intros Hmono Hexact Hmax Hpx Hsame.
  assert (Hverdict : forall v : Q, (v == 1)%Q -> Float.gt v (1 # 2) = true).
  { intros v Hv. unfold Float.gt.
    destruct (Qle_bool v (1 # 2)) eqn:Hle; [| reflexivity].
    apply Qle_bool_iff in Hle. rewrite Hv in Hle.
    unfold Qle in Hle. simpl in Hle. lia. }
  unfold validate_sprites.
  destruct (Z.ltb_spec 1 (Z.of_nat (List.length (first :: rest)))) as [Hlen | Hlen].
  - destruct (similarity_loop_identical (histogram first)
                (map histogram (first :: rest)) Hmono Hexact
                (histogram_sum_positive first Hpx)) with (acc := 0%Q) (k := 0)
      as (s & Hs & Hsum).
    { cbn [map]. apply List.Forall_cons; [reflexivity |].
      apply Forall_map. exact Hsame. }
    { lia. }
    { rewrite length_map. simpl List.length in Hmax |- *. simpl Nat.pred. lia. }
    { reflexivity. }
    rewrite Hs. cbn [mbind result_bind Py.bind]. unfold Float.div_int.
    destruct (Z.eqb_spec (Z.of_nat (List.length (first :: rest)) - 1) 0); [lia |].
    cbn [mbind result_bind Py.bind].
    assert (Hone : (Float.round (s / inject_Z (Z.of_nat (List.length (first :: rest)) - 1))
                    == 1)%Q).
    { change 1%Q with (inject_Z 1). apply round_integer; auto; [lia |].
      rewrite Hsum, length_map. simpl List.length. simpl Nat.pred.
      replace (0 + Z.of_nat (List.length rest))
        with (Z.of_nat (S (List.length rest)) - 1) by lia.
      change (inject_Z 1) with 1%Q. apply Qmult_inv_r.
      change 0%Q with (inject_Z 0). rewrite inject_Z_injective.
      simpl List.length in n. lia. }
    eexists. split; [reflexivity |]. cbn [visual_similarity passes size_consistent has_transparency].
    split; [exact Hone |]. rewrite (Hverdict _ Hone), andb_true_r. reflexivity.
  - cbn [mbind result_bind Py.bind]. eexists. split; [reflexivity |].
    cbn [visual_similarity passes size_consistent has_transparency].
    split; [reflexivity |]. rewrite (Hverdict 1%Q); [| reflexivity].
    rewrite andb_true_r. reflexivity.
Qed.

End ValidateMore.

(** * Further properties of the seed *)

Section SeedMore.
Import Builtins GenerateSprites.

Lemma hex_value_digit (k : Z) :
  0 <= k < 16 ->
  hex_value (nth (Z.to_nat k) MD5.hex_digits "0"%char) = k.
Proof.
  intros Hk.
  assert (Hcases : k = 0 \/ k = 1 \/ k = 2 \/ k = 3 \/ k = 4 \/ k = 5 \/ k = 6 \/
                   k = 7 \/ k = 8 \/ k = 9 \/ k = 10 \/ k = 11 \/ k = 12 \/
                   k = 13 \/ k = 14 \/ k = 15) by lia.
  repeat (destruct Hcases as [-> | Hcases]; [reflexivity |]).
  subst k. reflexivity.
Qed.

(** The first eight digits of a digest, read as a number, are its first four
    bytes, most significant first. *)
Lemma base_seed_bytes (data : list Z) :
  exists b0 b1 b2 b3,
    0 <= b0 < 256 /\ 0 <= b1 < 256 /\ 0 <= b2 < 256 /\ 0 <= b3 < 256 /\
    int16 (String.substring 0 8 (MD5.hexdigest data))
    = ((b0 * 256 + b1) * 256 + b2) * 256 + b3.
Proof.
  unfold MD5.hexdigest, MD5.digest.
  destruct (fold_left MD5.process_chunk _ _) as [[[a b] c] d].
  set (tail := MD5.le_bytes 4 b ++ MD5.le_bytes 4 c ++ MD5.le_bytes 4 d).
  exists (a mod 256), (a / 256 mod 256), (a / 256 / 256 mod 256),
         (a / 256 / 256 / 256 mod 256).
  pose proof (Z.mod_pos_bound a 256 ltac:(lia)) as H0.
  pose proof (Z.mod_pos_bound (a / 256) 256 ltac:(lia)) as H1.
  pose proof (Z.mod_pos_bound (a / 256 / 256) 256 ltac:(lia)) as H2.
  pose proof (Z.mod_pos_bound (a / 256 / 256 / 256) 256 ltac:(lia)) as H3.
  repeat (split; [assumption |]).
  cbn [MD5.le_bytes app MD5.hex_of_bytes String.substring].
  unfold int16. cbn [list_ascii_of_string fold_left].
  assert (Hnib : forall v, 0 <= v < 256 -> 0 <= v / 16 < 16 /\ 0 <= v mod 16 < 16).
  { intros v Hv. split; [| apply Z.mod_pos_bound; lia].
    split; [apply Z.div_pos; lia | apply Z.div_lt_upper_bound; lia]. }
  rewrite !hex_value_digit by (apply Hnib; assumption).
  pose proof (Z.div_mod (a mod 256) 16 ltac:(lia)).
  pose proof (Z.div_mod (a / 256 mod 256) 16 ltac:(lia)).
  pose proof (Z.div_mod (a / 256 / 256 mod 256) 16 ltac:(lia)).
  pose proof (Z.div_mod (a / 256 / 256 / 256 mod 256) 16 ltac:(lia)).
  destruct (MD5.hex_of_bytes tail); cbn [String.substring list_ascii_of_string fold_left];
    lia.
Qed.

(** X19: the range of the seeds.  The seed is the frame index plus a number
    that only depends on entity and animation and lies in
    [0, 2^32 + 2000]: the base is a 32-bit number, the offset at most 2000.
    For a frame index from 0 up to [2^63] the seed is therefore a
    non-negative number below [2^64]. *)
Theorem get_sprite_seed_range (entity animation : string) (frame : Z) :
  frame <= get_sprite_seed entity animation frame <= frame + 2 ^ 32 + 1999 /\
  get_sprite_seed entity animation frame - frame
  = get_sprite_seed entity animation 0 /\
  (0 <= frame <= 2 ^ 63 ->
   0 <= get_sprite_seed entity animation frame < 2 ^ 64).
Proof.
  unfold get_sprite_seed.
  destruct (base_seed_bytes (encode entity))
    as (b0 & b1 & b2 & b3 & H0 & H1 & H2 & H3 & ->).
  assert (Hoff : 0 <= default 0 (animation_offset !! animation) <= 2000).
  { unfold animation_offset.
    destruct (String.eqb_spec animation "walk") as [-> | Hw];
      [rewrite lookup_insert_eq; simpl; lia | rewrite lookup_insert_ne by congruence].
    destruct (String.eqb_spec animation "idle") as [-> | Hi];
      [rewrite lookup_insert_eq; simpl; lia | rewrite lookup_insert_ne by congruence].
    destruct (String.eqb_spec animation "attack") as [-> | Ha];
      [rewrite lookup_insert_eq; simpl; lia | rewrite lookup_insert_ne by congruence].
    rewrite lookup_empty. simpl. lia. }
  change (2 ^ 32) with 4294967296. change (2 ^ 63) with 9223372036854775808.
  change (2 ^ 64) with 18446744073709551616.
  lia.
Qed.

End SeedMore.

(** * Properties of the prompts and of the walk cycle *)

Section PromptProperties.
Import WalkCycle.

Lemma rstrip_app (s t : string) :
  rstrip t <> EmptyString ->
  rstrip (s ++ t) = (s ++ rstrip t)%string /\ rstrip (s ++ t) <> EmptyString.
Proof.
  intros Ht. induction s as [| c s [IH IHne]]; [split; [reflexivity | exact Ht] |].
  change (String c s ++ t)%string with (String c (s ++ t)%string).
  change (String c s ++ rstrip t)%string with (String c (s ++ rstrip t)%string).
  cbn [rstrip]. rewrite <- IH.
  destruct (rstrip (s ++ t)) eqn:Hs; [contradiction |].
  split; [reflexivity | discriminate].
Qed.

Lemma length_append (s t : string) :
  String.length (s ++ t) = (String.length s + String.length t)%nat.
Proof.
  induction s as [| c s IH]; [reflexivity |]. simpl. rewrite IH. reflexivity.
Qed.

Lemma append_inv_tail (s1 s2 t : string) :
  (s1 ++ t = s2 ++ t)%string -> s1 = s2.
Proof.
  revert s2. induction s1 as [| c s1 IH]; intros s2 Heq.
  - destruct s2 as [| c2 s2]; [reflexivity |].
    apply (f_equal String.length) in Heq.
    rewrite !length_append in Heq. cbn [String.length] in Heq. lia.
  - destruct s2 as [| c2 s2].
    + apply (f_equal String.length) in Heq.
      rewrite !length_append in Heq. cbn [String.length] in Heq. lia.
    + change (String c (s1 ++ t)%string = String c2 (s2 ++ t)%string) in Heq.
      injection Heq as -> Heq. f_equal. apply IH, Heq.
Qed.

Lemma append_inv_head (s t1 t2 : string) :
  (s ++ t1 = s ++ t2)%string -> t1 = t2.
Proof.
  induction s as [| c s IH]; [trivial |].
  intros Heq.
  change (String c (s ++ t1)%string = String c (s ++ t2)%string) in Heq.
  injection Heq as Heq. apply IH, Heq.
Qed.

(** The fixed lines of the template after the style. *)
Lemma rstrip_template (d p s tail : string) :
  rstrip tail <> EmptyString ->
  rstrip ("isometric pixel art sprite, " ++ d ++ "," ++ newline ++
          p ++ "," ++ newline ++ s ++ tail)
  = ("isometric pixel art sprite, " ++ d ++ "," ++ newline ++
     p ++ "," ++ newline ++ s ++ rstrip tail)%string.
Proof.
  intros Htail.
  pose proof (rstrip_app s tail Htail) as [E1 N1].
  pose proof (rstrip_app ("," ++ newline) (s ++ tail) N1) as [E2 N2].
  pose proof (rstrip_app p _ N2) as [E3 N3].
  pose proof (rstrip_app ("," ++ newline) _ N3) as [E4 N4].
  pose proof (rstrip_app d _ N4) as [E5 N5].
  pose proof (rstrip_app "isometric pixel art sprite, " _ N5) as [E6 _].
  rewrite E5, E4, E3, E2, E1 in E6. exact E6.
Qed.

(** X20: the prompt that is sent.  [strip] removes exactly the two line
    breaks of the template: the prompt is the fixed text with description,
    pose and style put in verbatim, white space at their ends included.
    Stripping it again changes nothing, and, pose and style being equal,
    different descriptions give different prompts. *)
Theorem build_prompt_text (entity_description pose style : string) :
  build_prompt entity_description pose style
  = ("isometric pixel art sprite, " ++ entity_description ++ "," ++ newline ++
     pose ++ "," ++ newline ++
     style ++ ", clean pixel art," ++ newline ++
     "45-degree angle top-down view," ++ newline ++
     "single character centered in frame," ++ newline ++
     "transparent background," ++ newline ++
     "retro RPG game aesthetic," ++ newline ++
     "crisp pixels, no anti-aliasing," ++ newline ++
     "clear silhouette")%string /\
  strip (build_prompt entity_description pose style)
  = build_prompt entity_description pose style /\
  (forall other : string,
     build_prompt other pose style = build_prompt entity_description pose style ->
     other = entity_description).
Proof.
  assert (Htext : forall d p s,
            build_prompt d p s
            = ("isometric pixel art sprite, " ++ d ++ "," ++ newline ++
               p ++ "," ++ newline ++
               s ++ ", clean pixel art," ++ newline ++
               "45-degree angle top-down view," ++ newline ++
               "single character centered in frame," ++ newline ++
               "transparent background," ++ newline ++
               "retro RPG game aesthetic," ++ newline ++
               "crisp pixels, no anti-aliasing," ++ newline ++
               "clear silhouette")%string).
  { intros d p s. unfold build_prompt, strip.
    etransitivity; [apply (rstrip_template d p s); discriminate |].
    reflexivity. }
  split; [apply Htext |]. split.
  - rewrite Htext. unfold strip.
    etransitivity; [apply (rstrip_template entity_description pose style); discriminate |].
    reflexivity.
  - intros other. rewrite !Htext. intros Heq.
    apply append_inv_head in Heq.
    apply (append_inv_tail _ _ _ Heq).
Qed.

End PromptProperties.

Section WalkCycleProperties.
Import Builtins PIL ComfyUIClient SpritePacker GenerateSprites WalkCycle.
Context `{Kernels} `{Float.Rounding} (env : Env).

Lemma requests_app (t t' : list action) :
  requests (t ++ t') = requests t ++ requests t'.
Proof. apply flat_map_app. Qed.

Lemma written_app (t t' : list action) :
  written (t ++ t') = written t ++ written t'.
Proof. apply flat_map_app. Qed.

Lemma requests_client (t : list effect) : requests (map Client t) = t.
Proof.
  induction t as [| e t IH]; [reflexivity |]. simpl. rewrite IH. reflexivity.
Qed.

Lemma written_client (t : list effect) : written (map Client t) = [].
Proof. induction t as [| e t IH]; [reflexivity | exact IH]. Qed.

(** One pass of the loop, by what the frame comes to. *)
Lemma walk_frames_step (entity_name entity_desc : string) (output_dir : path)
  (pose : string) (rest : list string) (idx : nat) (frames : list Image)
  (timings : list Q) :
  walk_frames env entity_name entity_desc output_dir (pose :: rest) idx frames timings
  = let announce :=
      Say [Text ("  Frame " ++ str_of_int (Z.of_nat idx) ++ "/4: "
                 ++ String.substring 0 30 pose ++ "...")] " " in
    let calls := map Client (fst (frame_call env entity_name entity_desc idx pose)) in
    match frame_yield env entity_name entity_desc idx pose with
    | Ok (Some img) =>
        let elapsed := float_sub (clock env (2 * idx + 1)) (clock env (2 * idx)) in
        let '(t, r) :=
          walk_frames env entity_name entity_desc output_dir rest (S idx)
            (frames ++ [img]) (timings ++ [elapsed]) in
        (announce :: calls
           ++ [Mkdir (Child output_dir entity_name) true;
               SaveImage (frame_path output_dir entity_name idx) img;
               Say [Text "✓ ("; Fixed1 elapsed; Text "s)"] newline]
           ++ t, r)
    | Ok None =>
        (announce :: calls ++ [Say [Text "✗ FAILED"] newline],
         Ok (inl (Failed ("Frame " ++ str_of_int (Z.of_nat idx)
                          ++ " generation failed"))))
    | Err e => (announce :: calls, Err e)
    end.
Proof.
  cbv zeta. unfold frame_yield, frame_call, frame_path.
  cbn [walk_frames].
  generalize (generate_image (worlds env idx)
                (build_prompt entity_desc pose default_style) NEGATIVE_PROMPT
                (get_sprite_seed entity_name "walk" (Z.of_nat idx)) 128 128).
  intros [t [[data |] | e]];
    cbn [mbind run_bind say say_end act of_io of_result mret run_ret fst snd app].
  - destruct (image_open env data) as [raw |];
      cbn [mbind run_bind say say_end act of_io of_result mret run_ret fst snd app];
      [| rewrite app_nil_r; reflexivity].
    destruct (normalize_sprite raw (32, 32)) as [img | e];
      cbn [mbind run_bind say say_end act of_io of_result mret run_ret fst snd app];
      [| rewrite !app_nil_r; reflexivity].
    destruct (walk_frames env entity_name entity_desc output_dir rest (S idx) _ _)
      as [t' r].
    reflexivity.
  - reflexivity.
  - reflexivity.
Qed.

Lemma enumerate_cons {A : Type} (start : nat) (a : A) (l : list A) :
  enumerate start (a :: l) = (start, a) :: enumerate (S start) l.
Proof. reflexivity. Qed.

(** A loop all of whose frames are kept. *)
Lemma walk_frames_kept (entity_name entity_desc : string) (output_dir : path)
  (poses : list string) :
  forall (imgs : list Image) (idx : nat) (frames : list Image) (timings : list Q),
    Forall2 (fun jp im =>
               frame_yield env entity_name entity_desc (fst jp) (snd jp)
               = Ok (Some im)) (enumerate idx poses) imgs ->
    exists trace elapsed,
      walk_frames env entity_name entity_desc output_dir poses idx frames timings
      = (trace, Ok (inr (frames ++ imgs, timings ++ elapsed))) /\
      List.length elapsed = List.length poses /\
      requests trace
      = flat_map (fun jp => fst (frame_call env entity_name entity_desc (fst jp) (snd jp)))
                 (enumerate idx poses) /\
      written trace
      = map (fun jp => frame_path output_dir entity_name (fst jp)) (enumerate idx poses).
Proof.
  induction poses as [| pose poses IH]; intros imgs idx frames timings Hall.
  - inversion Hall; subst. exists [], []. rewrite !app_nil_r.
    repeat split; reflexivity.
  - rewrite enumerate_cons in Hall |- *.
    inversion Hall as [| jp im ? imgs' Hfirst Hrest]; subst. cbn [fst snd] in Hfirst.
    rewrite walk_frames_step. cbv zeta. rewrite Hfirst.
    match goal with
    | |- context [walk_frames _ _ _ _ _ _ ?fs ?ts] =>
        destruct (IH imgs' (S idx) fs ts Hrest)
          as (trace & elapsed & Hrun & Hlen & Hreq & Hwr)
    end.
    rewrite Hrun. eexists. eexists (_ :: elapsed).
    split; [| split; [| split]].
    + rewrite <- !app_assoc. reflexivity.
    + simpl List.length. rewrite Hlen. reflexivity.
    + match goal with
      | |- requests (?a :: ?calls ++ ?mid ++ trace) = _ =>
          change (a :: calls ++ mid ++ trace) with ([a] ++ calls ++ mid ++ trace)
      end.
      rewrite !requests_app, requests_client, Hreq. reflexivity.
    + match goal with
      | |- written (?a :: ?calls ++ ?mid ++ trace) = _ =>
          change (a :: calls ++ mid ++ trace) with ([a] ++ calls ++ mid ++ trace)
      end.
      rewrite !written_app, written_client, Hwr. reflexivity.
Qed.

(** A loop that is left at the first frame that is not kept. *)
Lemma walk_frames_stops (entity_name entity_desc : string) (output_dir : path)
  (k : nat) (pose : string) (after : list (nat * string)) (before : list (nat * string)) :
  forall (poses : list string) (idx : nat) (frames : list Image) (timings : list Q),
    enumerate idx poses = before ++ (k, pose) :: after ->
    Forall (fun jp => exists im,
              frame_yield env entity_name entity_desc (fst jp) (snd jp)
              = Ok (Some im)) before ->
    (forall im, frame_yield env entity_name entity_desc k pose <> Ok (Some im)) ->
    exists trace,
      walk_frames env entity_name entity_desc output_dir poses idx frames timings
      = (trace,
         match frame_yield env entity_name entity_desc k pose with
         | Ok _ =>
             Ok (inl (Failed ("Frame " ++ str_of_int (Z.of_nat k)
                              ++ " generation failed")))
         | Err e => Err e
         end) /\
      requests trace
      = flat_map (fun jp => fst (frame_call env entity_name entity_desc (fst jp) (snd jp)))
                 (before ++ [(k, pose)]) /\
      written trace = map (fun jp => frame_path output_dir entity_name (fst jp)) before.
Proof.
  induction before as [| [j p] before IH];
    intros poses idx frames timings Henum Hkept Hbad.
  - destruct poses as [| pose0 poses]; [discriminate Henum |].
    rewrite enumerate_cons in Henum. injection Henum as -> -> _.
    rewrite walk_frames_step. cbv zeta.
    destruct (frame_yield env entity_name entity_desc k pose) as [[im |] | e] eqn:Hy.
    + exfalso. apply (Hbad im). reflexivity.
    + eexists. split; [reflexivity |]. split.
      * match goal with
        | |- requests (?a :: ?calls ++ ?tl) = _ =>
            change (a :: calls ++ tl) with ([a] ++ calls ++ tl)
        end.
        rewrite !requests_app, requests_client. simpl. rewrite !app_nil_r. reflexivity.
      * match goal with
        | |- written (?a :: ?calls ++ ?tl) = _ =>
            change (a :: calls ++ tl) with ([a] ++ calls ++ tl)
        end.
        rewrite !written_app, written_client. reflexivity.
    + eexists. split; [reflexivity |]. split.
      * match goal with
        | |- requests (?a :: ?calls) = _ =>
            change (a :: calls) with ([a] ++ calls)
        end.
        rewrite !requests_app, requests_client. simpl. rewrite !app_nil_r. reflexivity.
      * match goal with
        | |- written (?a :: ?calls) = _ =>
            change (a :: calls) with ([a] ++ calls)
        end.
        rewrite !written_app, written_client. reflexivity.
  - destruct poses as [| pose0 poses]; [discriminate Henum |].
    rewrite enumerate_cons in Henum. cbn [app] in Henum.
    injection Henum as <- <- Henum.
    inversion Hkept as [| ? ? [im Him] Hkept']; subst. cbn [fst snd] in Him.
    rewrite walk_frames_step. cbv zeta. rewrite Him.
    match goal with
    | |- context [walk_frames _ _ _ _ _ _ ?fs ?ts] =>
        destruct (IH poses (S idx) fs ts Henum Hkept' Hbad)
          as (trace & Hrun & Hreq & Hwr)
    end.
    rewrite Hrun. eexists. split; [reflexivity |]. split.
    + match goal with
      | |- requests (?a :: ?calls ++ ?mid ++ trace) = _ =>
          change (a :: calls ++ mid ++ trace) with ([a] ++ calls ++ mid ++ trace)
      end.
      rewrite !requests_app, requests_client, Hreq. reflexivity.
    + match goal with
      | |- written (?a :: ?calls ++ ?mid ++ trace) = _ =>
          change (a :: calls ++ mid ++ trace) with ([a] ++ calls ++ mid ++ trace)
      end.
      rewrite !written_app, written_client, Hwr. reflexivity.
Qed.

Lemma normalize_sprite_shape (image : Image) (tW tH : Z) (out : Image) :
  normalize_sprite image (tW, tH) = Return out ->
  size out = (tW, tH) /\ mode out = RGBA.
Proof.
  intros Hrun.
  destruct (normalize_sprite_inv _ _ _ _ Hrun)
    as (fitted & canvas & _ & Hnew & _ & ->).
  apply new_returns in Hnew. destruct Hnew as (Hsz & Hmode & _).
  split; [exact Hsz | exact Hmode].
Qed.

Lemma frame_yield_shape (entity_name entity_desc : string) (k : nat)
  (pose : string) (im : Image) :
  frame_yield env entity_name entity_desc k pose = Ok (Some im) ->
  size im = (32, 32) /\ mode im = RGBA.
Proof.
  unfold frame_yield.
  destruct (snd (frame_call env entity_name entity_desc k pose)) as [[data |] | e];
    try discriminate.
  destruct (image_open env data) as [raw |]; [| discriminate].
  destruct (normalize_sprite raw (32, 32)) as [img | e] eqn:Hn; [| discriminate].
  intros [= <-]. exact (normalize_sprite_shape _ _ _ _ Hn).
Qed.

Lemma pack_returns (first : Image) (rest : list Image) (entity animation : string) :
  Forall (fun f => size f = size first) (first :: rest) ->
  Forall (fun f => mode f = RGBA) (first :: rest) ->
  exists sheet md, pack (first :: rest) entity animation = Return (sheet, md).
Proof.
  intros Hall Hrgba.
  assert (Hmodes : Forall pastes_on_rgba (first :: rest)).
  { apply (Forall_impl _ _ _ Hrgba). intros f Hf. left. rewrite Hf. reflexivity. }
  set (n := Z.of_nat (List.length (first :: rest))).
  set (cols := if 1 <? n then 2 else 1).
  set (w0 := Z.of_nat (width first)). set (h0 := Z.of_nat (height first)).
  assert (Hn : 1 <= n) by (subst n; simpl List.length; lia).
  assert (Hcols : 1 <= cols) by (subst cols; destruct (1 <? n); lia).
  destruct (size_new RGBA (w0 * cols) (h0 * ((n + cols - 1) / cols)) transparent)
    as (sheet0 & Hnew & _).
  { subst w0. nia. }
  { apply Z.mul_nonneg_nonneg; [subst h0; lia |]. apply Z.div_pos; lia. }
  destruct (pack_frames_returns w0 h0 cols (first :: rest) (or_introl Hall) Hmodes
              0 sheet0 [] (proj1 (proj2 (new_returns _ _ _ _ Hnew))))
    as (sheet & Hpack & _).
  exists sheet. eexists. unfold pack. cbv beta iota zeta.
  unfold size at 1. fold w0 h0. cbv beta iota zeta. fold n.
  change (if 1 <? n then 2 else 1) with cols.
  rewrite Hnew. cbn [mbind result_bind Py.bind]. rewrite Hpack.
  cbn [mbind result_bind Py.bind]. reflexivity.
Qed.

(** X21: a cycle that stops early.  At the first frame that is not kept
    the run ends: when the client returned [None] for it, with the
    dictionary whose error names the frame; when its data is no image or
    its normalization raises, with that exception, which is not caught.
    Either way the client was called for the frames up to this one and for
    no later one, and the files written are the frames kept before it: no
    sheet, no metadata. *)
Theorem generate_walk_cycle_stops (entity : Entity) (output_dir : path)
  (entity_name entity_desc : string)
  (before : list (nat * string)) (k : nat) (pose : string)
  (after : list (nat * string)) :
  entity !! "name" = Some entity_name ->
  entity !! "description" = Some entity_desc ->
  enumerate 0 WALK_POSES = before ++ (k, pose) :: after ->
  Forall (fun jp => exists im,
            frame_yield env entity_name entity_desc (fst jp) (snd jp)
            = Ok (Some im)) before ->
  (forall im, frame_yield env entity_name entity_desc k pose <> Ok (Some im)) ->
  let result := generate_walk_cycle env entity output_dir in
  (frame_yield env entity_name entity_desc k pose = Ok None ->
   snd result
   = Ok (Failed ("Frame " ++ str_of_int (Z.of_nat k) ++ " generation failed"))) /\
  (forall e, frame_yield env entity_name entity_desc k pose = Err e ->
             snd result = Err e) /\
  requests (fst result)
  = flat_map (fun jp => fst (frame_call env entity_name entity_desc (fst jp) (snd jp)))
             (before ++ [(k, pose)]) /\
  written (fst result)
  = map (fun jp => frame_path output_dir entity_name (fst jp)) before.
Proof.
  intros Hname Hdesc Henum Hkept Hbad result.
  destruct (walk_frames_stops entity_name entity_desc output_dir k pose after before
              WALK_POSES 0%nat [] [] Henum Hkept Hbad) as (trace & Hrun & Hreq & Hwr).
  assert (Hresult : result
            = (Say [Text (newline ++ "[POC] Generating "); Capitalized entity_name;
                    Text "..."] newline :: trace,
               match frame_yield env entity_name entity_desc k pose with
               | Ok _ =>
                   Ok (Failed ("Frame " ++ str_of_int (Z.of_nat k)
                               ++ " generation failed"))
               | Err e => Err e
               end)).
  { subst result. unfold generate_walk_cycle, entity_getitem.
    rewrite Hname, Hdesc.
    cbn [mbind run_bind say say_end act of_io of_result mret run_ret fst snd app].
    rewrite Hrun.
    destruct (frame_yield env entity_name entity_desc k pose) as [y | e];
      cbn [mbind run_bind mret run_ret app]; [rewrite app_nil_r |]; reflexivity. }
  rewrite Hresult. cbn [fst snd].
  split; [intros ->; reflexivity |]. split; [intros e ->; reflexivity |].
  split; [exact Hreq | exact Hwr].
Qed.

(** X22: a cycle that completes.  When all four frames are kept, the run
    returns the summary for four frames with a full validation report.
    The frames are 32 x 32 RGBA, so the report says that sizes are
    consistent and that all frames have transparency: the verdict is
    decided by the similarity score alone.  The sheet that is written
    measures 64 x 64 and its metadata lists the four cells of a 2 x 2 grid;
    the files written are the four frames, then the sheet, then the
    metadata. *)
Theorem generate_walk_cycle_completes (entity : Entity) (output_dir : path)
  (entity_name entity_desc : string) (imgs : list Image) :
  entity !! "name" = Some entity_name ->
  entity !! "description" = Some entity_desc ->
  Forall2 (fun jp im =>
             frame_yield env entity_name entity_desc (fst jp) (snd jp)
             = Ok (Some im)) (enumerate 0 WALK_POSES) imgs ->
  exists trace sheet md results avg_time total_time,
    generate_walk_cycle env entity output_dir
    = (trace, Ok (Summary entity_name 4 avg_time total_time (Report results))) /\
    pack imgs entity_name "walk" = Return (sheet, md) /\
    validate_sprites imgs = Return (Report results) /\
    Forall (fun im => size im = (32, 32) /\ mode im = RGBA) imgs /\
    size sheet = (64, 64) /\
    animations md !! "walk" = Some (map (grid_entry 2 32 32) (seq 0 4)) /\
    size_consistent results = true /\
    has_transparency results = true /\
    frame_count results = 4 /\
    passes results = Float.gt (visual_similarity results) (1 # 2) /\
    requests trace
    = flat_map (fun jp => fst (frame_call env entity_name entity_desc (fst jp) (snd jp)))
               (enumerate 0 WALK_POSES) /\
    written trace
    = map (fun jp => frame_path output_dir entity_name (fst jp)) (enumerate 0 WALK_POSES)
      ++ [Child (Child output_dir entity_name) "spritesheet.png";
          Child (Child output_dir entity_name) "metadata.json"] /\
    In (SaveImage (Child (Child output_dir entity_name) "spritesheet.png") sheet) trace /\
    In (DumpJson (Child (Child output_dir entity_name) "metadata.json") md) trace.
Proof.
  intros Hname Hdesc Hall.
  assert (Hshape : Forall (fun im => size im = (32, 32) /\ mode im = RGBA) imgs).
  { clear -Hall. induction Hall as [| jp im ? ? Hy _ IH]; [apply List.Forall_nil |].
    apply List.Forall_cons; [exact (frame_yield_shape _ _ _ _ _ Hy) | exact IH]. }
  destruct (walk_frames_kept entity_name entity_desc output_dir WALK_POSES imgs
              0%nat [] [] Hall) as (loop & elapsed & Hrun & Hlen & Hreq & Hwr).
  assert (Hcount : List.length imgs = 4%nat).
  { apply Forall2_length in Hall. rewrite <- Hall. reflexivity. }
  destruct imgs as [| i0 [| i1 [| i2 [| i3 [| ? ?]]]]]; try discriminate Hcount.
  assert (Hsizes : Forall (fun f => size f = size i0) [i0; i1; i2; i3]).
  { pose proof (Forall_inv Hshape) as [Hs0 _]. rewrite Hs0.
    eapply Forall_impl; [exact Hshape |]. intros im [Hs _]. exact Hs. }
  assert (Hrgba : Forall (fun f => mode f = RGBA) [i0; i1; i2; i3]).
  { eapply Forall_impl; [exact Hshape |]. intros im [_ Hm]. exact Hm. }
  destruct (pack_returns i0 [i1; i2; i3] entity_name "walk" Hsizes Hrgba)
    as (sheet & md & Hpack).
  destruct (pack_inv _ _ _ _ _ _ Hpack) as [Hsheet Hmd].
  pose proof (Forall_inv Hshape) as [Hs0 _].
  assert (Hw0 : Z.of_nat (width i0) = 32) by (unfold size in Hs0; congruence).
  assert (Hh0 : Z.of_nat (height i0) = 32) by (unfold size in Hs0; congruence).
  cbv zeta in Hsheet, Hmd. rewrite Hw0, Hh0 in Hsheet, Hmd.
  change (grid_columns (Z.of_nat (List.length [i0; i1; i2; i3]))) with 2 in Hsheet, Hmd.
  destruct (validate_sprites_returns [i0; i1; i2; i3]) as [results Hval];
    [discriminate | |].
  { eapply Forall_impl; [exact Hshape |]. intros im [Hs _].
    unfold size in Hs. injection Hs as Hw Hh. unfold has_pixels. lia. }
  destruct (validate_sprites_report _ _ Hval)
    as (first & rest & Hfirst & Hsc & Htr & Hfc & Hpass).
  injection Hfirst as <- <-.
  assert (Hsc' : size_consistent results = true).
  { rewrite Hsc. apply forallb_forall. intros f Hf.
    apply size_eqb_eq. rewrite List.Forall_forall in Hsizes. exact (Hsizes f Hf). }
  assert (Htr' : has_transparency results = true).
  { rewrite Htr. apply forallb_forall. intros f Hf.
    rewrite List.Forall_forall in Hshape. destruct (Hshape f Hf) as [_ ->].
    reflexivity. }
  assert (Hdiv : exists avg,
            Float.div_int (float_sum elapsed) (Z.of_nat (List.length elapsed))
            = Return avg).
  { unfold Float.div_int. rewrite Hlen. eexists. reflexivity. }
  destruct Hdiv as [avg Hdiv].
  eexists. exists sheet, md, results, avg, (float_sum elapsed).
  split.
  { unfold generate_walk_cycle, entity_getitem. rewrite Hname, Hdesc.
    cbn [mbind run_bind say say_end act of_io of_result mret run_ret fst snd app].
    rewrite Hrun.
    cbn [mbind run_bind say say_end act of_io of_result mret run_ret fst snd app
         save_sprite_sheet].
    rewrite Hpack. cbv beta iota zeta. rewrite Hval. cbv beta iota zeta.
    rewrite Hdiv. cbv beta iota zeta. reflexivity. }
  split; [exact Hpack |]. split; [exact Hval |]. split; [exact Hshape |].
  split; [exact Hsheet |].
  split; [rewrite Hmd; cbn [animations]; rewrite lookup_singleton_eq; reflexivity |].
  split; [exact Hsc' |]. split; [exact Htr' |].
  split; [rewrite Hfc; reflexivity |].
  split; [rewrite Hpass, Hsc', Htr'; reflexivity |].
  split.
  { match goal with
    | |- requests (?a :: loop ++ ?tl) = _ =>
        change (a :: loop ++ tl) with ([a] ++ loop ++ tl)
    end.
    rewrite !requests_app, Hreq. cbn [requests flat_map app].
    rewrite !app_nil_r. reflexivity. }
  split.
  { match goal with
    | |- written (?a :: loop ++ ?tl) = _ =>
        change (a :: loop ++ tl) with ([a] ++ loop ++ tl)
    end.
    rewrite !written_app, Hwr. reflexivity. }
  split.
  - right. apply in_or_app. right. simpl. tauto.
  - right. apply in_or_app. right. simpl. tauto.
Qed.

End WalkCycleProperties.

(** ** The main program *)

Ltac run_simpl :=
  cbn [mbind WalkCycle.run_bind WalkCycle.say WalkCycle.say_end WalkCycle.act
       WalkCycle.of_io WalkCycle.of_result mret WalkCycle.run_ret fst snd app
       WalkCycle.save_sprite_sheet WalkCycle.is_available].

Section MainProperties.
Import Builtins PIL ComfyUIClient SpritePacker GenerateSprites WalkCycle.
Context `{Kernels} `{Float.Rounding} (menv : MainEnv).

(** A loop that is left by its [return] hands back the error dictionary. *)
Lemma walk_frames_returned (env : Env) (entity_name entity_desc : string)
  (output_dir : path) (poses : list string) :
  forall (idx : nat) (frames : list Image) (timings : list Q)
         (t : list action) (d : CycleResult),
    walk_frames env entity_name entity_desc output_dir poses idx frames timings
    = (t, Ok (inl d)) ->
    has_error d = true.
Proof.
  induction poses as [| pose poses IH]; intros idx frames timings t d.
  - discriminate.
  - rewrite walk_frames_step. cbv zeta.
    destruct (frame_yield env entity_name entity_desc idx pose) as [[img |] | e].
    + match goal with
      | |- context [walk_frames _ _ _ _ _ _ ?fs ?ts] =>
          destruct (walk_frames env entity_name entity_desc output_dir poses
                      (S idx) fs ts) as [t' r] eqn:Hrest
      end.
      intros [= _ ->]. exact (IH _ _ _ _ _ Hrest).
    + intros [= _ <-]. reflexivity.
    + discriminate.
Qed.

(** What [generate_walk_cycle] returns is the error dictionary, with an
    error text that is not empty, or a summary with a full report. *)
Lemma cycle_result_shape (env : Env) (entity : Entity) (output_dir : path)
  (r : CycleResult) :
  snd (generate_walk_cycle env entity output_dir) = Ok r ->
  has_error r = true \/
  exists name n avg total results, r = Summary name n avg total (Report results).
Proof.
  unfold generate_walk_cycle.
  destruct (entity_getitem entity "name") as [name | e]; run_simpl; [| discriminate].
  destruct (entity_getitem entity "description") as [desc | e]; run_simpl;
    [| discriminate].
  destruct (walk_frames env name desc output_dir WALK_POSES 0 [] [])
    as [t [[d | [frames timings]] | e]] eqn:Hloop; run_simpl; [| | discriminate].
  - intros [= <-]. left. exact (walk_frames_returned _ _ _ _ _ _ _ _ _ _ Hloop).
  - destruct (pack frames name "walk") as [[sheet md] | e]; run_simpl;
      [| discriminate].
    destruct (validate_sprites frames) as [[p msg | results] | e]; run_simpl;
      try discriminate.
    destruct (Float.div_int _ _) as [avg | e]; run_simpl; [| discriminate].
    intros [= <-]. right. eexists _, _, _, _, _. reflexivity.
Qed.

Lemma requests_say (line : list fragment) (ending : string) (t : list action) :
  requests (Say line ending :: t) = requests t.
Proof. reflexivity. Qed.

Lemma requests_probe (t : list action) : requests (Probe :: t) = requests t.
Proof. reflexivity. Qed.

Lemma requests_mkdir (p : path) (parents : bool) (t : list action) :
  requests (Mkdir p parents :: t) = requests t.
Proof. reflexivity. Qed.

Lemma written_say (line : list fragment) (ending : string) (t : list action) :
  written (Say line ending :: t) = written t.
Proof. reflexivity. Qed.

Lemma written_probe (t : list action) : written (Probe :: t) = written t.
Proof. reflexivity. Qed.

Lemma written_mkdir (p : path) (parents : bool) (t : list action) :
  written (Mkdir p parents :: t) = written t.
Proof. reflexivity. Qed.

(** The loop over the entities when every cycle returns. *)
Lemma run_entities_returns (entities : list Entity) :
  forall (k : nat) (results rs : list CycleResult),
    Forall2 (fun ke r => snd (cycle_run menv ke) = Ok r) (enumerate k entities) rs ->
    exists trace,
      run_entities menv entities k (Dir "output") results
      = (trace, Ok (results ++ rs)) /\
      requests trace
      = flat_map (fun ke => requests (fst (cycle_run menv ke))) (enumerate k entities) /\
      written trace
      = flat_map (fun ke => written (fst (cycle_run menv ke))) (enumerate k entities).
Proof.
  induction entities as [| entity entities IH]; intros k results rs Hall.
  - inversion Hall; subst. exists []. rewrite app_nil_r. repeat split; reflexivity.
  - rewrite enumerate_cons in Hall |- *.
    inversion Hall as [| ke r ? rs' Hfirst Hrest]; subst.
    unfold cycle_run in Hfirst. cbn [fst snd] in Hfirst.
    cbn [run_entities flat_map]. unfold cycle_run at 1 3. cbn [fst snd].
    destruct (generate_walk_cycle (cycles menv k) entity (Dir "output"))
      as [t a] eqn:Hcycle.
    cbn [snd] in Hfirst. subst a. run_simpl.
    destruct (IH (S k) (results ++ [r]) rs' Hrest) as (trace & Hrun & Hreq & Hwr).
    rewrite Hrun. exists (t ++ trace).
    split; [rewrite <- app_assoc; reflexivity |].
    rewrite requests_app, written_app, Hreq, Hwr. split; reflexivity.
Qed.

(** The loop over the entities when a cycle raises. *)
Lemma run_entities_raises (j : nat) (entity : Entity) (e : error)
  (after before : list (nat * Entity)) :
  forall (entities : list Entity) (k : nat) (results : list CycleResult),
    enumerate k entities = before ++ (j, entity) :: after ->
    Forall (fun ke => exists r, snd (cycle_run menv ke) = Ok r) before ->
    snd (cycle_run menv (j, entity)) = Err e ->
    exists trace,
      run_entities menv entities k (Dir "output") results = (trace, Err e) /\
      requests trace
      = flat_map (fun ke => requests (fst (cycle_run menv ke)))
                 (before ++ [(j, entity)]) /\
      written trace
      = flat_map (fun ke => written (fst (cycle_run menv ke)))
                 (before ++ [(j, entity)]).
Proof.
  induction before as [| [i en] before IH]; intros entities k results Henum Hok Herr.
  - destruct entities as [| entity0 entities]; [discriminate Henum |].
    rewrite enumerate_cons in Henum. injection Henum as -> -> _.
    unfold cycle_run in Herr |- *. cbn [fst snd app flat_map] in Herr |- *.
    cbn [run_entities].
    destruct (generate_walk_cycle (cycles menv j) entity (Dir "output"))
      as [t a] eqn:Hcycle.
    cbn [snd] in Herr. subst a. run_simpl.
    exists t. rewrite !app_nil_r. repeat split; reflexivity.
  - destruct entities as [| entity0 entities]; [discriminate Henum |].
    rewrite enumerate_cons in Henum. cbn [app] in Henum.
    injection Henum as <- <- Henum.
    inversion Hok as [| ? ? [r Hr] Hok']; subst.
    unfold cycle_run in Hr. cbn [fst snd] in Hr.
    cbn [run_entities app flat_map]. unfold cycle_run at 1 3. cbn [fst snd].
    destruct (generate_walk_cycle (cycles menv k) entity0 (Dir "output"))
      as [t a] eqn:Hcycle.
    cbn [snd] in Hr. subst a. run_simpl.
    destruct (IH entities (S k) (results ++ [r]) Henum Hok' Herr)
      as (trace & Hrun & Hreq & Hwr).
    rewrite Hrun. exists (t ++ trace). split; [reflexivity |].
    rewrite requests_app, written_app, Hreq, Hwr. split; reflexivity.
Qed.

Lemma collect_returns {A B : Type} (f : A -> result B) (l : list A) :
  Forall (fun a => exists b, f a = Return b) l ->
  exists bs, collect f l = Return bs.
Proof.
  induction 1 as [| a l [b Hb] _ [bs IH]]; [eexists; reflexivity |].
  cbn [collect]. rewrite Hb, IH. eexists. reflexivity.
Qed.

Lemma validation_lines_quiet (successful : list CycleResult) :
  Forall (fun r => exists name n avg total results,
            r = Summary name n avg total (Report results)) successful ->
  exists trace,
    validation_lines successful = (trace, Ok tt) /\
    requests trace = [] /\ written trace = [].
Proof.
  induction 1 as [| r l (name & n & avg & total & results & ->) _ (trace & IH & Hreq & Hwr)].
  - exists []. repeat split; reflexivity.
  - cbn [validation_lines item_validation item_entity item_visual_similarity].
    run_simpl. rewrite IH. eexists. split; [reflexivity |].
    split; [exact Hreq | exact Hwr].
Qed.

(** [main] once the entities are done: the summary makes no request and
    writes no file. *)
Lemma main_summary (t : list action) (results : list CycleResult) :
  available menv ->
  run_entities menv TEST_ENTITIES 0 (Dir "output") [] = (t, Ok results) ->
  Forall (fun r => has_error r = true \/
                   exists name n avg total rep,
                     r = Summary name n avg total (Report rep)) results ->
  snd (main menv) = Ok tt /\
  requests (fst (main menv)) = requests t /\
  written (fst (main menv)) = written t.
Proof.
  intros (response & Hstats & Hstatus) Hrun Hshape.
  set (successful := List.filter (fun r => negb (has_error r)) results).
  assert (Hsummaries : Forall (fun r => exists name n avg total rep,
                                 r = Summary name n avg total (Report rep))
                         successful).
  { apply List.Forall_forall. intros r Hr. apply filter_In in Hr as [Hin Hno].
    rewrite List.Forall_forall in Hshape.
    destruct (Hshape r Hin) as [Herr | Hsum]; [| exact Hsum].
    rewrite Herr in Hno. discriminate Hno. }
  destruct (collect_returns item_frames successful) as [fs Hfs].
  { eapply Forall_impl; [exact Hsummaries |].
    intros r (name & n & avg & total & rep & ->). eexists. reflexivity. }
  destruct (collect_returns item_avg_time successful) as [avgs Havgs].
  { eapply Forall_impl; [exact Hsummaries |].
    intros r (name & n & avg & total & rep & ->). eexists. reflexivity. }
  destruct (validation_lines_quiet successful Hsummaries)
    as (lines & Hlines & Hlreq & Hlwr).
  unfold main. rewrite Hstats. run_simpl. rewrite Hstatus.
  change (200 =? 200) with true. cbn [negb]. rewrite Hrun. run_simpl.
  fold successful. rewrite Hfs, Havgs, Hlines.
  destruct (List.filter has_error results) as [| f0 failed];
    destruct successful as [| s0 rest]; run_simpl.
  all: try (unfold Float.div_int;
            match goal with
            | |- context [Z.of_nat (List.length (?a :: ?l)) =? 0] =>
                destruct (Z.eqb_spec (Z.of_nat (List.length (a :: l))) 0) as [Hz | _];
                [simpl List.length in Hz; lia |]
            end; run_simpl).
  all: split; [reflexivity |].
  all: repeat (rewrite ?requests_say, ?requests_probe, ?requests_mkdir,
                 ?written_say, ?written_probe, ?written_mkdir,
                 ?requests_app, ?written_app; cbn [fst]).
  all: rewrite ?Hlreq, ?Hlwr, ?app_nil_r; split; reflexivity.
Qed.

(** X23: [main] without a backend.  When the probe of [is_available] is
    not answered with status 200 -- another status, or an exception, which
    [is_available] turns into [False] -- [main] ends normally after the
    probe: no cycle is run, so no request is sent to the client, no
    directory is made and no file is written. *)
Theorem main_without_backend :
  (forall response,
     system_stats menv = Return response -> status_code response <> 200) ->
  snd (main menv) = Ok tt /\
  In Probe (fst (main menv)) /\
  requests (fst (main menv)) = [] /\
  written (fst (main menv)) = [] /\
  (forall p parents, ~ In (Mkdir p parents) (fst (main menv))).
Proof.
  intros Hdown.
  assert (Hmain : main menv
            = ([Say [Text rule] newline;
                Say [Text "POC: Isometric Sprite Animation Generator"] newline;
                Say [Text rule] newline;
                Say [Text (newline ++ "[POC] Connecting to ComfyUI at "
                           ++ "http://localhost:8188" ++ "...")] newline;
                Probe;
                Say [Text "✗ ComfyUI not available!"] newline;
                Say [Text (newline ++ "Please start ComfyUI:")] newline;
                Say [Text "  docker-compose up comfyui"] newline], Ok tt)).
  { unfold main.
    destruct (system_stats menv) as [response | e] eqn:Hstats; run_simpl.
    - destruct (Z.eqb_spec (status_code response) 200) as [Hok | _];
        [destruct (Hdown response eq_refl Hok) |].
      reflexivity.
    - reflexivity. }
  rewrite Hmain. cbn [fst snd].
  split; [reflexivity |]. split; [simpl; tauto |].
  split; [reflexivity |]. split; [reflexivity |].
  intros p parents Hin. simpl in Hin.
  repeat (destruct Hin as [Hin | Hin]; [discriminate Hin |]). exact Hin.
Qed.

(** X24: [main] runs every entity.  With the backend available, when the
    cycle of each of the three test entities returns -- a summary, or the
    error dictionary of a failed frame -- [main] ends normally, and what it
    sent to the client and wrote to disk is what the three cycles did, in
    the order of the entities: an entity that failed keeps no later entity
    from being generated. *)
Theorem main_runs_every_entity (rs : list CycleResult) :
  available menv ->
  Forall2 (fun ke r => snd (cycle_run menv ke) = Ok r)
          (enumerate 0 TEST_ENTITIES) rs ->
  snd (main menv) = Ok tt /\
  requests (fst (main menv))
  = flat_map (fun ke => requests (fst (cycle_run menv ke)))
             (enumerate 0 TEST_ENTITIES) /\
  written (fst (main menv))
  = flat_map (fun ke => written (fst (cycle_run menv ke)))
             (enumerate 0 TEST_ENTITIES).
Proof.
  intros Havailable Hall.
  destruct (run_entities_returns TEST_ENTITIES 0%nat [] rs Hall)
    as (trace & Hrun & Hreq & Hwr).
  assert (Hshape : Forall (fun r => has_error r = true \/
                             exists name n avg total rep,
                               r = Summary name n avg total (Report rep)) rs).
  { clear -Hall. induction Hall as [| ke r ? ? Hr _ IH]; [apply List.Forall_nil |].
    apply List.Forall_cons; [| exact IH].
    exact (cycle_result_shape _ _ _ _ Hr). }
  destruct (main_summary trace rs Havailable Hrun Hshape) as (Hend & Hreq' & Hwr').
  split; [exact Hend |].
  split; [rewrite Hreq'; exact Hreq | rewrite Hwr'; exact Hwr].
Qed.

(** X25: [main] does not survive an exception.  With the backend
    available, when the cycle of an entity raises -- its data is no image,
    say -- after the cycles before it returned, [main] ends with that
    exception, and what it sent to the client and wrote to disk is what
    the cycles up to that one did: the entities after it are never
    generated. *)
Theorem main_stops_on_exception (before : list (nat * Entity)) (j : nat)
  (entity : Entity) (after : list (nat * Entity)) (e : error) :
  available menv ->
  enumerate 0 TEST_ENTITIES = before ++ (j, entity) :: after ->
  Forall (fun ke => exists r, snd (cycle_run menv ke) = Ok r) before ->
  snd (cycle_run menv (j, entity)) = Err e ->
  snd (main menv) = Err e /\
  requests (fst (main menv))
  = flat_map (fun ke => requests (fst (cycle_run menv ke)))
             (before ++ [(j, entity)]) /\
  written (fst (main menv))
  = flat_map (fun ke => written (fst (cycle_run menv ke)))
             (before ++ [(j, entity)]).
Proof.
  intros (response & Hstats & Hstatus) Henum Hok Herr.
  destruct (run_entities_raises j entity e after before TEST_ENTITIES 0%nat []
              Henum Hok Herr) as (trace & Hrun & Hreq & Hwr).
  unfold main. rewrite Hstats. run_simpl. rewrite Hstatus.
  change (200 =? 200) with true. cbn [negb]. rewrite Hrun. run_simpl.
  split; [reflexivity |].
  repeat (rewrite ?requests_say, ?requests_probe, ?requests_mkdir,
            ?written_say, ?written_probe, ?written_mkdir,
            ?requests_app, ?written_app; cbn [fst]).
  rewrite ?app_nil_r. split; [exact Hreq | exact Hwr].
Qed.

End MainProperties.

(** * Sample runs of the further properties *)

Lemma wait_for_completion_ignores_later_witness :
  ComfyUIClient._wait_for_completion Backends.healthy (JStr "job-1") "c"
  = ComfyUIClient._wait_for_completion MoreBackends.trailing_garbage (JStr "job-1") "c".
Proof.
  apply (wait_for_completion_ignores_later Backends.healthy
           MoreBackends.trailing_garbage "job-1" "c"
           [Backends.progress; Backends.executing (JStr "3") "job-1"]
           (Backends.executing JNull "job-1") [] [ComfyUIClient.WsGarbage]
           eq_refl eq_refl).
  - apply List.Forall_cons; [| apply List.Forall_cons; [| apply List.Forall_nil]].
    + apply progress_event_intro; [apply well_formed_progress | reflexivity].
    + apply progress_event_intro; [apply well_formed_executing | reflexivity].
  - left. eexists _, _. repeat split; try reflexivity. right. reflexivity.
Defined.

Lemma wait_for_completion_foreign_jobs_witness :
  ComfyUIClient._wait_for_completion MoreBackends.other_job (JStr "job-1") "c"
  = ([ComfyUIClient.WsConnect "c"; ComfyUIClient.CancelTimeoutTask;
      ComfyUIClient.CancelMessageTask; ComfyUIClient.WsClose], Raise Timeout).
Proof.
  apply (wait_for_completion_foreign_jobs MoreBackends.other_job "job-1" "c"
           [Backends.executing JNull "job-2"] eq_refl).
  apply List.Forall_cons; [| apply List.Forall_nil].
  exists "job-2". split; [discriminate |].
  eexists _, _. repeat split; try reflexivity. right. reflexivity.
Defined.


Lemma get_generated_image_requests_witness :
  fst (ComfyUIClient._get_generated_image Backends.second_served (JStr "job-1"))
  = [ComfyUIClient.GetHistory (JStr "job-1");
     ComfyUIClient.GetView (JStr "a.png") (JStr "") (JStr "output");
     ComfyUIClient.GetView (JStr "b.png") (JStr "") (JStr "output")].
Proof.
  apply (proj1 (get_generated_image_requests Backends.second_served "job-1" _ _ _
                  eq_refl eq_refl eq_refl (history_with_outputs _)
                  (history_with_well_formed ["a.png"; "b.png"]))
           [Backends.descriptor "a.png"] (Backends.descriptor "b.png") []
           Backends.png).
  - reflexivity.
  - apply List.Forall_cons; [| apply List.Forall_nil].
    eexists. split; [reflexivity |]. simpl. lia.
  - eexists. repeat split; reflexivity.
Defined.

Lemma get_generated_image_transport_failure_witness :
  ComfyUIClient._get_generated_image MoreBackends.view_unreachable (JStr "job-1")
  = ([ComfyUIClient.GetHistory (JStr "job-1");
      ComfyUIClient.GetView (JStr "poc_sprite_00001_.png") (JStr "") (JStr "output")],
     Raise (TransportError "connection reset")).
Proof.
  apply (get_generated_image_transport_failure MoreBackends.view_unreachable "job-1"
           _ _ _ [] [] (Backends.descriptor "poc_sprite_00001_.png")
           (TransportError "connection reset")
           eq_refl eq_refl eq_refl (history_with_outputs _)
           (history_with_well_formed ["poc_sprite_00001_.png"])).
  - reflexivity.
  - apply List.Forall_nil.
  - reflexivity.
Defined.

Lemma pack_sheet_contents_witness :
  exists sheet md,
    SpritePacker.pack (H := Fixtures.nearest_kernels)
      [Fixtures.opaque_red; Fixtures.opaque_blue; Fixtures.opaque_red]
      "goblin" "walk" = Return (sheet, md) /\
    PIL.mode sheet = PIL.RGBA /\
    PIL.getpixel sheet 2 1 2 = "255"%byte /\
    PIL.getpixel sheet 3 3 3 = "000"%byte.
Proof.
  destruct (SpritePacker.pack (H := Fixtures.nearest_kernels)
              [Fixtures.opaque_red; Fixtures.opaque_blue; Fixtures.opaque_red]
              "goblin" "walk") as [[sheet md] | e] eqn:Hpack;
    [| vm_compute in Hpack; discriminate Hpack].
  exists sheet, md. split; [reflexivity |].
  destruct (pack_sheet_contents (H := Fixtures.nearest_kernels)
              Fixtures.opaque_red [Fixtures.opaque_blue; Fixtures.opaque_red]
              "goblin" "walk" sheet md Hpack) as (Hmode & Hin & Hout).
  split; [exact Hmode |]. split.
  - rewrite (Hin 1%nat Fixtures.opaque_blue Fixtures.opaque_blue eq_refl eq_refl
               2%nat 1%nat 2%nat); [reflexivity |].
    split; split; first [apply Z.leb_le | apply Z.ltb_lt]; reflexivity.
  - apply Hout. intros k Hk [[Hx Hx'] [Hy Hy']].
    apply Z.leb_le in Hx, Hy. apply Z.ltb_lt in Hx', Hy'.
    destruct k as [| [| [| k]]]; [| | | simpl in Hk; lia]; discriminate.
Defined.

Lemma pack_rectangles_tile_witness :
  exists sheet md entries,
    SpritePacker.pack (H := Fixtures.nearest_kernels)
      [Fixtures.opaque_red; Fixtures.opaque_blue; Fixtures.opaque_red]
      "goblin" "walk" = Return (sheet, md) /\
    SpritePacker.animations md !! "walk" = Some entries /\
    List.length entries = 3%nat /\
    PIL.size sheet = (4, 4).
Proof.
  destruct (SpritePacker.pack (H := Fixtures.nearest_kernels)
              [Fixtures.opaque_red; Fixtures.opaque_blue; Fixtures.opaque_red]
              "goblin" "walk") as [[sheet md] | e] eqn:Hpack;
    [| vm_compute in Hpack; discriminate Hpack].
  destruct (pack_rectangles_tile (H := Fixtures.nearest_kernels)
              Fixtures.opaque_red [Fixtures.opaque_blue; Fixtures.opaque_red]
              "goblin" "walk" sheet md Hpack)
    as (rows & entries & Hentries & Hlen & Hsize & Hrows & _).
  exists sheet, md, entries. split; [reflexivity |].
  split; [exact Hentries |]. split; [exact Hlen |].
  rewrite Hsize. unfold grid_columns in *.
  cbv [Z.of_nat Pos.of_succ_nat Pos.succ List.length PIL.size fst snd] in Hrows |- *.
  simpl in Hrows |- *. f_equal. lia.
Defined.

Lemma normalize_sprite_centred_witness :
  exists out,
    SpritePacker.normalize_sprite (H := Fixtures.nearest_kernels)
      (H0 := Fixtures.exact_rounding) MoreFixtures.wide_red (4, 4) = Return out /\
    PIL.getpixel out 0 0 0 = "000"%byte /\
    PIL.getpixel out 0 1 0 = "255"%byte /\
    PIL.getpixel out 3 2 0 = "255"%byte /\
    PIL.getpixel out 3 3 0 = "000"%byte.
Proof.
  destruct (SpritePacker.normalize_sprite (H := Fixtures.nearest_kernels)
              (H0 := Fixtures.exact_rounding) MoreFixtures.wide_red (4, 4))
    as [out | e] eqn:Hrun; [| vm_compute in Hrun; discriminate Hrun].
  exists out. split; [reflexivity |].
  destruct (normalize_sprite_centred (H := Fixtures.nearest_kernels)
              (H0 := Fixtures.exact_rounding) MoreFixtures.wide_red 4 4 out Hrun)
    as (fitted & Hfit & _ & _ & Hpx).
  destruct Hfit as [[Hsize _] | (_ & _ & Hres)]; [discriminate Hsize |].
  vm_compute in Hres. injection Hres as <-.
  repeat split.
  - apply (proj2 (Hpx 0%nat 0%nat 0%nat)). intros [_ [Hy _]].
    apply Z.leb_le in Hy. discriminate Hy.
  - rewrite (proj1 (Hpx 0%nat 1%nat 0%nat)); [reflexivity |].
    split; split; first [apply Z.leb_le | apply Z.ltb_lt]; reflexivity.
  - rewrite (proj1 (Hpx 3%nat 2%nat 0%nat)); [reflexivity |].
    split; split; first [apply Z.leb_le | apply Z.ltb_lt]; reflexivity.
  - apply (proj2 (Hpx 3%nat 3%nat 0%nat)). intros [_ [_ Hy]].
    apply Z.ltb_lt in Hy. discriminate Hy.
Defined.

Lemma normalize_sprite_scales_by_alpha_witness :
  exists out,
    SpritePacker.normalize_sprite (H := Fixtures.nearest_kernels)
      (H0 := Fixtures.exact_rounding) Fixtures.half_white (1, 1) = Return out /\
    PIL.Z_of_byte (PIL.getpixel out 0 0 3) < 128 /\
    PIL.Z_of_byte (PIL.getpixel out 0 0 0) <= 255.
Proof.
  destruct (SpritePacker.normalize_sprite (H := Fixtures.nearest_kernels)
              (H0 := Fixtures.exact_rounding) Fixtures.half_white (1, 1))
    as [out | e] eqn:Hrun; [| vm_compute in Hrun; discriminate Hrun].
  exists out. split; [reflexivity |].
  destruct (normalize_sprite_scales_by_alpha (H := Fixtures.nearest_kernels)
              (H0 := Fixtures.exact_rounding) Fixtures.half_white 1 1 out Hrun)
    as (fitted & Hfit & Hpx).
  destruct Hfit as [[_ ->] | (Hsize & _)]; [| destruct (Hsize eq_refl)].
  destruct (Hpx eq_refl 0%nat 0%nat) as [Hbands Halpha].
  { split; split; first [apply Z.leb_le | apply Z.ltb_lt]; reflexivity. }
  split.
  - apply Halpha. split; apply Z.ltb_lt; reflexivity.
  - exact (proj2 (Hbands 0%nat)).
Defined.

Lemma normalize_sprite_errors_witness :
  SpritePacker.normalize_sprite (H := Fixtures.nearest_kernels)
    (H0 := Fixtures.exact_rounding) Fixtures.no_pixels (32, 32)
  = Raise ZeroDivisionError /\
  SpritePacker.normalize_sprite (H := Fixtures.nearest_kernels)
    (H0 := Fixtures.exact_rounding) MoreFixtures.strip_red (32, 32)
  = Raise (ValueError "height and width must be > 0").
Proof.
  split.
  - apply (proj1 (normalize_sprite_errors (H := Fixtures.nearest_kernels)
                    (H0 := Fixtures.exact_rounding) Fixtures.no_pixels 32 32
                    ltac:(discriminate))).
    intros [Hw _]. simpl in Hw. lia.
  - apply (proj1 (proj2 (normalize_sprite_errors (H := Fixtures.nearest_kernels)
                    (H0 := Fixtures.exact_rounding) MoreFixtures.strip_red 32 32
                    ltac:(discriminate)))).
    + split; simpl; lia.
    + right. apply Z.ltb_lt. reflexivity.
Defined.

Lemma validate_sprites_identical_histograms_witness :
  exists r,
    GenerateSprites.validate_sprites (H := Fixtures.exact_rounding)
      [Fixtures.opaque_red; Fixtures.opaque_red; Fixtures.opaque_red]
    = Return (GenerateSprites.Report r) /\
    (GenerateSprites.visual_similarity r == 1)%Q /\
    GenerateSprites.passes r = true.
Proof.
  destruct (validate_sprites_identical_histograms (H := Fixtures.exact_rounding)
              Fixtures.opaque_red [Fixtures.opaque_red; Fixtures.opaque_red])
    as (r & Hrun & Hscore & Hpass).
  - intros x y Hxy. exact Hxy.
  - intros k Hk. simpl. reflexivity.
  - simpl. lia.
  - split; simpl; lia.
  - repeat (apply List.Forall_cons; [reflexivity |]). apply List.Forall_nil.
  - exists r. split; [exact Hrun |]. split; [exact Hscore |].
    rewrite Hpass.
    destruct (validate_sprites_report _ _ Hrun) as (f & rest & Hf & -> & -> & _).
    injection Hf as <- <-. reflexivity.
Defined.

Lemma generate_walk_cycle_stops_witness :
  snd (WalkCycle.generate_walk_cycle (H := Fixtures.nearest_kernels)
         (H0 := Fixtures.exact_rounding) MoreFixtures.failing_second
         MoreFixtures.goblin (WalkCycle.Dir "output"))
  = WalkCycle.Ok (WalkCycle.Failed "Frame 1 generation failed") /\
  written (fst (WalkCycle.generate_walk_cycle (H := Fixtures.nearest_kernels)
                  (H0 := Fixtures.exact_rounding) MoreFixtures.failing_second
                  MoreFixtures.goblin (WalkCycle.Dir "output")))
  = [WalkCycle.Child (WalkCycle.Child (WalkCycle.Dir "output") "goblin") "walk_0.png"].
Proof.
  destruct (generate_walk_cycle_stops (H := Fixtures.nearest_kernels)
              (H0 := Fixtures.exact_rounding) MoreFixtures.failing_second
              MoreFixtures.goblin (WalkCycle.Dir "output")
              "goblin" "small green-skinned goblin"
              [(0%nat, "standing idle, centered pose")]
              1%nat "mid-stride walking, left foot forward"
              [(2%nat, "standing idle, centered pose");
               (3%nat, "mid-stride walking, right foot forward")]
              eq_refl eq_refl eq_refl)
    as (Hfailed & _ & _ & Hwritten).
  - apply List.Forall_cons; [| apply List.Forall_nil].
    eexists. reflexivity.
  - intros im Hyield. discriminate Hyield.
  - split; [apply Hfailed; reflexivity | exact Hwritten].
Defined.

Lemma generate_walk_cycle_completes_witness :
  exists trace results avg_time total_time,
    WalkCycle.generate_walk_cycle (H := Fixtures.nearest_kernels)
      (H0 := Fixtures.exact_rounding) MoreFixtures.serving
      MoreFixtures.goblin (WalkCycle.Dir "output")
    = (trace, WalkCycle.Ok (WalkCycle.Summary "goblin" 4 avg_time total_time
                              (GenerateSprites.Report results))) /\
    GenerateSprites.size_consistent results = true /\
    GenerateSprites.has_transparency results = true /\
    List.length (written trace) = 6%nat.
Proof.
  destruct (generate_walk_cycle_completes (H := Fixtures.nearest_kernels)
              (H0 := Fixtures.exact_rounding) MoreFixtures.serving
              MoreFixtures.goblin (WalkCycle.Dir "output")
              "goblin" "small green-skinned goblin"
              [MoreFixtures.kept_frame; MoreFixtures.kept_frame;
               MoreFixtures.kept_frame; MoreFixtures.kept_frame]
              eq_refl eq_refl)
    as (trace & sheet & md & results & avg & total & Hrun & _ & _ & _ & _ & _
        & Hsizes & Halpha & _ & _ & _ & Hwritten & _).
  - repeat (apply List.Forall2_cons; [reflexivity |]). apply List.Forall2_nil.
  - exists trace, results, avg, total. split; [exact Hrun |].
    split; [exact Hsizes |]. split; [exact Halpha |].
    rewrite Hwritten. reflexivity.
Defined.

Lemma main_without_backend_witness :
  snd (WalkCycle.main (H := Fixtures.nearest_kernels) (H0 := Fixtures.exact_rounding)
         MoreFixtures.offline) = WalkCycle.Ok tt /\
  requests (fst (WalkCycle.main (H := Fixtures.nearest_kernels)
                   (H0 := Fixtures.exact_rounding) MoreFixtures.offline)) = [].
Proof.
  destruct (main_without_backend (H := Fixtures.nearest_kernels)
              (H0 := Fixtures.exact_rounding) MoreFixtures.offline)
    as (Hend & _ & Hreq & _).
  - intros response Hstats. discriminate Hstats.
  - split; [exact Hend | exact Hreq].
Defined.

Lemma main_runs_every_entity_witness :
  snd (WalkCycle.main (H := Fixtures.nearest_kernels) (H0 := Fixtures.exact_rounding)
         MoreFixtures.flaky) = WalkCycle.Ok tt /\
  written (fst (WalkCycle.main (H := Fixtures.nearest_kernels)
                  (H0 := Fixtures.exact_rounding) MoreFixtures.flaky))
  = [WalkCycle.Child (WalkCycle.Child (WalkCycle.Dir "output") "goblin") "walk_0.png";
     WalkCycle.Child (WalkCycle.Child (WalkCycle.Dir "output") "fighter") "walk_0.png";
     WalkCycle.Child (WalkCycle.Child (WalkCycle.Dir "output") "skeleton") "walk_0.png"].
Proof.
  destruct (main_runs_every_entity (H := Fixtures.nearest_kernels)
              (H0 := Fixtures.exact_rounding) MoreFixtures.flaky
              [WalkCycle.Failed "Frame 1 generation failed";
               WalkCycle.Failed "Frame 1 generation failed";
               WalkCycle.Failed "Frame 1 generation failed"])
    as (Hend & _ & Hwritten).
  - eexists. split; reflexivity.
  - repeat (apply List.Forall2_cons; [reflexivity |]). apply List.Forall2_nil.
  - split; [exact Hend |]. rewrite Hwritten. reflexivity.
Defined.

Lemma main_stops_on_exception_witness :
  snd (WalkCycle.main (H := Fixtures.nearest_kernels) (H0 := Fixtures.exact_rounding)
         MoreFixtures.corrupt_second) = WalkCycle.Err WalkCycle.ImageError /\
  written (fst (WalkCycle.main (H := Fixtures.nearest_kernels)
                  (H0 := Fixtures.exact_rounding) MoreFixtures.corrupt_second))
  = [WalkCycle.Child (WalkCycle.Child (WalkCycle.Dir "output") "goblin") "walk_0.png"].
Proof.
  destruct (main_stops_on_exception (H := Fixtures.nearest_kernels)
              (H0 := Fixtures.exact_rounding) MoreFixtures.corrupt_second
              [(0%nat, nth 0 WalkCycle.TEST_ENTITIES ∅)]
              1%nat (nth 1 WalkCycle.TEST_ENTITIES ∅)
              [(2%nat, nth 2 WalkCycle.TEST_ENTITIES ∅)]
              WalkCycle.ImageError)
    as (Hend & _ & Hwritten).
  - eexists. split; reflexivity.
  - reflexivity.
  - apply List.Forall_cons; [| apply List.Forall_nil]. eexists. reflexivity.
  - reflexivity.
  - split; [exact Hend |]. rewrite Hwritten. reflexivity.
Defined.
